(** * Masternode core of MultiSys: schedules, scoring, announcements, heartbeats

    A shallow embedding of [src/masternode.cpp].  Machine integers are
    integers of [Z] with their wrap-around written out, the registry of
    [mnodeman] is a finite map from collateral outpoints to records, and the
    collaborators the file only calls (chain, signer, clock, spork) are
    section variables or fields of an environment record. *)

From Stdlib Require Import ZArith List Lia Bool String Sorted.
From stdpp Require Import base option gmap.

Local Open Scope Z_scope.

(** ** Machine integers *)

(** [int] and [int64_t] values are kept as [Z]; an arithmetic result is brought
    back into the signed range by [to_int32] / [to_int64] (two's complement
    wrap-around, which is what the compiled code does where C++ leaves signed
    overflow undefined). *)
Definition INT32_MAX : Z := 2147483647.
Definition INT64_MAX : Z := 9223372036854775807.

Definition to_int32 (x : Z) : Z := (x + 2 ^ 31) mod 2 ^ 32 - 2 ^ 31.
Definition to_int64 (x : Z) : Z := (x + 2 ^ 63) mod 2 ^ 64 - 2 ^ 63.

Definition in_int32 (x : Z) : Prop := - INT32_MAX - 1 <= x <= INT32_MAX.
Definition in_int64 (x : Z) : Prop := - INT64_MAX - 1 <= x <= INT64_MAX.

Definition add32 (a b : Z) : Z := to_int32 (a + b).
Definition sub32 (a b : Z) : Z := to_int32 (a - b).
Definition add64 (a b : Z) : Z := to_int64 (a + b).
Definition sub64 (a b : Z) : Z := to_int64 (a - b).
Definition mul64 (a b : Z) : Z := to_int64 (a * b).

(** [uint256] arithmetic is modulo [2 ^ 256]. *)
Definition UINT256_MOD : Z := 2 ^ 256.
Definition UINT256_ZERO : Z := 0.
Definition in_uint256 (x : Z) : Prop := 0 <= x < UINT256_MOD.
Definition add256 (a b : Z) : Z := (a + b) mod UINT256_MOD.
Definition sub256 (a b : Z) : Z := (a - b) mod UINT256_MOD.

(** ** Schedules *)

Module Schedules.
Section WithCoin.

(** [COIN] (amount.h) and the consensus parameter [nMaxMoneyOut] are not
    part of the translated file; they are parameters of the schedules. *)
Variable COIN : Z.
Variable nMaxMoneyOut : Z.

(** [COIN] is positive and the largest amount of the tables fits a
    [CAmount]. *)
Definition coin_ok : Prop := 0 < COIN /\ 611591 * COIN <= INT64_MAX.

(** [CMasternode::GetMasternodeNodeCollateral]. *)
Definition GetMasternodeNodeCollateral (nHeight : Z) : Z :=
  if nHeight >? 53000000 then mul64 100000 COIN else
  if nHeight >? 52999999 then mul64 106921 COIN else
  if nHeight >? 51999999 then mul64 112549 COIN else
  if nHeight >? 50999999 then mul64 118472 COIN else
  if nHeight >? 49999999 then mul64 124708 COIN else
  if nHeight >? 48999999 then mul64 131271 COIN else
  if nHeight >? 47999999 then mul64 138180 COIN else
  if nHeight >? 46999999 then mul64 145453 COIN else
  if nHeight >? 45999999 then mul64 153108 COIN else
  if nHeight >? 44999999 then mul64 161166 COIN else
  if nHeight >? 43999999 then mul64 169649 COIN else
  if nHeight >? 42999999 then mul64 178578 COIN else
  if nHeight >? 41999999 then mul64 187977 COIN else
  if nHeight >? 40999999 then mul64 197870 COIN else
  if nHeight >? 39999999 then mul64 208284 COIN else
  if nHeight >? 38999999 then mul64 219247 COIN else
  if nHeight >? 37999999 then mul64 230786 COIN else
  if nHeight >? 36999999 then mul64 242933 COIN else
  if nHeight >? 35999999 then mul64 255719 COIN else
  if nHeight >? 34999999 then mul64 269177 COIN else
  if nHeight >? 33999999 then mul64 283345 COIN else
  if nHeight >? 32999999 then mul64 298258 COIN else
  if nHeight >? 31999999 then mul64 313955 COIN else
  if nHeight >? 30999999 then mul64 330479 COIN else
  if nHeight >? 29999999 then mul64 347873 COIN else
  if nHeight >? 28999999 then mul64 366182 COIN else
  if nHeight >? 27999999 then mul64 385455 COIN else
  if nHeight >? 26999999 then mul64 405742 COIN else
  if nHeight >? 25999999 then mul64 427097 COIN else
  if nHeight >? 24999999 then mul64 449576 COIN else
  if nHeight >? 23999999 then mul64 473237 COIN else
  if nHeight >? 22999999 then mul64 498145 COIN else
  if nHeight >? 21999999 then mul64 524363 COIN else
  if nHeight >? 20999999 then mul64 551961 COIN else
  if nHeight >? 19999999 then mul64 581011 COIN else
  if nHeight >? 18999999 then mul64 611591 COIN else
  if nHeight >? 17999999 then mul64 555992 COIN else
  if nHeight >? 16999999 then mul64 505447 COIN else
  if nHeight >? 15999999 then mul64 459497 COIN else
  if nHeight >? 14999999 then mul64 417725 COIN else
  if nHeight >? 13999999 then mul64 379750 COIN else
  if nHeight >? 12999999 then mul64 345227 COIN else
  if nHeight >? 11999999 then mul64 313843 COIN else
  if nHeight >? 10999999 then mul64 285312 COIN else
  if nHeight >? 9999999 then mul64 259374 COIN else
  if nHeight >? 8999999 then mul64 235795 COIN else
  if nHeight >? 7999999 then mul64 214359 COIN else
  if nHeight >? 6999999 then mul64 194872 COIN else
  if nHeight >? 5999999 then mul64 177156 COIN else
  if nHeight >? 4999999 then mul64 161051 COIN else
  if nHeight >? 3999999 then mul64 146410 COIN else
  if nHeight >? 2999999 then mul64 133100 COIN else
  if nHeight >? 1999999 then mul64 121000 COIN else
  if nHeight >? 999999 then mul64 110000 COIN else
  if nHeight >? 1 then mul64 100000 COIN else
  mul64 0 COIN.

(** The chain of [if (nHeight == ..) / else if (nHeight <= ..)] of
    [CMasternode::GetBlockValue] that assigns the local [nSubsidy]; [None]
    stands for the variable left unassigned. *)
Definition nSubsidy_at (nHeight : Z) : option Z :=
  if nHeight =? 1 then Some (mul64 400200 COIN) else
  if nHeight <=? 1000 then Some (mul64 100 COIN) else
  if nHeight <=? 2700 then Some (mul64 110 COIN) else
  if nHeight <=? 999999 then Some (mul64 100 COIN) else
  if nHeight <=? 1999999 then Some (mul64 110 COIN) else
  if nHeight <=? 2999999 then Some (mul64 121 COIN) else
  if nHeight <=? 3999999 then Some (mul64 133 COIN) else
  if nHeight <=? 4999999 then Some (mul64 146 COIN) else
  if nHeight <=? 5999999 then Some (mul64 161 COIN) else
  if nHeight <=? 6999999 then Some (mul64 177 COIN) else
  if nHeight <=? 7999999 then Some (mul64 195 COIN) else
  if nHeight <=? 8999999 then Some (mul64 214 COIN) else
  if nHeight <=? 9999999 then Some (mul64 236 COIN) else
  if nHeight <=? 10999999 then Some (mul64 259 COIN) else
  if nHeight <=? 11999999 then Some (mul64 285 COIN) else
  if nHeight <=? 12999999 then Some (mul64 314 COIN) else
  if nHeight <=? 13999999 then Some (mul64 345 COIN) else
  if nHeight <=? 14999999 then Some (mul64 380 COIN) else
  if nHeight <=? 15999999 then Some (mul64 418 COIN) else
  if nHeight <=? 16999999 then Some (mul64 459 COIN) else
  if nHeight <=? 17999999 then Some (mul64 505 COIN) else
  if nHeight <=? 18999999 then Some (mul64 556 COIN) else
  if nHeight <=? 19999999 then Some (mul64 612 COIN) else
  if nHeight <=? 20999999 then Some (mul64 581 COIN) else
  if nHeight <=? 21999999 then Some (mul64 552 COIN) else
  if nHeight <=? 22999999 then Some (mul64 524 COIN) else
  if nHeight <=? 23999999 then Some (mul64 498 COIN) else
  if nHeight <=? 24999999 then Some (mul64 473 COIN) else
  if nHeight <=? 25999999 then Some (mul64 450 COIN) else
  if nHeight <=? 26999999 then Some (mul64 427 COIN) else
  if nHeight <=? 27999999 then Some (mul64 406 COIN) else
  if nHeight <=? 28999999 then Some (mul64 385 COIN) else
  if nHeight <=? 29999999 then Some (mul64 366 COIN) else
  if nHeight <=? 30999999 then Some (mul64 348 COIN) else
  if nHeight <=? 31999999 then Some (mul64 330 COIN) else
  if nHeight <=? 32999999 then Some (mul64 314 COIN) else
  if nHeight <=? 33999999 then Some (mul64 298 COIN) else
  if nHeight <=? 34999999 then Some (mul64 283 COIN) else
  if nHeight <=? 35999999 then Some (mul64 269 COIN) else
  if nHeight <=? 36999999 then Some (mul64 256 COIN) else
  if nHeight <=? 37999999 then Some (mul64 243 COIN) else
  if nHeight <=? 38999999 then Some (mul64 231 COIN) else
  if nHeight <=? 39999999 then Some (mul64 219 COIN) else
  if nHeight <=? 40999999 then Some (mul64 209 COIN) else
  if nHeight <=? 41999999 then Some (mul64 198 COIN) else
  if nHeight <=? 42999999 then Some (mul64 188 COIN) else
  if nHeight <=? 43999999 then Some (mul64 179 COIN) else
  if nHeight <=? 44999999 then Some (mul64 170 COIN) else
  if nHeight <=? 45999999 then Some (mul64 161 COIN) else
  if nHeight <=? 46999999 then Some (mul64 153 COIN) else
  if nHeight <=? 47999999 then Some (mul64 145 COIN) else
  if nHeight <=? 48999999 then Some (mul64 138 COIN) else
  if nHeight <=? 49999999 then Some (mul64 131 COIN) else
  if nHeight <=? 50999999 then Some (mul64 125 COIN) else
  if nHeight <=? 51999999 then Some (mul64 118 COIN) else
  if nHeight <=? 52999999 then Some (mul64 113 COIN) else
  if nHeight <=? 53999999 then Some (mul64 107 COIN) else
  if nHeight >=? 54000000 then Some (mul64 100 COIN) else
  None.

(** [CMasternode::GetBlockValue]; the global [nMoneySupply] is an
    argument. *)
Definition GetBlockValue (nMoneySupply : Z) (nHeight : Z) : option Z :=
  let maxMoneyOut := nMaxMoneyOut in
  if nMoneySupply >=? maxMoneyOut then Some 0 else
  match nSubsidy_at nHeight with
  | None => None
  | Some nSubsidy =>
      if add64 nMoneySupply nSubsidy >? maxMoneyOut
      then Some (sub64 (add64 nMoneySupply nSubsidy) maxMoneyOut)
      else Some nSubsidy
  end.

(** [CMasternode::GetMasternodePayment]. *)
Definition GetMasternodePayment (nMoneySupply : Z) (nHeight : Z) : option Z :=
  if nHeight >? 1000
  then v ← GetBlockValue nMoneySupply nHeight; Some (Z.quot (mul64 v 85) 100)
  else Some 0.

(** One iteration of the loop of [InitMasternodeCollateralList]: the state
    is the local [prev] and the global vector [vecCollaterals]. *)
Definition collateral_scan_step (i : Z) (st : Z * list (Z * Z)) : Z * list (Z * Z) :=
  let '(prev, vecCollaterals) := st in
  let c := GetMasternodeNodeCollateral i in
  if negb (prev =? c) then (c, vecCollaterals ++ [(i, c)]) else (prev, vecCollaterals).

(** [for (int i = lo; i < ..; i++)] run for [n] iterations; [i] stays
    below 9999999, so that [i++] never wraps. *)
Fixpoint collateral_scan (n : nat) (i : Z) (st : Z * list (Z * Z)) : Z * list (Z * Z) :=
  match n with
  | O => st
  | S n' => collateral_scan n' (i + 1) (collateral_scan_step i st)
  end.

(** The loop between two heights, [lo] included and [hi] excluded. *)
Definition collateral_scan_range (lo hi : Z) (st : Z * list (Z * Z)) : Z * list (Z * Z) :=
  collateral_scan (Z.to_nat (hi - lo)) lo st.

(** [CMasternode::InitMasternodeCollateralList], from the vector it is
    given to the vector it leaves. *)
Definition InitMasternodeCollateralList (vecCollaterals : list (Z * Z)) : list (Z * Z) :=
  snd (collateral_scan_range 0 9999999 (-1, vecCollaterals)).

(** [CMasternode::GetNextMasternodeCollateral] over the vector. *)
Fixpoint GetNextMasternodeCollateral (vecCollaterals : list (Z * Z)) (nHeight : Z) : Z * Z :=
  match vecCollaterals with
  | [] => (-1, -1)
  | p :: rest =>
      if fst p >? nHeight then (sub32 (fst p) nHeight, snd p)
      else GetNextMasternodeCollateral rest nHeight
  end.

End WithCoin.

(** The bands the scan of [InitMasternodeCollateralList] meets, in whole
    coins: first height, height after the last one, amount. *)
Definition low_bands : list (Z * Z * Z) :=
  [ (0, 2, 0); (2, 1000000, 100000); (1000000, 2000000, 110000);
    (2000000, 3000000, 121000); (3000000, 4000000, 133100);
    (4000000, 5000000, 146410); (5000000, 6000000, 161051);
    (6000000, 7000000, 177156); (7000000, 8000000, 194872);
    (8000000, 9000000, 214359); (9000000, 9999999, 235795) ].

(** The transition points the scan records for a given [COIN]. *)
Definition low_transitions (COIN : Z) : list (Z * Z) :=
  map (fun b => (fst (fst b), mul64 (snd b) COIN)) low_bands.

(** No collateral change after [h] among the heights the scan visits. *)
Definition no_change_after (COIN : Z) (h : Z) : Prop :=
  forall h', h < h' < 9999999 ->
    GetMasternodeNodeCollateral COIN h' = GetMasternodeNodeCollateral COIN h.

End Schedules.

(** ** Scoring *)

Module Scoring.

(** The part of a [CBlockIndex] the file reads.  A chain is the list of
    block indexes met from the tip along [pprev]: the head is the tip, the
    tail of a block is its [pprev] chain, the empty list is [NULL]. *)
Record CBlockIndex := mkBlockIndex {
  nHeight : Z;
  phashBlock : Z;
  nTime : Z
}.

Definition Chain := list CBlockIndex.

(** [COutPoint]: a transaction hash ([uint256]) and an output index
    ([uint32_t]). *)
Record COutPoint := mkOutPoint {
  prevout_hash : Z;
  prevout_n : Z
}.

(** The values streamed into a [CHashWriter]. *)
Inductive ser_item :=
| ser_int (x : Z)
| ser_int64 (x : Z)
| ser_uint256 (x : Z)
| ser_bytes (s : string)
| ser_outpoint (o : COutPoint).

Section WithHash.

(** [CHashWriter ss(SER_GETHASH, nVersion); ss << a << b; ss.GetHash()]:
    the double SHA-256 of the serialization, as a [uint256].  The hash
    library is not part of the translated file. *)
Variable HashOf : Z -> list ser_item -> Z.
Variable PROTOCOL_VERSION : Z.

(** The loop of [GetBlockHash]: [BlockReading] walks [pprev] from the
    tip, [n] counts the blocks passed. *)
Fixpoint GetBlockHash_loop (BlockReading : Chain) (n nBlocksAgo : Z) : option Z :=
  match BlockReading with
  | [] => None
  | b :: pprev =>
      if nHeight b >? 0 then
        if n >=? nBlocksAgo then Some (phashBlock b)
        else GetBlockHash_loop pprev (add32 n 1) nBlocksAgo
      else None
  end.

(** [GetBlockHash]: the result is the hash written through the reference
    when the function returns true, with the cache
    [mapCacheBlockHashes] it leaves. *)
Definition GetBlockHash (mapCacheBlockHashes : gmap Z Z) (chain : Chain)
    (nBlockHeight : Z) : option Z * gmap Z Z :=
  match chain with
  | [] => (None, mapCacheBlockHashes)
  | tipIndex :: _ =>
      if nHeight tipIndex =? 0 then (None, mapCacheBlockHashes) else
      let nBlockHeight :=
        if nBlockHeight =? 0 then nHeight tipIndex else nBlockHeight in
      match mapCacheBlockHashes !! nBlockHeight with
      | Some hash => (Some hash, mapCacheBlockHashes)
      | None =>
          let nBlocksAgo :=
            if nBlockHeight >? 0
            then sub32 (add32 (nHeight tipIndex) 1) nBlockHeight
            else 0 in
          if nBlocksAgo <? 0 then (None, mapCacheBlockHashes) else
          match GetBlockHash_loop chain 0 nBlocksAgo with
          | Some hash => (Some hash, <[nBlockHeight := hash]> mapCacheBlockHashes)
          | None => (None, mapCacheBlockHashes)
          end
      end
  end.

(** [CMasternode::CalculateScore] for a record whose collateral input is
    [prevout]; [nBlockHeight] is an [int64_t] narrowed to the [int]
    parameter of [GetBlockHash]. *)
Definition CalculateScore (mapCacheBlockHashes : gmap Z Z) (chain : Chain)
    (prevout : COutPoint) (mod_ : Z) (nBlockHeight : Z) : Z * gmap Z Z :=
  match chain with
  | [] => (UINT256_ZERO, mapCacheBlockHashes)
  | _ :: _ =>
      let aux := add256 (prevout_hash prevout) (prevout_n prevout) in
      match GetBlockHash mapCacheBlockHashes chain (to_int32 nBlockHeight) with
      | (None, cache) => (UINT256_ZERO, cache)
      | (Some hash, cache) =>
          let hash2 := HashOf PROTOCOL_VERSION [ser_uint256 hash] in
          let hash3 := HashOf PROTOCOL_VERSION [ser_uint256 hash; ser_uint256 aux] in
          let r := if hash3 >? hash2 then sub256 hash3 hash2 else sub256 hash2 hash3 in
          (r, cache)
      end
  end.

(** The block of the chain at a height ([chainActive[h]]). *)
Definition block_at (chain : Chain) (h : Z) : option CBlockIndex :=
  List.find (fun b => nHeight b =? h) chain.

(** The score as the specification words it: [B] is the hash of the block
    at height [h], the score is [|H1 - H2|], and it is zero when that
    block is not there. *)
Definition spec_score_of_hash (B : Z) (prevout : COutPoint) : Z :=
  let H1 := HashOf PROTOCOL_VERSION [ser_uint256 B] in
  let H2 := HashOf PROTOCOL_VERSION
              [ser_uint256 B;
               ser_uint256 (add256 (prevout_hash prevout) (prevout_n prevout))] in
  Z.abs (H1 - H2).

Definition spec_score (chain : Chain) (prevout : COutPoint) (h : Z) : Z :=
  let h := if h =? 0 then match chain with tip :: _ => nHeight tip | [] => 0 end else h in
  match block_at chain h with
  | Some b => spec_score_of_hash (phashBlock b) prevout
  | None => UINT256_ZERO
  end.

End WithHash.

(** A chain whose heights go down by one from the tip to the genesis
    block. *)
Fixpoint chain_wf (chain : Chain) : Prop :=
  match chain with
  | [] => True
  | b :: pprev =>
      nHeight b = Z.of_nat (length pprev) /\ chain_wf pprev
  end.

(** Every memoized hash is the one [GetBlockHash] computes from the chain. *)
Definition cache_coherent (cache : gmap Z Z) (chain : Chain) : Prop :=
  forall k v, cache !! k = Some v ->
    fst (GetBlockHash ∅ chain k) = Some v.

(** The hash [GetBlockHash] designates for a request [h] on a chain whose
    tip is above the genesis block: the hash of the block at height
    [h - 1], [h = 0] standing for the height of the tip, and the hash of
    the tip for a negative [h]; the genesis block is never designated. *)
Definition GetBlockHash_target (chain : Chain) (h : Z) : option Z :=
  match chain with
  | [] => None
  | tipIndex :: _ =>
      let T := nHeight tipIndex in
      if T =? 0 then None else
      let h' := if h =? 0 then T else h in
      let t := if h' >? 0 then h' - 1 else T in
      match block_at chain t with
      | Some b => if nHeight b >? 0 then Some (phashBlock b) else None
      | None => None
      end
  end.

(** A toy hash for the examples: a polynomial in the streamed numbers. *)
Definition toy_item (i : ser_item) : Z :=
  match i with
  | ser_int x | ser_int64 x | ser_uint256 x => x
  | ser_bytes s => Z.of_nat (String.length s)
  | ser_outpoint o => prevout_hash o + prevout_n o
  end.

Definition toy_hash (nVersion : Z) (items : list ser_item) : Z :=
  fold_left (fun acc i => (acc * 1000003 + toy_item i + 7) mod UINT256_MOD) items 1.

Definition chain3 : Chain :=
  [mkBlockIndex 2 1002 30; mkBlockIndex 1 1001 20; mkBlockIndex 0 1000 10].

Definition toy_outpoint : COutPoint := mkOutPoint 4369 0.

End Scoring.

(** ** Records, announcements and heartbeats *)

Module Masternode.
Import Scoring.

#[global] Instance COutPoint_eq_dec : EqDecision COutPoint.
Proof. solve_decision. Defined.

#[global] Instance COutPoint_countable : Countable COutPoint.
Proof.
  refine (inj_countable' (fun o => (prevout_hash o, prevout_n o))
                         (fun p => mkOutPoint (fst p) (snd p)) _).
  intros []; reflexivity.
Defined.

Inductive MessageVersion := MESS_VER_STRMESS | MESS_VER_HASH.

Inductive MasternodeState :=
| MASTERNODE_PRE_ENABLED
| MASTERNODE_ENABLED
| MASTERNODE_EXPIRED
| MASTERNODE_REMOVE
| MASTERNODE_VIN_SPENT.

#[global] Instance MessageVersion_eq_dec : EqDecision MessageVersion.
Proof. solve_decision. Defined.

#[global] Instance MasternodeState_eq_dec : EqDecision MasternodeState.
Proof. solve_decision. Defined.

Record CTxIn := mkTxIn {
  prevout : COutPoint;
  scriptSig : string;
  nSequence : Z
}.

Record CService := mkService {
  service_ip : string;
  service_port : Z
}.

(** [CMasternodePing]: the two fields of [CSignedMessage], then its own. *)
Record CMasternodePing := mkPing {
  mnp_nMessVersion : MessageVersion;
  mnp_vchSig : string;
  mnp_vin : CTxIn;
  mnp_blockHash : Z;
  mnp_sigTime : Z
}.

(** [CMasternode]; a [CMasternodeBroadcast] has the same fields. *)
Record CMasternode := mkMasternode {
  nMessVersion : MessageVersion;
  vchSig : string;
  vin : CTxIn;
  addr : CService;
  pubKeyCollateralAddress : string;
  pubKeyMasternode : string;
  activeState : MasternodeState;
  sigTime : Z;
  lastPing : CMasternodePing;
  unitTest : bool;
  allowFreeTx : bool;
  protocolVersion : Z;
  nLastDsq : Z;
  nScanningErrorCount : Z;
  nLastScanningErrorBlockHeight : Z;
  lastTimeChecked : Z
}.

Definition CMasternodeBroadcast := CMasternode.

#[global] Instance CTxIn_eq_dec : EqDecision CTxIn.
Proof. solve_decision. Defined.
#[global] Instance CService_eq_dec : EqDecision CService.
Proof. solve_decision. Defined.
#[global] Instance CMasternodePing_eq_dec : EqDecision CMasternodePing.
Proof. solve_decision. Defined.
#[global] Instance CMasternode_eq_dec : EqDecision CMasternode.
Proof. solve_decision. Defined.

(** Assignments to one field of a record. *)
Definition set_activeState (x : MasternodeState) (mn : CMasternode) : CMasternode :=
  mkMasternode (nMessVersion mn) (vchSig mn) (vin mn) (addr mn)
    (pubKeyCollateralAddress mn) (pubKeyMasternode mn) x (sigTime mn)
    (lastPing mn) (unitTest mn) (allowFreeTx mn) (protocolVersion mn)
    (nLastDsq mn) (nScanningErrorCount mn) (nLastScanningErrorBlockHeight mn)
    (lastTimeChecked mn).

Definition set_lastTimeChecked (x : Z) (mn : CMasternode) : CMasternode :=
  mkMasternode (nMessVersion mn) (vchSig mn) (vin mn) (addr mn)
    (pubKeyCollateralAddress mn) (pubKeyMasternode mn) (activeState mn) (sigTime mn)
    (lastPing mn) (unitTest mn) (allowFreeTx mn) (protocolVersion mn)
    (nLastDsq mn) (nScanningErrorCount mn) (nLastScanningErrorBlockHeight mn)
    x.

Definition set_lastPing (x : CMasternodePing) (mn : CMasternode) : CMasternode :=
  mkMasternode (nMessVersion mn) (vchSig mn) (vin mn) (addr mn)
    (pubKeyCollateralAddress mn) (pubKeyMasternode mn) (activeState mn) (sigTime mn)
    x (unitTest mn) (allowFreeTx mn) (protocolVersion mn)
    (nLastDsq mn) (nScanningErrorCount mn) (nLastScanningErrorBlockHeight mn)
    (lastTimeChecked mn).

Definition set_sigTime (x : Z) (mn : CMasternode) : CMasternode :=
  mkMasternode (nMessVersion mn) (vchSig mn) (vin mn) (addr mn)
    (pubKeyCollateralAddress mn) (pubKeyMasternode mn) (activeState mn) x
    (lastPing mn) (unitTest mn) (allowFreeTx mn) (protocolVersion mn)
    (nLastDsq mn) (nScanningErrorCount mn) (nLastScanningErrorBlockHeight mn)
    (lastTimeChecked mn).

Definition set_nMessVersion (x : MessageVersion) (mn : CMasternode) : CMasternode :=
  mkMasternode x (vchSig mn) (vin mn) (addr mn)
    (pubKeyCollateralAddress mn) (pubKeyMasternode mn) (activeState mn) (sigTime mn)
    (lastPing mn) (unitTest mn) (allowFreeTx mn) (protocolVersion mn)
    (nLastDsq mn) (nScanningErrorCount mn) (nLastScanningErrorBlockHeight mn)
    (lastTimeChecked mn).

Definition set_vchSig (x : string) (mn : CMasternode) : CMasternode :=
  mkMasternode (nMessVersion mn) x (vin mn) (addr mn)
    (pubKeyCollateralAddress mn) (pubKeyMasternode mn) (activeState mn) (sigTime mn)
    (lastPing mn) (unitTest mn) (allowFreeTx mn) (protocolVersion mn)
    (nLastDsq mn) (nScanningErrorCount mn) (nLastScanningErrorBlockHeight mn)
    (lastTimeChecked mn).

Definition set_pubKeyMasternode (x : string) (mn : CMasternode) : CMasternode :=
  mkMasternode (nMessVersion mn) (vchSig mn) (vin mn) (addr mn)
    (pubKeyCollateralAddress mn) x (activeState mn) (sigTime mn)
    (lastPing mn) (unitTest mn) (allowFreeTx mn) (protocolVersion mn)
    (nLastDsq mn) (nScanningErrorCount mn) (nLastScanningErrorBlockHeight mn)
    (lastTimeChecked mn).

Definition set_pubKeyCollateralAddress (x : string) (mn : CMasternode) : CMasternode :=
  mkMasternode (nMessVersion mn) (vchSig mn) (vin mn) (addr mn)
    x (pubKeyMasternode mn) (activeState mn) (sigTime mn)
    (lastPing mn) (unitTest mn) (allowFreeTx mn) (protocolVersion mn)
    (nLastDsq mn) (nScanningErrorCount mn) (nLastScanningErrorBlockHeight mn)
    (lastTimeChecked mn).

Definition set_protocolVersion (x : Z) (mn : CMasternode) : CMasternode :=
  mkMasternode (nMessVersion mn) (vchSig mn) (vin mn) (addr mn)
    (pubKeyCollateralAddress mn) (pubKeyMasternode mn) (activeState mn) (sigTime mn)
    (lastPing mn) (unitTest mn) (allowFreeTx mn) x
    (nLastDsq mn) (nScanningErrorCount mn) (nLastScanningErrorBlockHeight mn)
    (lastTimeChecked mn).

Definition set_addr (x : CService) (mn : CMasternode) : CMasternode :=
  mkMasternode (nMessVersion mn) (vchSig mn) (vin mn) x
    (pubKeyCollateralAddress mn) (pubKeyMasternode mn) (activeState mn) (sigTime mn)
    (lastPing mn) (unitTest mn) (allowFreeTx mn) (protocolVersion mn)
    (nLastDsq mn) (nScanningErrorCount mn) (nLastScanningErrorBlockHeight mn)
    (lastTimeChecked mn).

(** The copy constructor [CMasternode(const CMasternode& other)]: every
    field is copied but [lastTimeChecked], which restarts at zero. *)
Definition CMasternode_copy (other : CMasternode) : CMasternode :=
  set_lastTimeChecked 0 other.

(** The transaction [Check] and [CheckInputsAndAdd] build to ask whether
    the collateral can be spent: it spends [tx_vin] and pays one output to
    [tx_vout_pubkey].  The output value is
    [GetMasternodeNodeCollateral(height) - 0.01 * COIN], a [double]
    converted to a [CAmount]; the record keeps the height it is taken at. *)
Record CMutableTransaction := mkTx {
  tx_vin : CTxIn;
  tx_vout_height : Z;
  tx_vout_pubkey : string
}.

(** What the file asks other components to do. *)
Inductive Event :=
| RelayInv_MASTERNODE_ANNOUNCE (hash : Z)
| RelayInv_MASTERNODE_PING (hash : Z)
| AddedMasternodeList (hash : Z)
| EnableHotColdMasterNode (v : CTxIn) (a : CService).

(** The mutable globals the file works on: the registry of [mnodeman]
    (keyed by the collateral outpoint), its two caches of seen messages,
    the cache of [masternodeSync], and the requests issued so far. *)
Record State := mkState {
  vMasternodes : gmap COutPoint CMasternode;
  mapSeenMasternodeBroadcast : gmap Z CMasternodeBroadcast;
  mapSeenMasternodePing : gmap Z CMasternodePing;
  mapSeenSyncMNB : gset Z;
  events : list Event
}.

Definition set_vMasternodes (m : gmap COutPoint CMasternode) (st : State) : State :=
  mkState m (mapSeenMasternodeBroadcast st) (mapSeenMasternodePing st)
    (mapSeenSyncMNB st) (events st).

Definition set_mapSeenMasternodeBroadcast (m : gmap Z CMasternodeBroadcast)
    (st : State) : State :=
  mkState (vMasternodes st) m (mapSeenMasternodePing st) (mapSeenSyncMNB st) (events st).

Definition set_mapSeenMasternodePing (m : gmap Z CMasternodePing) (st : State) : State :=
  mkState (vMasternodes st) (mapSeenMasternodeBroadcast st) m (mapSeenSyncMNB st) (events st).

Definition set_mapSeenSyncMNB (m : gset Z) (st : State) : State :=
  mkState (vMasternodes st) (mapSeenMasternodeBroadcast st) (mapSeenMasternodePing st)
    m (events st).

Definition emit (e : Event) (st : State) : State :=
  mkState (vMasternodes st) (mapSeenMasternodeBroadcast st) (mapSeenMasternodePing st)
    (mapSeenSyncMNB st) (events st ++ [e]).

(** What the file reads from its collaborators during one call: the clock,
    the chain parameters, the chain, the signer and the local masternode.
    None of them is part of the translated file. *)
Record Env := mkEnv {
  ShutdownRequested : bool;
  GetTime : Z;
  GetAdjustedTime : Z;
  PROTOCOL_VERSION : Z;
  MIN_PEER_MNANNOUNCE : Z;
  ActiveProtocol : Z;
  GetDefaultPort : Z;
  IsRegTestNet : bool;
  NetworkUpgradeActive_STAKE_MODIFIER_V2 : Z -> bool;
  mBurnAddresses : gmap string Z;
  SPORK_103_PING_MESSAGE_SALT : Z;
  chainActive_Height : Z;
  chainActive_at : Z -> option CBlockIndex;
  chainActive_Contains : CBlockIndex -> bool;
  mapBlockIndex : Z -> option CBlockIndex;
  TRY_LOCK_cs_main : bool;
  AcceptableInputs : CMutableTransaction -> bool;
  state_IsInvalid : CMutableTransaction -> option Z;
  GetCoinDepthAtHeight : COutPoint -> Z -> Z;
  GetTransaction_hashBlock : Z -> Z;
  fMasterNode : bool;
  activeMasternode_vin : option CTxIn;
  activeMasternode_pubKeyMasternode : string;
  HashOf : Z -> list ser_item -> Z;
  GetHex : Z -> string;
  to_string : Z -> string;
  CService_ToString : CService -> string;
  CService_IsRFC1918 : CService -> bool;
  CService_IsLocal : CService -> bool;
  CKeyID_ToString : string -> string;
  EncodeDestination : string -> string;
  P2PKH_script_size : string -> Z;
  strMessageMagic : string;
  SignMessage : string -> string -> bool * string;
  VerifyMessage : string -> string -> string -> bool;
  SignCompact : Z -> string -> bool * string;
  mnp_IsNull : CMasternodePing -> bool;
  mnp_CheckSignature : CMasternodePing -> string -> bool
}.

(** Modelled from the spec: the constants of masternode.h, which is not
    part of the translated file (section 3.6: 5 seconds, 10 minutes,
    5 minutes, 65 minutes, 75 minutes, 15 confirmations). *)
Definition MASTERNODE_CHECK_SECONDS : Z := 5.
Definition MASTERNODE_MIN_MNP_SECONDS : Z := 10 * 60.
Definition MASTERNODE_MIN_MNB_SECONDS : Z := 5 * 60.
Definition MASTERNODE_EXPIRATION_SECONDS : Z := 65 * 60.
Definition MASTERNODE_REMOVAL_SECONDS : Z := 75 * 60.
Definition MASTERNODE_MIN_CONFIRMATIONS : Z := 15.

(** Modelled from the spec: [CMasternode::IsEnabled] of masternode.h, the
    record is in state [Enabled]. *)
Definition IsEnabled (mn : CMasternode) : bool :=
  bool_decide (activeState mn = MASTERNODE_ENABLED).

(** Modelled from the spec: [CMasternode::IsPingedWithin] of masternode.h.
    The ping age is [now - last_ping.sig_time]; a record whose ping age
    exceeds [seconds], or that has no ping, is not pinged within
    [seconds]. *)
Definition IsPingedWithin (env : Env) (mn : CMasternode) (seconds now : Z) : bool :=
  if mnp_IsNull env (lastPing mn) then false
  else negb (sub64 now (mnp_sigTime (lastPing mn)) >? seconds).

(** Modelled from the spec: [CMasternode::IsBroadcastedWithin] of
    masternode.h, the announcement of the record is younger than
    [seconds]. *)
Definition IsBroadcastedWithin (env : Env) (mn : CMasternode) (seconds : Z) : bool :=
  sub64 (GetAdjustedTime env) (sigTime mn) <? seconds.

(** Modelled from the spec: the registry operations of masternodeman.cpp,
    which is not part of the translated file (section 4.2: [find] by
    outpoint, [remove] by outpoint, [add] inserts and fails when the
    outpoint is already present). *)
Definition Find (st : State) (v : CTxIn) : option CMasternode :=
  vMasternodes st !! prevout v.

Definition Remove (v : CTxIn) (st : State) : State :=
  set_vMasternodes (delete (prevout v) (vMasternodes st)) st.

Definition Add (mn : CMasternode) (st : State) : State :=
  match vMasternodes st !! prevout (vin mn) with
  | Some _ => st
  | None => set_vMasternodes (<[prevout (vin mn) := mn]> (vMasternodes st)) st
  end.

(** A pointer [pmn] that [Find] returned for the outpoint [k] is the
    registry entry at [k]: an assignment through it stores the record
    back at [k]. *)
Definition store (k : COutPoint) (mn : CMasternode) (st : State) : State :=
  set_vMasternodes (<[k := mn]> (vMasternodes st)) st.

(** [std::map::insert]: an element whose key is present is left alone. *)
Definition map_insert_new {V} (k : Z) (v : V) (m : gmap Z V) : gmap Z V :=
  match m !! k with
  | Some _ => m
  | None => <[k := v]> m
  end.

Definition MessageVersion_to_int (v : MessageVersion) : Z :=
  match v with MESS_VER_STRMESS => 0 | MESS_VER_HASH => 1 end.

Definition ser_txin (v : CTxIn) : list ser_item :=
  [ser_outpoint (prevout v); ser_bytes (scriptSig v); ser_int (nSequence v)].

Definition ser_service (a : CService) : list ser_item :=
  [ser_bytes (service_ip a); ser_int (service_port a)].

(** [CMasternode::GetSignatureHash]. *)
Definition GetSignatureHash (env : Env) (mn : CMasternode) : Z :=
  HashOf env (PROTOCOL_VERSION env)
    ([ser_int (MessageVersion_to_int (nMessVersion mn))] ++
     ser_service (addr mn) ++
     [ser_int64 (sigTime mn);
      ser_bytes (pubKeyCollateralAddress mn);
      ser_bytes (pubKeyMasternode mn);
      ser_int (protocolVersion mn)]).

(** [CMasternode::GetStrMessage]. *)
Definition GetStrMessage (env : Env) (mn : CMasternode) : string :=
  (CService_ToString env (addr mn) ++
   to_string env (sigTime mn) ++
   CKeyID_ToString env (pubKeyCollateralAddress mn) ++
   CKeyID_ToString env (pubKeyMasternode mn) ++
   to_string env (protocolVersion mn))%string.

(** [CMasternodeBroadcast::GetOldStrMessage]. *)
Definition GetOldStrMessage (env : Env) (mnb : CMasternodeBroadcast) : string :=
  let vchPubKey := pubKeyCollateralAddress mnb in
  let vchPubKey2 := pubKeyMasternode mnb in
  (CService_ToString env (addr mnb) ++ to_string env (sigTime mnb) ++
   vchPubKey ++ vchPubKey2 ++ to_string env (protocolVersion mnb))%string.

(** [CMasternodeBroadcast::GetHash]. *)
Definition CMasternodeBroadcast_GetHash (env : Env) (mnb : CMasternodeBroadcast) : Z :=
  HashOf env (PROTOCOL_VERSION env)
    [ser_int64 (sigTime mnb); ser_bytes (pubKeyCollateralAddress mnb)].

(** [CMasternodePing::GetHash]. *)
Definition CMasternodePing_GetHash (env : Env) (mnp : CMasternodePing) : Z :=
  let salt := SPORK_103_PING_MESSAGE_SALT env in
  HashOf env (PROTOCOL_VERSION env)
    (ser_txin (mnp_vin mnp) ++
     (if bool_decide (mnp_nMessVersion mnp = MESS_VER_HASH)
      then [ser_uint256 (mnp_blockHash mnp)] else []) ++
     [ser_int64 (mnp_sigTime mnp)] ++
     (if salt >? 0 then [ser_int64 salt] else [])).

(** [CMasternodeBroadcast::Relay] and [CMasternodePing::Relay]. *)
Definition CMasternodeBroadcast_Relay (env : Env) (mnb : CMasternodeBroadcast)
    (st : State) : State :=
  emit (RelayInv_MASTERNODE_ANNOUNCE (CMasternodeBroadcast_GetHash env mnb)) st.

Definition CMasternodePing_Relay (env : Env) (mnp : CMasternodePing) (st : State) : State :=
  emit (RelayInv_MASTERNODE_PING (CMasternodePing_GetHash env mnp)) st.

(** The transaction of [Check] and [CheckInputsAndAdd]. *)
Definition collateral_spend_tx (env : Env) (mn : CMasternode) : CMutableTransaction :=
  mkTx (vin mn) (chainActive_Height env) (pubKeyCollateralAddress mn).

(** [CMasternode::Check], on the record it is called on ([Check] alone is
    a command of the prover, hence the qualified name). *)
Definition CMasternode_Check (env : Env) (forceCheck : bool) (mn : CMasternode) : CMasternode :=
  if ShutdownRequested env then mn else
  if negb forceCheck &&
     (sub64 (GetTime env) (lastTimeChecked mn) <? MASTERNODE_CHECK_SECONDS)
  then mn else
  let mn := set_lastTimeChecked (GetTime env) mn in
  if bool_decide (activeState mn = MASTERNODE_VIN_SPENT) then mn else
  if negb (IsPingedWithin env mn MASTERNODE_REMOVAL_SECONDS (GetAdjustedTime env))
  then set_activeState MASTERNODE_REMOVE mn else
  if negb (IsPingedWithin env mn MASTERNODE_EXPIRATION_SECONDS (GetAdjustedTime env))
  then set_activeState MASTERNODE_EXPIRED mn else
  if sub64 (mnp_sigTime (lastPing mn)) (sigTime mn) <? MASTERNODE_MIN_MNP_SECONDS
  then set_activeState MASTERNODE_PRE_ENABLED mn else
  if negb (unitTest mn) then
    if negb (TRY_LOCK_cs_main env) then mn else
    if negb (AcceptableInputs env (collateral_spend_tx env mn))
    then set_activeState MASTERNODE_VIN_SPENT mn else
    if bool_decide (mBurnAddresses env <> ∅) &&
       match mBurnAddresses env !! EncodeDestination env (pubKeyCollateralAddress mn) with
       | Some h => h <? chainActive_Height env
       | None => false
       end
    then set_activeState MASTERNODE_VIN_SPENT mn
    else set_activeState MASTERNODE_ENABLED mn
  else set_activeState MASTERNODE_ENABLED mn.

(** [CMasternodePing::CheckAndUpdate]: the result, [nDos] as it is left,
    and the state as it is left. *)
Definition CMasternodePing_CheckAndUpdate (env : Env) (this : CMasternodePing)
    (nDos : Z) (fRequireEnabled fCheckSigTimeOnly : bool) (st : State)
    : bool * Z * State :=
  if mnp_sigTime this >? add64 (GetAdjustedTime env) (60 * 60) then (false, 1, st) else
  if mnp_sigTime this <=? sub64 (GetAdjustedTime env) (60 * 60) then (false, 1, st) else
  let pmn := Find st (mnp_vin this) in
  let isMasternodeFound := bool_decide (is_Some pmn) in
  let isSignatureValid :=
    match pmn with
    | Some mn => mnp_CheckSignature env this (pubKeyMasternode mn)
    | None => false
    end in
  if fCheckSigTimeOnly then
    if isMasternodeFound && negb isSignatureValid then (false, 33, st)
    else (true, nDos, st)
  else
  match pmn with
  | Some mn =>
      if protocolVersion mn >=? ActiveProtocol env then
        if fRequireEnabled && negb (IsEnabled mn) then (false, nDos, st) else
        if negb (IsPingedWithin env mn (MASTERNODE_MIN_MNP_SECONDS - 60) (mnp_sigTime this))
        then
          if negb isSignatureValid then (false, 33, st) else
          match mapBlockIndex env (mnp_blockHash this) with
          | None => (false, nDos, st)
          | Some mi =>
              if negb (chainActive_Contains env mi) ||
                 (sub32 (chainActive_Height env) (nHeight mi) >? 24)
              then (false, nDos, st) else
              let k := prevout (mnp_vin this) in
              let mn := set_lastPing this mn in
              let st := store k mn st in
              let hash := CMasternodeBroadcast_GetHash env (CMasternode_copy mn) in
              let st :=
                match mapSeenMasternodeBroadcast st !! hash with
                | Some mnb =>
                    set_mapSeenMasternodeBroadcast
                      (<[hash := set_lastPing this mnb]> (mapSeenMasternodeBroadcast st)) st
                | None => st
                end in
              let mn := CMasternode_Check env true mn in
              let st := store k mn st in
              if negb (IsEnabled mn) then (false, nDos, st)
              else (true, nDos, CMasternodePing_Relay env this st)
          end
        else (false, nDos, st)
      else (false, nDos, st)
  | None => (false, nDos, st)
  end.

(** [CMasternode::UpdateFromNewBroadcast], called through the pointer
    [pmn] to the registry entry at [k].  The heartbeat of the announcement
    is checked with [fRequireEnabled = false]; that check works on the
    registry too, and may reach the same entry. *)
Definition UpdateFromNewBroadcast (env : Env) (k : COutPoint)
    (this : CMasternode) (mnb : CMasternodeBroadcast) (st : State) : bool * State :=
  if sigTime mnb >? sigTime this then
    let this := set_pubKeyMasternode (pubKeyMasternode mnb) this in
    let this := set_pubKeyCollateralAddress (pubKeyCollateralAddress mnb) this in
    let this := set_sigTime (sigTime mnb) this in
    let this := set_vchSig (vchSig mnb) this in
    let this := set_protocolVersion (protocolVersion mnb) this in
    let this := set_addr (addr mnb) this in
    let this := set_lastTimeChecked 0 this in
    let st := store k this st in
    let nDoS := 0 in
    let '(accepted, st) :=
      if mnp_IsNull env (lastPing mnb) then (true, st)
      else
        let '(ok, _, st) :=
          CMasternodePing_CheckAndUpdate env (lastPing mnb) nDoS false false st in
        (ok, st) in
    if accepted then
      let this := default this (vMasternodes st !! k) in
      let this := set_lastPing (lastPing mnb) this in
      let st := store k this st in
      let st :=
        set_mapSeenMasternodePing
          (map_insert_new (CMasternodePing_GetHash env (lastPing this)) (lastPing this)
             (mapSeenMasternodePing st)) st in
      (true, st)
    else (true, st)
  else (false, st).

(** [CMasternodeBroadcast::CheckSignature]. *)
Definition CheckSignature (env : Env) (mnb : CMasternodeBroadcast) : bool :=
  let strMessage :=
    if bool_decide (nMessVersion mnb = MESS_VER_HASH)
    then GetHex env (GetSignatureHash env mnb) else GetStrMessage env mnb in
  let oldStrMessage :=
    if bool_decide (nMessVersion mnb = MESS_VER_HASH)
    then GetHex env (GetSignatureHash env mnb) else GetOldStrMessage env mnb in
  if negb (VerifyMessage env (pubKeyCollateralAddress mnb) (vchSig mnb) oldStrMessage) &&
     negb (VerifyMessage env (pubKeyCollateralAddress mnb) (vchSig mnb) strMessage)
  then false else true.

(** [CMasternodeBroadcast::CheckDefaultPort]. *)
Definition CheckDefaultPort (env : Env) (service : CService) : bool :=
  let nDefaultPort := GetDefaultPort env in
  if negb (service_port service =? nDefaultPort) then false else true.

(** [CMasternodeBroadcast::Sign(const CKey&, const CPubKey&)]: the result
    and the announcement as it is left. *)
Definition Sign (env : Env) (key pubKey : string) (this : CMasternodeBroadcast)
    : bool * CMasternodeBroadcast :=
  let this := set_sigTime (GetAdjustedTime env) this in
  if NetworkUpgradeActive_STAKE_MODIFIER_V2 env (chainActive_Height env) then
    let this := set_nMessVersion MESS_VER_HASH this in
    let strMessage := GetHex env (GetSignatureHash env this) in
    let '(signed, sig) := SignMessage env strMessage key in
    let this := set_vchSig sig this in
    if negb signed then (false, this) else
    if negb (VerifyMessage env pubKey (vchSig this) strMessage) then (false, this) else
    (true, this)
  else
    let this := set_nMessVersion MESS_VER_STRMESS this in
    let strMessage := GetOldStrMessage env this in
    let ss := HashOf env 0 [ser_bytes (strMessageMagic env); ser_bytes strMessage] in
    let '(signed, sig) := SignCompact env ss key in
    let this := set_vchSig sig this in
    if negb signed then (false, this) else
    (true, this).

(** [CMasternodeBroadcast::CheckAndUpdate]: the result, [nDos] as it is
    left, and the state as it is left.  The call [pmn->Check()] takes the
    default [forceCheck = false]. *)
Definition CMasternodeBroadcast_CheckAndUpdate (env : Env) (this : CMasternodeBroadcast)
    (nDos : Z) (st : State) : bool * Z * State :=
  if sigTime this >? add64 (GetAdjustedTime env) (60 * 60) then (false, 1, st) else
  if mnp_IsNull env (lastPing this) then (false, nDos, st) else
  let '(ok, nDos, st) :=
    CMasternodePing_CheckAndUpdate env (lastPing this) nDos false true st in
  if negb ok then (false, nDos, st) else
  if protocolVersion this <? ActiveProtocol env then (false, nDos, st) else
  if negb (P2PKH_script_size env (pubKeyCollateralAddress this) =? 25)
  then (false, 100, st) else
  if negb (P2PKH_script_size env (pubKeyMasternode this) =? 25)
  then (false, 100, st) else
  if negb (bool_decide (scriptSig (vin this) = EmptyString)) then (false, nDos, st) else
  if negb (CheckSignature env this)
  then (false, (if protocolVersion this <=? MIN_PEER_MNANNOUNCE env then 0 else 100), st)
  else
  if negb (service_port (addr this) =? GetDefaultPort env) then (false, nDos, st) else
  match Find st (vin this) with
  | None => (true, nDos, st)
  | Some pmn =>
      let k := prevout (vin this) in
      if sigTime pmn >=? sigTime this then (false, nDos, st) else
      if negb (IsEnabled pmn) then (true, nDos, st) else
      if bool_decide (pubKeyCollateralAddress pmn = pubKeyCollateralAddress this) &&
         negb (IsBroadcastedWithin env pmn MASTERNODE_MIN_MNB_SECONDS)
      then
        let '(updated, st) := UpdateFromNewBroadcast env k pmn this st in
        let st :=
          if updated then
            let pmn := CMasternode_Check env false (default pmn (vMasternodes st !! k)) in
            let st := store k pmn st in
            if IsEnabled pmn then CMasternodeBroadcast_Relay env this st else st
          else st in
        (true, nDos, emit (AddedMasternodeList (CMasternodeBroadcast_GetHash env this)) st)
      else (true, nDos, st)
  end.

(** [CMasternodeBroadcast::CheckInputsAndAdd]; [None] is the dereference
    of a null [pConfIndex]. *)
Definition CheckInputsAndAdd (env : Env) (this : CMasternodeBroadcast)
    (nDoS : Z) (st : State) : option (bool * Z * State) :=
  if fMasterNode env &&
     match activeMasternode_vin env with
     | Some v =>
         bool_decide (prevout (vin this) = prevout v) &&
         bool_decide (pubKeyMasternode this = activeMasternode_pubKeyMasternode env)
     | None => false
     end
  then Some (true, nDoS, st) else
  if mnp_IsNull env (lastPing this) then Some (false, nDoS, st) else
  let '(ok, nDoS, st) :=
    CMasternodePing_CheckAndUpdate env (lastPing this) nDoS false true st in
  if negb ok then Some (false, nDoS, st) else
  let pmn := Find st (vin this) in
  if match pmn with Some mn => IsEnabled mn | None => false end
  then Some (true, nDoS, st) else
  let st := match pmn with Some mn => Remove (vin mn) st | None => st end in
  let tx := collateral_spend_tx env this in
  let forget st :=
    set_mapSeenSyncMNB (mapSeenSyncMNB st ∖ {[CMasternodeBroadcast_GetHash env this]})
      (set_mapSeenMasternodeBroadcast
         (delete (CMasternodeBroadcast_GetHash env this) (mapSeenMasternodeBroadcast st))
         st) in
  if negb (TRY_LOCK_cs_main env) then Some (false, nDoS, forget st) else
  if negb (AcceptableInputs env tx)
  then Some (false, default nDoS (state_IsInvalid env tx), st) else
  let nChainHeight := chainActive_Height env in
  if GetCoinDepthAtHeight env (prevout (vin this)) nChainHeight
       <? MASTERNODE_MIN_CONFIRMATIONS
  then Some (false, nDoS, forget st) else
  let hashBlock := GetTransaction_hashBlock env (prevout_hash (prevout (vin this))) in
  let add_new (_ : unit) :=
    let mn := CMasternode_copy this in
    let st := Add mn st in
    let st :=
      if bool_decide (pubKeyMasternode this = activeMasternode_pubKeyMasternode env) &&
         (protocolVersion this =? PROTOCOL_VERSION env)
      then emit (EnableHotColdMasterNode (vin this) (addr this)) st else st in
    let isLocal :=
      (CService_IsRFC1918 env (addr this) || CService_IsLocal env (addr this)) &&
      negb (IsRegTestNet env) in
    let st := if negb isLocal then CMasternodeBroadcast_Relay env this st else st in
    Some (true, nDoS, st) in
  match mapBlockIndex env hashBlock with
  | Some pMNIndex =>
      match chainActive_at env
              (sub32 (add32 (nHeight pMNIndex) MASTERNODE_MIN_CONFIRMATIONS) 1) with
      | Some pConfIndex =>
          if nTime pConfIndex >? sigTime this then Some (false, nDoS, st)
          else add_new tt
      | None => None
      end
  | None => add_new tt
  end.

(** The registry stores every record under its own collateral outpoint. *)
Definition registry_wf (st : State) : Prop :=
  forall k mn, vMasternodes st !! k = Some mn -> prevout (vin mn) = k.

(** Two records that differ at most in [lastPing] and [lastTimeChecked]. *)
Definition same_but_ping (mn mn' : CMasternode) : Prop :=
  exists p t, mn' = set_lastTimeChecked t (set_lastPing p mn).

(** The checks of [CMasternodeBroadcast::CheckAndUpdate] that come before
    the registry lookup, all passed. *)
Definition passes_checks_before_lookup (env : Env) (this : CMasternodeBroadcast)
    (nDos : Z) (st : State) : Prop :=
  sigTime this <= add64 (GetAdjustedTime env) (60 * 60) /\
  mnp_IsNull env (lastPing this) = false /\
  fst (fst (CMasternodePing_CheckAndUpdate env (lastPing this) nDos false true st)) = true /\
  ActiveProtocol env <= protocolVersion this /\
  P2PKH_script_size env (pubKeyCollateralAddress this) = 25 /\
  P2PKH_script_size env (pubKeyMasternode this) = 25 /\
  scriptSig (vin this) = EmptyString /\
  CheckSignature env this = true /\
  service_port (addr this) = GetDefaultPort env.

(** A full heartbeat for the record [mn] passes every check up to the
    assignment of [lastPing]: its time of signature, the protocol of the
    record, the [fRequireEnabled] gate, the minimum distance to the last
    heartbeat, its signature, and the block it refers to ([mi]). *)
Definition ping_reaches_update (env : Env) (this : CMasternodePing)
    (fRequireEnabled : bool) (st : State) (mn : CMasternode) (mi : CBlockIndex) : Prop :=
  sub64 (GetAdjustedTime env) (60 * 60) < mnp_sigTime this
    <= add64 (GetAdjustedTime env) (60 * 60) /\
  Find st (mnp_vin this) = Some mn /\
  ActiveProtocol env <= protocolVersion mn /\
  (fRequireEnabled = true -> IsEnabled mn = true) /\
  IsPingedWithin env mn (MASTERNODE_MIN_MNP_SECONDS - 60) (mnp_sigTime this) = false /\
  mnp_CheckSignature env this (pubKeyMasternode mn) = true /\
  mapBlockIndex env (mnp_blockHash this) = Some mi /\
  chainActive_Contains env mi = true /\
  sub32 (chainActive_Height env) (nHeight mi) <= 24.

(** [CheckInputsAndAdd] gets past its first two exits: the announcement is
    not the one of the local masternode, and its heartbeat passes the check
    of its time of signature. *)
Definition reaches_registry_search (env : Env) (this : CMasternodeBroadcast)
    (nDoS : Z) (st : State) : Prop :=
  (fMasterNode env &&
   match activeMasternode_vin env with
   | Some v =>
       bool_decide (prevout (vin this) = prevout v) &&
       bool_decide (pubKeyMasternode this = activeMasternode_pubKeyMasternode env)
   | None => false
   end) = false /\
  mnp_IsNull env (lastPing this) = false /\
  fst (fst (CMasternodePing_CheckAndUpdate env (lastPing this) nDoS false true st)) = true.

(** The collateral of the announcement validates: the lock is taken, the
    spending transaction is acceptable, the output has its confirmations,
    and the block that gave it the last of them, when the block of the
    transaction is known, is in the chain and not younger than the
    announcement. *)
Definition collateral_validates (env : Env) (this : CMasternodeBroadcast) : Prop :=
  TRY_LOCK_cs_main env = true /\
  AcceptableInputs env (collateral_spend_tx env this) = true /\
  MASTERNODE_MIN_CONFIRMATIONS
    <= GetCoinDepthAtHeight env (prevout (vin this)) (chainActive_Height env) /\
  match mapBlockIndex env (GetTransaction_hashBlock env (prevout_hash (prevout (vin this)))) with
  | Some pMNIndex =>
      exists pConfIndex,
        chainActive_at env
          (sub32 (add32 (nHeight pMNIndex) MASTERNODE_MIN_CONFIRMATIONS) 1) = Some pConfIndex /\
        nTime pConfIndex <= sigTime this
  | None => True
  end.

(** *** A small network for the examples

    Signatures are the signing key itself and verify under the public key
    equal to it; a heartbeat is null when its block hash is zero; the chain
    is at height 100 and knows one block, of hash 777, at height 90. *)
Definition toy_env (now : Z) (upgrade acceptable : bool) : Env :=
  {| ShutdownRequested := false;
     GetTime := now;
     GetAdjustedTime := now;
     PROTOCOL_VERSION := 70920;
     MIN_PEER_MNANNOUNCE := 70913;
     ActiveProtocol := 70920;
     GetDefaultPort := 1515;
     IsRegTestNet := false;
     NetworkUpgradeActive_STAKE_MODIFIER_V2 := fun _ => upgrade;
     mBurnAddresses := ∅;
     SPORK_103_PING_MESSAGE_SALT := 0;
     chainActive_Height := 100;
     chainActive_at := fun h => if h =? 64 then Some (mkBlockIndex 64 764 500) else None;
     chainActive_Contains := fun _ => true;
     mapBlockIndex := fun h =>
       if h =? 777 then Some (mkBlockIndex 90 777 900)
       else if h =? 750 then Some (mkBlockIndex 50 750 400)
       else None;
     TRY_LOCK_cs_main := true;
     AcceptableInputs := fun _ => acceptable;
     state_IsInvalid := fun _ => None;
     GetCoinDepthAtHeight := fun _ _ => 51;
     GetTransaction_hashBlock := fun _ => 750;
     fMasterNode := false;
     activeMasternode_vin := None;
     activeMasternode_pubKeyMasternode := "";
     HashOf := toy_hash;
     GetHex := fun h => String.string_of_list_ascii [Ascii.ascii_of_nat (Z.to_nat (h mod 128))];
     to_string := fun z => String.string_of_list_ascii [Ascii.ascii_of_nat (Z.to_nat (z mod 128))];
     CService_ToString := service_ip;
     CService_IsRFC1918 := fun _ => false;
     CService_IsLocal := fun _ => false;
     CKeyID_ToString := fun k => k;
     EncodeDestination := fun k => k;
     P2PKH_script_size := fun _ => 25;
     strMessageMagic := "DarkNet Signed Message:";
     SignMessage := fun _ key => (true, key);
     VerifyMessage := fun pubKey sig _ => bool_decide (sig = pubKey);
     SignCompact := fun _ key => (true, key);
     mnp_IsNull := fun p => mnp_blockHash p =? 0;
     mnp_CheckSignature := fun p pubKey => bool_decide (mnp_vchSig p = pubKey)
  |}.

Definition outpoint1 : COutPoint := mkOutPoint 4369 0.
Definition vin1 : CTxIn := mkTxIn outpoint1 "" 4294967295.
Definition addr1 : CService := mkService "203.0.113.7" 1515.

(** A heartbeat for [outpoint1] signed by the operator key ["op"]. *)
Definition ping_at (t : Z) : CMasternodePing :=
  mkPing MESS_VER_STRMESS "op" vin1 777 t.

Definition null_ping : CMasternodePing :=
  mkPing MESS_VER_STRMESS "" (mkTxIn (mkOutPoint 0 4294967295) "" 4294967295) 0 0.

(** An announcement for [outpoint1] signed by the collateral key ["col"]. *)
Definition announcement (sig_time : Z) (ping : CMasternodePing) : CMasternodeBroadcast :=
  mkMasternode MESS_VER_STRMESS "col" vin1 addr1 "col" "op" MASTERNODE_ENABLED
    sig_time ping false true 70920 0 0 0 0.

Definition record_in (s : MasternodeState) (sig_time : Z) (ping : CMasternodePing)
    : CMasternode :=
  mkMasternode MESS_VER_STRMESS "col" vin1 addr1 "col" "op" s
    sig_time ping false true 70920 0 0 0 0.

Definition empty_state : State := mkState ∅ ∅ ∅ ∅ [].

Definition state_with (mn : CMasternode) : State :=
  mkState {[ prevout (vin mn) := mn ]} ∅ ∅ ∅ [].

(** Scenario S2: the announcement A1 ([sig_time = 1000]) is admitted into
    an empty registry, then A2 ([sig_time = 999]) arrives for the same
    outpoint. *)
Definition env_S2 : Env := toy_env 2000 false true.
Definition A1 : CMasternodeBroadcast := announcement 1000 (ping_at 1500).
Definition A2 : CMasternodeBroadcast := announcement 999 (ping_at 1500).
Definition state_after_A1 : State :=
  match CheckInputsAndAdd env_S2 A1 0 empty_state with
  | Some (_, _, st) => st
  | None => empty_state
  end.

(** A registry of two records: the collateral of the record of
    [outpoint1] is spent, the record of [outpoint2] is enabled.  The
    announcement [B2] refreshes the second; the heartbeat it carries names
    the first. *)
Definition outpoint2 : COutPoint := mkOutPoint 8738 1.
Definition vin2 : CTxIn := mkTxIn outpoint2 "" 4294967295.
Definition spent1 : CMasternode := record_in MASTERNODE_VIN_SPENT 1000 null_ping.
Definition enabled2 : CMasternode :=
  mkMasternode MESS_VER_STRMESS "col" vin2 addr1 "col" "op2" MASTERNODE_ENABLED
    1000 null_ping false true 70920 0 0 0 0.
Definition B2 : CMasternodeBroadcast :=
  mkMasternode MESS_VER_STRMESS "col" vin2 addr1 "col" "op2" MASTERNODE_ENABLED
    1500 (ping_at 1900) false true 70920 0 0 0 0.
Definition state_spent : State :=
  mkState (<[outpoint1 := spent1]> {[ outpoint2 := enabled2 ]}) ∅ ∅ ∅ [].

(** An enabled record announced at time 1850, and its first heartbeat,
    signed at time 1900. *)
Definition young1 : CMasternode := record_in MASTERNODE_ENABLED 1850 null_ping.
Definition block777 : CBlockIndex := mkBlockIndex 90 777 900.

(** A disabled record of [outpoint1], and the announcement [A1] that
    replaces it. *)
Definition expired1 : CMasternode := record_in MASTERNODE_EXPIRED 900 null_ping.

End Masternode.

(** ** The collateral schedule as a table *)

Module SchedulesTable.

(** The rows of [GetMasternodeNodeCollateral], in the order of the source:
    the height a row is above of, and its amount in whole coins. *)
Definition collateral_table : list (Z * Z) :=
  [ (53000000, 100000); (52999999, 106921); (51999999, 112549); (50999999, 118472);
    (49999999, 124708); (48999999, 131271); (47999999, 138180); (46999999, 145453);
    (45999999, 153108); (44999999, 161166); (43999999, 169649); (42999999, 178578);
    (41999999, 187977); (40999999, 197870); (39999999, 208284); (38999999, 219247);
    (37999999, 230786); (36999999, 242933); (35999999, 255719); (34999999, 269177);
    (33999999, 283345); (32999999, 298258); (31999999, 313955); (30999999, 330479);
    (29999999, 347873); (28999999, 366182); (27999999, 385455); (26999999, 405742);
    (25999999, 427097); (24999999, 449576); (23999999, 473237); (22999999, 498145);
    (21999999, 524363); (20999999, 551961); (19999999, 581011); (18999999, 611591);
    (17999999, 555992); (16999999, 505447); (15999999, 459497); (14999999, 417725);
    (13999999, 379750); (12999999, 345227); (11999999, 313843); (10999999, 285312);
    (9999999, 259374); (8999999, 235795); (7999999, 214359); (6999999, 194872);
    (5999999, 177156); (4999999, 161051); (3999999, 146410); (2999999, 133100);
    (1999999, 121000); (999999, 110000); (1, 100000) ].

(** The first row, in the order of the table, whose height is below [h];
    [d] when there is none. *)
Fixpoint table_coins (d : Z) (tbl : list (Z * Z)) (h : Z) : Z :=
  match tbl with
  | [] => d
  | (t, n) :: rest => if h >? t then n else table_coins d rest h
  end.

(** [COIN] is positive and the largest subsidy of the table fits a
    [CAmount], also when it is multiplied by 85. *)
Definition subsidy_coin_ok (COIN : Z) : Prop :=
  0 < COIN /\ 85 * (400200 * COIN) <= INT64_MAX.

End SchedulesTable.

(** ** Relations between registries, and the paths of an announcement *)

Module MasternodeRelations.
Import Scoring Masternode.

(** Two records that differ at most in [lastPing], [activeState] and
    [lastTimeChecked]: what [Check] and a heartbeat may assign. *)
Definition only_status (mn mn' : CMasternode) : Prop :=
  exists p s t, mn' = set_lastTimeChecked t (set_activeState s (set_lastPing p mn)).

(** A record that keeps its collateral input and does not go back in
    time of signature. *)
Definition same_vin_later (mn mn' : CMasternode) : Prop :=
  vin mn' = vin mn /\ sigTime mn <= sigTime mn'.

(** Every record of [st] is still there in [st'], related by [R], and no
    outpoint has gained a record. *)
Definition registry_related (R : CMasternode -> CMasternode -> Prop)
    (st st' : State) : Prop :=
  forall k,
    match vMasternodes st !! k with
    | Some mn => exists mn', vMasternodes st' !! k = Some mn' /\ R mn mn'
    | None => vMasternodes st' !! k = None
    end.

(** The record [pmn] after the assignments of [UpdateFromNewBroadcast] that
    come before the heartbeat. *)
Definition refreshed_from (pmn : CMasternode) (mnb : CMasternodeBroadcast) : CMasternode :=
  set_lastTimeChecked 0
    (set_addr (addr mnb)
       (set_protocolVersion (protocolVersion mnb)
          (set_vchSig (vchSig mnb)
             (set_sigTime (sigTime mnb)
                (set_pubKeyCollateralAddress (pubKeyCollateralAddress mnb)
                   (set_pubKeyMasternode (pubKeyMasternode mnb) pmn)))))).

(** The announcement passes every check and meets an enabled record [pmn]
    of the same collateral key, older, and not announced in the last five
    minutes: [CheckAndUpdate] refreshes that record. *)
Definition refresh_applies (env : Env) (this : CMasternodeBroadcast) (nDos : Z)
    (st : State) (pmn : CMasternode) : Prop :=
  passes_checks_before_lookup env this nDos st /\
  Find st (vin this) = Some pmn /\
  sigTime pmn < sigTime this /\
  IsEnabled pmn = true /\
  pubKeyCollateralAddress pmn = pubKeyCollateralAddress this /\
  IsBroadcastedWithin env pmn MASTERNODE_MIN_MNB_SECONDS = false.

(** The first test of [CheckInputsAndAdd]: this node runs the masternode of
    the announcement. *)
Definition announces_local_masternode (env : Env) (this : CMasternodeBroadcast) : bool :=
  fMasterNode env &&
  match activeMasternode_vin env with
  | Some v =>
      bool_decide (prevout (vin this) = prevout v) &&
      bool_decide (pubKeyMasternode this = activeMasternode_pubKeyMasternode env)
  | None => false
  end.

(** The block that gave the collateral its last confirmation is in the
    chain whenever the block of the collateral transaction is known. *)
Definition confirmation_block_known (env : Env) (this : CMasternodeBroadcast) : Prop :=
  forall pMNIndex,
    mapBlockIndex env (GetTransaction_hashBlock env (prevout_hash (prevout (vin this))))
      = Some pMNIndex ->
    is_Some (chainActive_at env
               (sub32 (add32 (nHeight pMNIndex) MASTERNODE_MIN_CONFIRMATIONS) 1)).

End MasternodeRelations.

(** ** Payment history and the collateral output

    [CMasternode::GetLastPaid], [CMasternode::SecondsSincePayment] and
    [CMasternode::IsInputAssociatedWithPubkey]. *)
Module Payments.
Import Schedules Scoring Masternode.

(** A transaction output. *)
Record CTxOut := mkTxOut {
  nValue : Z;
  scriptPubKey : string
}.

(** What these functions read besides [Env]: the block [GetChainTip]
    returns with the blocks its [pprev] links reach (tip first; the empty
    list is [nullptr]), [mnodeman.CountEnabled()], whether
    [masternodePayments.mapMasternodeBlocks] has an entry for a height,
    [HasPayeeWithVotes] of that entry, [uint256::GetCompact(false)],
    [GetScriptForDestination] of the identifier of a public key, and the
    outputs of the transaction [GetTransaction] finds for a hash. *)
Record PaymentEnv := {
  GetChainTip : Chain;
  CountEnabled : Z;
  mapMasternodeBlocks_count : Z -> bool;
  HasPayeeWithVotes : Z -> string -> Z -> bool;
  GetCompact : Z -> Z;
  GetScriptForDestination : string -> string;
  GetTransaction_vout : Z -> option (list CTxOut)
}.

(** The hash both functions take of [vin] and [sigTime]. *)
Definition payment_hash (env : Env) (mn : CMasternode) : Z :=
  HashOf env (PROTOCOL_VERSION env) (ser_txin (vin mn) ++ [ser_int64 (sigTime mn)]).

(** [int nMnCount = mnodeman.CountEnabled() * 1.25]: the product is exact
    in [double], the conversion truncates. *)
Definition nMnCount (penv : PaymentEnv) : Z :=
  Z.quot (CountEnabled penv * 5) 4.

(** The loop of [GetLastPaid] from the block [BlockReading] points to, with
    [n] blocks read so far; leaving the loop returns 0. *)
Fixpoint GetLastPaid_loop (penv : PaymentEnv) (mnpayee : string) (nOffset : Z)
    (n : Z) (BlockReading : Chain) : Z :=
  match BlockReading with
  | [] => 0
  | b :: pprev =>
      if nHeight b >? 0 then
        if n >=? nMnCount penv then 0 else
        let n := add32 n 1 in
        if mapMasternodeBlocks_count penv (nHeight b) &&
           HasPayeeWithVotes penv (nHeight b) mnpayee 2
        then add64 (nTime b) nOffset
        else GetLastPaid_loop penv mnpayee nOffset n pprev
      else 0
  end.

(** [CMasternode::GetLastPaid]. *)
Definition GetLastPaid (env : Env) (penv : PaymentEnv) (mn : CMasternode) : Z :=
  match GetChainTip penv with
  | [] => 0
  | BlockReading =>
      let mnpayee := GetScriptForDestination penv (pubKeyCollateralAddress mn) in
      let hash := payment_hash env mn in
      let nOffset := Z.rem (GetCompact penv hash) 150 in
      GetLastPaid_loop penv mnpayee nOffset 0 BlockReading
  end.

(** [CMasternode::SecondsSincePayment]. *)
Definition SecondsSincePayment (env : Env) (penv : PaymentEnv) (mn : CMasternode) : Z :=
  let sec := sub64 (GetAdjustedTime env) (GetLastPaid env penv mn) in
  let month := 60 * 60 * 24 * 30 in
  if sec <? month then sec else
  let hash := payment_hash env mn in
  add64 month (GetCompact penv hash).

(** [CMasternode::IsInputAssociatedWithPubkey]. *)
Definition IsInputAssociatedWithPubkey (COIN : Z) (env : Env) (penv : PaymentEnv)
    (mn : CMasternode) : bool :=
  let payee := GetScriptForDestination penv (pubKeyCollateralAddress mn) in
  match GetTransaction_vout penv (prevout_hash (prevout (vin mn))) with
  | Some vout =>
      existsb (fun out =>
                 (nValue out =? GetMasternodeNodeCollateral COIN (chainActive_Height env)) &&
                 bool_decide (scriptPubKey out = payee)) vout
  | None => false
  end.

(** The block [GetLastPaid] answers with, as a property: the block [i]
    links below the tip is within the first [nMnCount] blocks, it and all
    the blocks above it have a positive height, it is the first of them
    whose payees hold this masternode with two votes. *)
Definition paid_in (penv : PaymentEnv) (mnpayee : string) (b : CBlockIndex) : bool :=
  mapMasternodeBlocks_count penv (nHeight b) && HasPayeeWithVotes penv (nHeight b) mnpayee 2.

Definition last_paid_block (penv : PaymentEnv) (mn : CMasternode) (i : nat)
    (b : CBlockIndex) : Prop :=
  let mnpayee := GetScriptForDestination penv (pubKeyCollateralAddress mn) in
  GetChainTip penv !! i = Some b /\
  Z.of_nat i < nMnCount penv /\
  paid_in penv mnpayee b = true /\
  (forall j b', (j <= i)%nat -> GetChainTip penv !! j = Some b' -> 0 < nHeight b') /\
  (forall j b', (j < i)%nat -> GetChainTip penv !! j = Some b' ->
                paid_in penv mnpayee b' = false).

(** A chain of three blocks whose block of height 2 paid the payee ["col"],
    twenty enabled masternodes. *)
Definition toy_payments : PaymentEnv :=
  {| GetChainTip := chain3;
     CountEnabled := 20;
     mapMasternodeBlocks_count := fun h => h =? 2;
     HasPayeeWithVotes := fun h payee votes => String.eqb payee "col" && (votes <=? 2);
     GetCompact := fun h => h mod 2 ^ 32;
     GetScriptForDestination := fun pk => pk;
     GetTransaction_vout := fun h => Some [mkTxOut 5 "col"; mkTxOut 10000000000000 "col"] |}.

End Payments.

(** * Properties *)

(** ** Machine integers *)

Lemma to_int32_small x : in_int32 x -> to_int32 x = x.
Proof.
  unfold in_int32, INT32_MAX, to_int32. intros Hx.
  rewrite Z.mod_small; lia.
Qed.

Lemma to_int64_small x : in_int64 x -> to_int64 x = x.
Proof.
  unfold in_int64, INT64_MAX, to_int64. intros Hx.
  rewrite Z.mod_small; lia.
Qed.

Lemma to_int64_range x : in_int64 (to_int64 x).
Proof.
  unfold in_int64, INT64_MAX, to_int64.
  pose proof (Z.mod_pos_bound (x + 2 ^ 63) (2 ^ 64)). lia.
Qed.

Lemma add64_exact a b : in_int64 (a + b) -> add64 a b = a + b.
Proof. apply to_int64_small. Qed.

Lemma sub64_exact a b : in_int64 (a - b) -> sub64 a b = a - b.
Proof. apply to_int64_small. Qed.

Lemma mul64_exact a b : in_int64 (a * b) -> mul64 a b = a * b.
Proof. apply to_int64_small. Qed.

Lemma add32_exact a b : in_int32 (a + b) -> add32 a b = a + b.
Proof. apply to_int32_small. Qed.

Lemma sub32_exact a b : in_int32 (a - b) -> sub32 a b = a - b.
Proof. apply to_int32_small. Qed.

(** ** Scoring *)

Module ScoringFacts.
Import Scoring.

Lemma chain_wf_height_bound chain b :
  chain_wf chain -> In b chain -> 0 <= nHeight b < Z.of_nat (length chain).
Proof.
  induction chain as [| c pprev IH]; simpl; [tauto |].
  intros [Hh Hwf] [<- | Hin]; [lia |].
  specialize (IH Hwf Hin). lia.
Qed.

Lemma block_at_above chain h :
  chain_wf chain -> Z.of_nat (length chain) <= h -> block_at chain h = None.
Proof.
  intros Hwf Hh. unfold block_at.
  destruct (find _ chain) as [b |] eqn:Hf; [| reflexivity].
  apply find_some in Hf as [Hin Heq].
  apply Z.eqb_eq in Heq. pose proof (chain_wf_height_bound chain b Hwf Hin). lia.
Qed.

Lemma block_at_below chain h :
  chain_wf chain -> h < 0 -> block_at chain h = None.
Proof.
  intros Hwf Hh. unfold block_at.
  destruct (find _ chain) as [b |] eqn:Hf; [| reflexivity].
  apply find_some in Hf as [Hin Heq].
  apply Z.eqb_eq in Heq. pose proof (chain_wf_height_bound chain b Hwf Hin). lia.
Qed.

Lemma GetBlockHash_loop_spec chain n nBlocksAgo :
  chain_wf chain -> 0 <= n <= nBlocksAgo -> in_int32 nBlocksAgo ->
  GetBlockHash_loop chain n nBlocksAgo =
    match block_at chain (Z.of_nat (length chain) - 1 - (nBlocksAgo - n)) with
    | Some b => if nHeight b >? 0 then Some (phashBlock b) else None
    | None => None
    end.
Proof.
  revert n. induction chain as [| b pprev IH]; intros n Hwf Hn Hago.
  - reflexivity.
  - destruct Hwf as [Hh Hwf]. cbn [GetBlockHash_loop].
    unfold block_at. cbn [find length]. rewrite Hh.
    destruct (Z.gtb_spec (Z.of_nat (length pprev)) 0) as [Hpos | Hzero].
    + destruct (Z.geb_spec n nBlocksAgo) as [Hge | Hlt].
      * assert (n = nBlocksAgo) as -> by lia.
        replace (Z.of_nat (S (length pprev)) - 1 - (nBlocksAgo - nBlocksAgo))
          with (Z.of_nat (length pprev)) by lia.
        rewrite Z.eqb_refl, Hh.
        destruct (Z.gtb_spec (Z.of_nat (length pprev)) 0); [reflexivity | lia].
      * rewrite add32_exact by (unfold in_int32, INT32_MAX in *; lia).
        rewrite IH by (assumption || lia).
        destruct (Z.eqb_spec (Z.of_nat (length pprev))
                    (Z.of_nat (S (length pprev)) - 1 - (nBlocksAgo - n))); [lia |].
        replace (Z.of_nat (length pprev) - 1 - (nBlocksAgo - (n + 1)))
          with (Z.of_nat (S (length pprev)) - 1 - (nBlocksAgo - n)) by lia.
        reflexivity.
    + destruct (Z.eqb_spec (Z.of_nat (length pprev))
                  (Z.of_nat (S (length pprev)) - 1 - (nBlocksAgo - n))) as [E | E].
      * rewrite Hh. destruct (Z.gtb_spec (Z.of_nat (length pprev)) 0); [lia | reflexivity].
      * assert (pprev = []) as -> by (destruct pprev; [reflexivity | simpl in *; lia]).
        reflexivity.
Qed.

(** On an empty cache [GetBlockHash] finds the designated hash. *)
Lemma GetBlockHash_cold chain h :
  chain_wf chain -> Z.of_nat (length chain) <= INT32_MAX -> in_int32 h ->
  fst (GetBlockHash ∅ chain h) = GetBlockHash_target chain h.
Proof.
  intros Hwf Hlen Hh. destruct chain as [| tip pprev]; [reflexivity |].
  unfold GetBlockHash, GetBlockHash_target.
  destruct (Z.eqb_spec (nHeight tip) 0) as [| HT]; [reflexivity |].
  pose proof Hwf as [HT' _]. cbn [length] in Hlen.
  set (h' := if h =? 0 then nHeight tip else h).
  assert (Hh' : in_int32 h' /\ h' <> 0).
  { subst h'. unfold in_int32, INT32_MAX in *. destruct (Z.eqb_spec h 0); lia. }
  destruct Hh' as [Hh' Hnz].
  rewrite lookup_empty.
  destruct (Z.gtb_spec h' 0) as [Hpos | Hneg].
  - rewrite add32_exact by (unfold in_int32, INT32_MAX in *; lia).
    rewrite sub32_exact by (unfold in_int32, INT32_MAX in *; lia).
    destruct (Z.ltb_spec (nHeight tip + 1 - h') 0) as [Hlt | Hge].
    + rewrite block_at_above; [reflexivity | assumption | cbn [length]; lia].
    + rewrite GetBlockHash_loop_spec
        by (assumption || lia || (unfold in_int32, INT32_MAX in *; lia)).
      cbn [length].
      replace (Z.of_nat (S (length pprev)) - 1 - (nHeight tip + 1 - h' - 0))
        with (h' - 1) by lia.
      destruct (block_at (tip :: pprev) (h' - 1)) as [b |]; [| reflexivity].
      destruct (nHeight b >? 0); reflexivity.
  - cbn [Z.ltb Z.compare].
    rewrite GetBlockHash_loop_spec
      by (assumption || lia || (unfold in_int32, INT32_MAX; lia)).
    cbn [length].
    replace (Z.of_nat (S (length pprev)) - 1 - (0 - 0)) with (nHeight tip) by lia.
    destruct (block_at (tip :: pprev) (nHeight tip)) as [b |]; [| reflexivity].
    destruct (nHeight b >? 0); reflexivity.
Qed.

Lemma GetBlockHash_target_nonzero tip pprev h :
  nHeight tip <> 0 ->
  GetBlockHash_target (tip :: pprev) (if h =? 0 then nHeight tip else h) =
  GetBlockHash_target (tip :: pprev) h.
Proof.
  intros HT. unfold GetBlockHash_target.
  destruct (Z.eqb_spec h 0) as [-> | Hh]; cbv zeta.
  - destruct (Z.eqb_spec (nHeight tip) 0); [contradiction | reflexivity].
  - cbv iota. rewrite (proj2 (Z.eqb_neq h 0) Hh). reflexivity.
Qed.

(** With a coherent cache [GetBlockHash] returns the designated hash. *)
Lemma GetBlockHash_coherent cache chain h :
  chain_wf chain -> Z.of_nat (length chain) <= INT32_MAX -> in_int32 h ->
  cache_coherent cache chain ->
  fst (GetBlockHash cache chain h) = GetBlockHash_target chain h.
Proof.
  intros Hwf Hlen Hh Hco.
  rewrite <- (GetBlockHash_cold chain h Hwf Hlen Hh).
  destruct chain as [| tip pprev]; [reflexivity |].
  unfold GetBlockHash at 1.
  destruct (Z.eqb_spec (nHeight tip) 0) as [HT | HT].
  { unfold GetBlockHash. destruct (Z.eqb_spec (nHeight tip) 0); [reflexivity | contradiction]. }
  set (h' := if h =? 0 then nHeight tip else h).
  assert (Hh' : in_int32 h').
  { subst h'. pose proof Hwf as [HT' _]. cbn [length] in Hlen.
    unfold in_int32, INT32_MAX in *. destruct (Z.eqb_spec h 0); lia. }
  destruct (cache !! h') as [v |] eqn:Hc.
  - apply Hco in Hc. cbn [fst].
    rewrite (GetBlockHash_cold _ h) by assumption.
    rewrite (GetBlockHash_cold _ h') in Hc by assumption.
    subst h'. rewrite GetBlockHash_target_nonzero in Hc by assumption.
    now rewrite Hc.
  - unfold GetBlockHash.
    destruct (Z.eqb_spec (nHeight tip) 0); [contradiction |].
    fold h'. rewrite lookup_empty.
    repeat case_match; reflexivity.
Qed.

(** The cache [GetBlockHash] leaves is coherent again. *)
Lemma GetBlockHash_keeps_coherent cache chain h :
  cache_coherent cache chain ->
  cache_coherent (snd (GetBlockHash cache chain h)) chain.
Proof.
  intros Hco. destruct chain as [| tip pprev]; [exact Hco |].
  unfold GetBlockHash at 1.
  destruct (Z.eqb_spec (nHeight tip) 0) as [HT | HT]; [exact Hco |].
  set (h' := if h =? 0 then nHeight tip else h).
  assert (Hnz : h' <> 0) by (subst h'; destruct (Z.eqb_spec h 0); lia).
  destruct (cache !! h') as [v |] eqn:Hc; [exact Hco |].
  destruct (_ <? 0) eqn:Hago; [exact Hco |].
  destruct (GetBlockHash_loop _ _ _) as [hash |] eqn:Hloop; [| exact Hco].
  cbn [snd]. intros k v. rewrite lookup_insert.
  destruct (decide (h' = k)) as [<- | Hk]; [| apply Hco].
  intros [= <-]. unfold GetBlockHash.
  destruct (Z.eqb_spec (nHeight tip) 0); [contradiction |].
  destruct (Z.eqb_spec h' 0); [contradiction |].
  rewrite lookup_empty, Hago, Hloop. reflexivity.
Qed.

Lemma cache_coherent_empty chain : cache_coherent ∅ chain.
Proof. intros k v Hk. rewrite lookup_empty in Hk. discriminate. Qed.

(** The two-sided subtraction of [CalculateScore] is the absolute value of
    the difference. *)
Lemma score_abs a b :
  in_uint256 a -> in_uint256 b ->
  (if b >? a then sub256 b a else sub256 a b) = Z.abs (a - b).
Proof.
  unfold in_uint256, sub256. intros Ha Hb.
  destruct (Z.gtb_spec b a); rewrite Z.mod_small; lia.
Qed.

(** C3 (as amended): on a well-formed chain and with a coherent cache, for
    every height [h] and every collateral outpoint, [CalculateScore] returns
    the 256-bit absolute difference [|H1 - H2|], where [H1] is the hash of
    [B], [H2] is the hash of [B] followed by the sum modulo [2 ^ 256] of the
    outpoint's transaction hash and output index, and [B] is the hash
    [GetBlockHash] designates for [h]: the hash of the block at height
    [h - 1] ([h = 0] standing for the height of the tip), or of the tip for a
    negative [h].  It returns zero when no hash is designated: no tip, a tip
    at height 0, [h] above the tip height plus one, or [h - 1] the genesis
    block. *)
Theorem CalculateScore_by_height HashOf PROTOCOL_VERSION cache chain prevout mod_ h :
  chain_wf chain -> Z.of_nat (length chain) <= INT32_MAX ->
  cache_coherent cache chain -> in_int32 h ->
  (forall items, in_uint256 (HashOf PROTOCOL_VERSION items)) ->
  fst (CalculateScore HashOf PROTOCOL_VERSION cache chain prevout mod_ h) =
    match GetBlockHash_target chain h with
    | Some B => spec_score_of_hash HashOf PROTOCOL_VERSION B prevout
    | None => UINT256_ZERO
    end.
Proof.
  intros Hwf Hlen Hco Hh Hrange.
  destruct chain as [| tip pprev] eqn:Hchain; [reflexivity |].
  rewrite <- Hchain in *. unfold CalculateScore. rewrite Hchain at 1.
  rewrite to_int32_small by assumption.
  rewrite <- (GetBlockHash_coherent cache chain h Hwf Hlen Hh Hco).
  destruct (GetBlockHash cache chain h) as [[B |] cache']; cbn [fst]; [| reflexivity].
  unfold spec_score_of_hash. apply score_abs; apply Hrange.
Qed.

Lemma toy_hash_range v items : in_uint256 (toy_hash v items).
Proof.
  unfold toy_hash.
  assert (H : forall acc, in_uint256 acc ->
            in_uint256 (fold_left
                          (fun acc i => (acc * 1000003 + toy_item i + 7) mod UINT256_MOD)
                          items acc)).
  { induction items as [| i items IH]; intros acc Hacc; simpl; [assumption |].
    apply IH. unfold in_uint256. apply Z.mod_pos_bound. reflexivity. }
  apply H. unfold in_uint256, UINT256_MOD. lia.
Qed.

Lemma chain3_wf : chain_wf chain3.
Proof. simpl. repeat split. Qed.

Lemma CalculateScore_by_height_witness :
  fst (CalculateScore toy_hash 70920 ∅ chain3 toy_outpoint 0 2) =
    match GetBlockHash_target chain3 2 with
    | Some B => spec_score_of_hash toy_hash 70920 B toy_outpoint
    | None => UINT256_ZERO
    end.
Proof.
  apply (CalculateScore_by_height toy_hash 70920 ∅ chain3 toy_outpoint 0 2).
  - exact chain3_wf.
  - vm_compute. discriminate.
  - apply cache_coherent_empty.
  - unfold in_int32, INT32_MAX. lia.
  - intros items. apply toy_hash_range.
Defined.

(** C3 as stated fails: on a chain of three blocks, the score for height 2
    is computed from the hash of the block at height 1, not from the hash of
    the block at height 2; and for height 3, where the chain has no block, the
    score is not zero (it is computed from the hash of the tip). *)
Lemma CalculateScore_counterexample :
  fst (CalculateScore toy_hash 70920 ∅ chain3 toy_outpoint 0 2)
    = spec_score_of_hash toy_hash 70920 1001 toy_outpoint /\
  fst (CalculateScore toy_hash 70920 ∅ chain3 toy_outpoint 0 2)
    <> spec_score toy_hash 70920 chain3 toy_outpoint 2 /\
  block_at chain3 3 = None /\
  fst (CalculateScore toy_hash 70920 ∅ chain3 toy_outpoint 0 3) <> UINT256_ZERO.
Proof. repeat split; vm_compute; discriminate. Qed.

End ScoringFacts.

(** ** Schedules *)

Module SchedulesFacts.
Import Schedules.

Section Collateral.

Variable COIN : Z.
Hypothesis COIN_ok : coin_ok COIN.

Abbreviation collateral := (GetMasternodeNodeCollateral COIN).

Lemma coins_exact n : 0 <= n <= 611591 -> mul64 n COIN = n * COIN.
Proof using COIN_ok.
  intros Hn. apply mul64_exact.
  destruct COIN_ok as [Hpos Hmax]. unfold in_int64, INT64_MAX in *. nia.
Qed.

Lemma coins_inj n m : n * COIN = m * COIN -> n = m.
Proof using COIN_ok. destruct COIN_ok as [Hpos _]. nia. Qed.

Ltac by_thresholds :=
  repeat match goal with
         | |- context [?a >? ?b] => destruct (Z.gtb_spec a b); try lia
         end.

Lemma collateral_low_band lo hi n j :
  In (lo, hi, n) low_bands -> lo <= j < hi -> collateral j = mul64 n COIN.
Proof.
  intros Hin Hj. simpl in Hin.
  repeat (destruct Hin as [Hin | Hin];
          [ inversion Hin; subst; clear Hin;
            unfold GetMasternodeNodeCollateral; by_thresholds; reflexivity | ]).
  contradiction.
Qed.

(** Every amount of the table is a number of whole coins, and it is
    611591 coins on the band from 19000000 to 19999999 only. *)
Lemma collateral_cases h :
  exists n, 0 <= n <= 611591 /\ collateral h = mul64 n COIN /\
            (n = 611591 <-> 19000000 <= h <= 19999999).
Proof.
  unfold GetMasternodeNodeCollateral. by_thresholds;
    eexists; (split; [ | split; [ reflexivity | ] ]); lia.
Qed.

Lemma collateral_611591_band h :
  collateral h = 611591 * COIN <-> 19000000 <= h <= 19999999.
Proof using COIN_ok.
  destruct (collateral_cases h) as (n & Hn & Heq & Hband).
  rewrite Heq, (coins_exact n Hn). split.
  - intros H%coins_inj. apply Hband, H.
  - intros H%Hband. now subst n.
Qed.

(** *** The scan of [InitMasternodeCollateralList] *)

Lemma collateral_scan_app n m i st :
  collateral_scan COIN (n + m) i st =
  collateral_scan COIN m (i + Z.of_nat n) (collateral_scan COIN n i st).
Proof.
  revert i st. induction n as [| n IH]; intros i st; simpl.
  - now rewrite Z.add_0_r.
  - rewrite IH. f_equal. lia.
Qed.

Lemma collateral_scan_range_split lo mid hi st :
  lo <= mid <= hi ->
  collateral_scan_range COIN lo hi st =
  collateral_scan_range COIN mid hi (collateral_scan_range COIN lo mid st).
Proof.
  intros H. unfold collateral_scan_range.
  replace (Z.to_nat (hi - lo)) with (Z.to_nat (mid - lo) + Z.to_nat (hi - mid))%nat by lia.
  rewrite collateral_scan_app. do 2 f_equal. lia.
Qed.

Lemma collateral_scan_const n i prev vec :
  (forall j, i <= j < i + Z.of_nat n -> collateral j = prev) ->
  collateral_scan COIN n i (prev, vec) = (prev, vec).
Proof.
  revert i. induction n as [| n IH]; intros i Hc; simpl; [reflexivity |].
  rewrite (Hc i) by lia. rewrite Z.eqb_refl. simpl.
  apply IH. intros j Hj. apply Hc. lia.
Qed.

(** A band of constant collateral that differs from [prev] adds exactly one
    transition point, its first height. *)
Lemma collateral_scan_band lo hi prev c vec :
  lo < hi -> prev <> c ->
  (forall j, lo <= j < hi -> collateral j = c) ->
  collateral_scan_range COIN lo hi (prev, vec) = (c, vec ++ [(lo, c)]).
Proof.
  intros Hlt Hne Hc.
  rewrite (collateral_scan_range_split lo (lo + 1) hi) by lia.
  unfold collateral_scan_range at 2.
  replace (lo + 1 - lo) with 1 by lia. simpl.
  rewrite (Hc lo) by lia.
  destruct (Z.eqb_spec prev c) as [-> | _]; [contradiction |]. simpl.
  unfold collateral_scan_range. apply collateral_scan_const.
  intros j Hj. apply Hc. lia.
Qed.

Lemma coins_neq n m :
  0 <= n <= 611591 -> 0 <= m <= 611591 -> n <> m -> mul64 n COIN <> mul64 m COIN.
Proof using COIN_ok.
  intros Hn Hm Hne. rewrite !coins_exact by assumption.
  intros H%coins_inj. contradiction.
Qed.

(** The scan records the eleven transition points below height 9999999:
    the changes of the table at 10000000 and above are never reached. *)
Lemma InitMasternodeCollateralList_eq vec :
  InitMasternodeCollateralList COIN vec = vec ++ low_transitions COIN.
Proof using COIN_ok.
  unfold InitMasternodeCollateralList.
  assert (Hstep : forall lo hi n prev v, In (lo, hi, n) low_bands -> lo < hi ->
            prev <> mul64 n COIN ->
            collateral_scan_range COIN lo hi (prev, v) =
            (mul64 n COIN, v ++ [(lo, mul64 n COIN)])).
  { intros lo hi n prev v Hin Hlt Hne. apply collateral_scan_band; try assumption.
    intros j Hj. eapply collateral_low_band; eassumption. }
  assert (H0 : -1 <> mul64 0 COIN) by (rewrite coins_exact; lia).
  rewrite (collateral_scan_range_split 0 2) by lia.
  rewrite (Hstep 0 2 0) by (simpl; tauto || lia || assumption).
  rewrite (collateral_scan_range_split 2 1000000) by lia.
  rewrite (Hstep 2 1000000 100000) by (simpl; tauto || lia || (apply coins_neq; lia)).
  rewrite (collateral_scan_range_split 1000000 2000000) by lia.
  rewrite (Hstep 1000000 2000000 110000) by (simpl; tauto || lia || (apply coins_neq; lia)).
  rewrite (collateral_scan_range_split 2000000 3000000) by lia.
  rewrite (Hstep 2000000 3000000 121000) by (simpl; tauto || lia || (apply coins_neq; lia)).
  rewrite (collateral_scan_range_split 3000000 4000000) by lia.
  rewrite (Hstep 3000000 4000000 133100) by (simpl; tauto || lia || (apply coins_neq; lia)).
  rewrite (collateral_scan_range_split 4000000 5000000) by lia.
  rewrite (Hstep 4000000 5000000 146410) by (simpl; tauto || lia || (apply coins_neq; lia)).
  rewrite (collateral_scan_range_split 5000000 6000000) by lia.
  rewrite (Hstep 5000000 6000000 161051) by (simpl; tauto || lia || (apply coins_neq; lia)).
  rewrite (collateral_scan_range_split 6000000 7000000) by lia.
  rewrite (Hstep 6000000 7000000 177156) by (simpl; tauto || lia || (apply coins_neq; lia)).
  rewrite (collateral_scan_range_split 7000000 8000000) by lia.
  rewrite (Hstep 7000000 8000000 194872) by (simpl; tauto || lia || (apply coins_neq; lia)).
  rewrite (collateral_scan_range_split 8000000 9000000) by lia.
  rewrite (Hstep 8000000 9000000 214359) by (simpl; tauto || lia || (apply coins_neq; lia)).
  rewrite (Hstep 9000000 9999999 235795) by (simpl; tauto || lia || (apply coins_neq; lia)).
  simpl. rewrite <- !app_assoc. reflexivity.
Qed.

(** What the answer for a height [h] of the band [(lo, p, n)] is worth,
    when the next band [(p, hi', n')] has another amount. *)
Lemma next_band_answer lo p n hi' n' h :
  In (lo, p, n) low_bands -> In (p, hi', n') low_bands ->
  0 <= lo -> lo <= h < p -> p < hi' -> p <= 9000000 -> n <> n' ->
  0 <= n <= 611591 -> 0 <= n' <= 611591 ->
  let r := (sub32 p h, mul64 n' COIN) in
  r <> (-1, -1) /\ 0 < fst r /\ snd r = collateral (h + fst r) /\
  collateral (h + fst r) <> collateral h /\ h < 9000000 /\
  ~ no_change_after COIN h.
Proof using COIN_ok.
  intros Hin Hin' Hlo Hh Hp Hp9 Hne Hn Hn'. simpl.
  rewrite sub32_exact by (unfold in_int32, INT32_MAX; lia).
  replace (h + (p - h)) with p by lia.
  rewrite (collateral_low_band p hi' n' p Hin') by lia.
  rewrite (collateral_low_band lo p n h Hin) by lia.
  assert (Hd : mul64 n' COIN <> mul64 n COIN) by (apply coins_neq; auto).
  repeat split; try lia; try assumption.
  - intros [= H _]. lia.
  - intros Hnc. apply Hd.
    rewrite <- (collateral_low_band p hi' n' p Hin') by lia.
    rewrite <- (collateral_low_band lo p n h Hin) by lia.
    apply Hnc. lia.
Qed.

Lemma no_change_after_9000000 h : 9000000 <= h -> no_change_after COIN h.
Proof.
  intros Hh h' Hh'.
  assert (Hin : In (9000000, 9999999, 235795) low_bands) by (simpl; tauto).
  rewrite (collateral_low_band _ _ _ h' Hin), (collateral_low_band _ _ _ h Hin) by lia.
  reflexivity.
Qed.

End Collateral.

(** C5 (as amended): over the list materialized at startup, for every height
    [h >= 0], a non-sentinel answer of [GetNextMasternodeCollateral] has a
    strictly positive [blocks_until], its amount is the collateral at
    [h + blocks_until], and that collateral differs from the one at [h]; the
    sentinel [(-1, -1)] is returned exactly from height 9000000 on, that is
    exactly when no collateral change follows [h] among the scanned heights
    (below 9999999). *)
Theorem next_change_over_scanned_heights COIN h :
  coin_ok COIN -> 0 <= h ->
  let r := GetNextMasternodeCollateral (InitMasternodeCollateralList COIN []) h in
  (r <> (-1, -1) ->
     0 < fst r /\
     snd r = GetMasternodeNodeCollateral COIN (h + fst r) /\
     GetMasternodeNodeCollateral COIN (h + fst r) <> GetMasternodeNodeCollateral COIN h) /\
  (r = (-1, -1) <-> 9000000 <= h) /\
  (r = (-1, -1) <-> no_change_after COIN h).
Proof.
  intros Hok Hh. rewrite InitMasternodeCollateralList_eq by assumption.
  cbn [app low_transitions low_bands map fst snd GetNextMasternodeCollateral].
  repeat match goal with
         | |- context [?a >? h] => destruct (Z.gtb_spec a h); try lia
         end;
    cbv zeta;
    try (match goal with
         | |- context [sub32 ?p h] =>
             match goal with
             | |- context [mul64 ?n' COIN] =>
                 let H := fresh in
                 assert (H : exists lo n hi', In (lo, p, n) low_bands /\
                             In (p, hi', n') low_bands /\ lo <= h /\ 0 <= lo /\ p < hi' /\
                             n <> n' /\ 0 <= n <= 611591 /\ 0 <= n' <= 611591)
                   by (simpl; eauto 30 with lia);
                 destruct H as (lo & n & hi' & Hin & Hin' & Hlo & Hlo0 & Hp & Hne & Hn & Hn');
                 destruct (next_band_answer COIN Hok lo p n hi' n' h) as (A & B & C & D & E & F);
                 try assumption; try lia;
                 simpl in A, B, C, D; repeat split; intros; try assumption; try lia;
                 try contradiction; exfalso; auto
             end
         end).
  repeat split; intros; try reflexivity; try lia; try congruence.
  now apply no_change_after_9000000.
Qed.

Lemma coin_ok_100000000 : coin_ok 100000000.
Proof. unfold coin_ok, INT64_MAX. lia. Defined.

Lemma next_change_over_scanned_heights_witness :
  let r := GetNextMasternodeCollateral (InitMasternodeCollateralList 100000000 []) 5 in
  (r <> (-1, -1) ->
     0 < fst r /\
     snd r = GetMasternodeNodeCollateral 100000000 (5 + fst r) /\
     GetMasternodeNodeCollateral 100000000 (5 + fst r)
       <> GetMasternodeNodeCollateral 100000000 5) /\
  (r = (-1, -1) <-> 9000000 <= 5) /\
  (r = (-1, -1) <-> no_change_after 100000000 5).
Proof.
  apply (next_change_over_scanned_heights 100000000 5).
  - exact coin_ok_100000000.
  - lia.
Defined.

(** C5 as stated fails twice.  At height 9000000 the sentinel is returned
    although the collateral changes again at height 10000000, which the scan
    never reaches; and at height -1 (the height of an empty chain) the answer
    is [(1, 0)], although the collateral at height 0 is the one at height -1. *)
Lemma next_change_counterexample :
  let vec := InitMasternodeCollateralList 100000000 [] in
  (GetNextMasternodeCollateral vec 9000000 = (-1, -1) /\
   GetMasternodeNodeCollateral 100000000 10000000
     <> GetMasternodeNodeCollateral 100000000 9000000) /\
  (GetNextMasternodeCollateral vec (-1) = (1, 0) /\
   GetMasternodeNodeCollateral 100000000 (-1 + 1)
     = GetMasternodeNodeCollateral 100000000 (-1)).
Proof.
  cbv zeta. rewrite (InitMasternodeCollateralList_eq 100000000 coin_ok_100000000).
  repeat split; try reflexivity.
  vm_compute. discriminate.
Qed.

(** C2 (as amended): the collateral is 100000 coins at height 999999 and
    110000 coins at height 1000000; it is 555992 coins at height 18999999 and
    611591 coins at height 19000000; the one-time amount of 611591 coins
    covers exactly the heights 19000000 to 19999999, and the descent starts
    with 581011 coins at height 20000000. *)
Theorem collateral_published_boundaries COIN :
  coin_ok COIN ->
  GetMasternodeNodeCollateral COIN 999999 = 100000 * COIN /\
  GetMasternodeNodeCollateral COIN 1000000 = 110000 * COIN /\
  GetMasternodeNodeCollateral COIN 18999999 = 555992 * COIN /\
  GetMasternodeNodeCollateral COIN 19000000 = 611591 * COIN /\
  GetMasternodeNodeCollateral COIN 20000000 = 581011 * COIN /\
  (forall h, GetMasternodeNodeCollateral COIN h = 611591 * COIN <->
             19000000 <= h <= 19999999).
Proof.
  intros Hok. pose proof (coins_exact COIN Hok) as E.
  do 5 (split; [ rewrite <- E by lia; reflexivity | ]).
  apply (collateral_611591_band COIN Hok).
Qed.

Lemma collateral_published_boundaries_witness :
  GetMasternodeNodeCollateral 100000000 999999 = 100000 * 100000000 /\
  GetMasternodeNodeCollateral 100000000 1000000 = 110000 * 100000000 /\
  GetMasternodeNodeCollateral 100000000 18999999 = 555992 * 100000000 /\
  GetMasternodeNodeCollateral 100000000 19000000 = 611591 * 100000000 /\
  GetMasternodeNodeCollateral 100000000 20000000 = 581011 * 100000000 /\
  (forall h, GetMasternodeNodeCollateral 100000000 h = 611591 * 100000000 <->
             19000000 <= h <= 19999999).
Proof.
  apply (collateral_published_boundaries 100000000). exact coin_ok_100000000.
Defined.

(** C2 as stated fails: with 100000000 base units to the coin, the collateral
    at height 18999999 is not 611591 coins, and the collateral at height
    19000000 is not 581011 coins. *)
Lemma collateral_boundary_counterexample :
  GetMasternodeNodeCollateral 100000000 18999999 <> 611591 * 100000000 /\
  GetMasternodeNodeCollateral 100000000 19000000 <> 581011 * 100000000.
Proof. split; vm_compute; discriminate. Qed.

(** *** Block subsidy *)

(** [nSubsidy] is assigned at every height. *)
Lemma nSubsidy_at_assigned COIN h : exists n, 0 <= n <= 400200 /\
  nSubsidy_at COIN h = Some (mul64 n COIN).
Proof.
  unfold nSubsidy_at.
  repeat match goal with
         | |- context [?a =? ?b] => destruct (Z.eqb_spec a b)
         | |- context [?a <=? ?b] => destruct (Z.leb_spec a b)
         | |- context [?a >=? ?b] => destruct (Z.geb_spec a b); try lia
         end;
    eexists; (split; [ | reflexivity ]); lia.
Qed.

(** [GetBlockValue] returns a value at every height and supply. *)
Lemma GetBlockValue_total COIN nMaxMoneyOut nMoneySupply h :
  is_Some (GetBlockValue COIN nMaxMoneyOut nMoneySupply h).
Proof.
  unfold GetBlockValue.
  destruct (nSubsidy_at_assigned COIN h) as (n & _ & ->).
  repeat case_match; eauto.
Qed.

(** At or above [nMaxMoneyOut] the block value is zero. *)
Lemma GetBlockValue_at_cap COIN nMaxMoneyOut nMoneySupply h :
  nMaxMoneyOut <= nMoneySupply ->
  GetBlockValue COIN nMaxMoneyOut nMoneySupply h = Some 0.
Proof.
  intros H. unfold GetBlockValue.
  destruct (Z.geb_spec nMoneySupply nMaxMoneyOut); [reflexivity | lia].
Qed.

(** When the subsidy crosses [nMaxMoneyOut], the value returned is the part
    of the subsidy that lies above the cap. *)
Lemma GetBlockValue_crossing COIN nMaxMoneyOut nMoneySupply h nSubsidy :
  nSubsidy_at COIN h = Some nSubsidy ->
  in_int64 (nMoneySupply + nSubsidy) ->
  in_int64 (nMoneySupply + nSubsidy - nMaxMoneyOut) ->
  nMoneySupply < nMaxMoneyOut ->
  nMaxMoneyOut < nMoneySupply + nSubsidy ->
  GetBlockValue COIN nMaxMoneyOut nMoneySupply h =
    Some (nMoneySupply + nSubsidy - nMaxMoneyOut).
Proof.
  intros Hs H1 H2 Hlt Hcross. unfold GetBlockValue. rewrite Hs.
  destruct (Z.geb_spec nMoneySupply nMaxMoneyOut); [lia |].
  rewrite add64_exact by assumption.
  destruct (Z.gtb_spec (nMoneySupply + nSubsidy) nMaxMoneyOut); [| lia].
  now rewrite sub64_exact.
Qed.

(** C1, at the failing input: with 100000000 base units to the coin, a cap
    of 1000 coins and a supply one base unit below the cap, the subsidy of
    100 coins at height 2 crosses the cap, and [GetBlockValue] returns
    9999999999 (the supply plus the subsidy minus the cap), not the one base
    unit that is left below the cap. *)
Theorem GetBlockValue_crossing_returns_excess :
  let COIN := 100000000 in
  let nMaxMoneyOut := 1000 * COIN in
  let nMoneySupply := nMaxMoneyOut - 1 in
  nSubsidy_at COIN 2 = Some (100 * COIN) /\
  GetBlockValue COIN nMaxMoneyOut nMoneySupply 2 = Some 9999999999 /\
  nMaxMoneyOut - nMoneySupply = 1.
Proof. repeat split. Qed.

End SchedulesFacts.

(** ** Records, announcements and heartbeats *)

Module MasternodeFacts.
Import Scoring Masternode.

Lemma same_but_ping_refl mn : same_but_ping mn mn.
Proof. exists (lastPing mn), (lastTimeChecked mn). now destruct mn. Qed.

Lemma same_but_ping_trans a b c :
  same_but_ping a b -> same_but_ping b c -> same_but_ping a c.
Proof.
  intros (p & t & ->) (p' & t' & ->). exists p', t'. now destruct a.
Qed.

Lemma same_but_ping_set_lastPing p mn : same_but_ping mn (set_lastPing p mn).
Proof. exists p, (lastTimeChecked mn). now destruct mn. Qed.

Lemma same_but_ping_activeState mn mn' :
  same_but_ping mn mn' -> activeState mn' = activeState mn.
Proof. now intros (p & t & ->). Qed.

(** [Check] leaves a record whose collateral is spent as it is, but for the
    time of the check. *)
Lemma Check_VIN_SPENT env forceCheck mn :
  activeState mn = MASTERNODE_VIN_SPENT ->
  CMasternode_Check env forceCheck mn = mn \/
  CMasternode_Check env forceCheck mn = set_lastTimeChecked (GetTime env) mn.
Proof.
  intros Hs. unfold CMasternode_Check.
  destruct (ShutdownRequested env); [now left |].
  destruct (negb forceCheck && _); [now left |].
  right. rewrite bool_decide_true; [reflexivity | exact Hs].
Qed.

Lemma Check_VIN_SPENT_same env forceCheck mn :
  activeState mn = MASTERNODE_VIN_SPENT -> same_but_ping mn (CMasternode_Check env forceCheck mn).
Proof.
  intros Hs. destruct (Check_VIN_SPENT env forceCheck mn Hs) as [-> | ->].
  - apply same_but_ping_refl.
  - exists (lastPing mn), (GetTime env). now destruct mn.
Qed.

(** [Check] never assigns [lastPing]. *)
Lemma Check_lastPing env forceCheck mn :
  lastPing (CMasternode_Check env forceCheck mn) = lastPing mn.
Proof. unfold CMasternode_Check. repeat case_match; reflexivity. Qed.

(** In the mode that checks the time of signature only, a heartbeat leaves
    the state as it is, and [nDos] too when it is accepted. *)
Lemma ping_sigTimeOnly env this nDos fRequireEnabled st :
  snd (CMasternodePing_CheckAndUpdate env this nDos fRequireEnabled true st) = st /\
  (fst (fst (CMasternodePing_CheckAndUpdate env this nDos fRequireEnabled true st)) = true ->
   snd (fst (CMasternodePing_CheckAndUpdate env this nDos fRequireEnabled true st)) = nDos).
Proof.
  unfold CMasternodePing_CheckAndUpdate.
  repeat case_match; simpl; split; congruence.
Qed.

(** A heartbeat leaves a record whose collateral is spent in that state, and
    changes at most its [lastPing] and [lastTimeChecked]; it changes nothing
    when it is handled with [fRequireEnabled] or for its time of signature
    only, and it is never accepted as a full heartbeat for that record. *)
Lemma ping_VIN_SPENT env this nDos fRequireEnabled fCheckSigTimeOnly st k mn :
  vMasternodes st !! k = Some mn ->
  activeState mn = MASTERNODE_VIN_SPENT ->
  let r := CMasternodePing_CheckAndUpdate env this nDos fRequireEnabled fCheckSigTimeOnly st in
  (exists mn', vMasternodes (snd r) !! k = Some mn' /\ same_but_ping mn mn') /\
  (prevout (mnp_vin this) = k ->
   (fRequireEnabled = true \/ fCheckSigTimeOnly = true -> snd r = st) /\
   (fCheckSigTimeOnly = false -> fst (fst r) = false)).
Proof.
  intros Hk Hs.
  assert (Hsame : exists mn', vMasternodes st !! k = Some mn' /\ same_but_ping mn mn')
    by (exists mn; split; [assumption | apply same_but_ping_refl]).
  assert (Hne : IsEnabled mn = false)
    by (unfold IsEnabled; apply bool_decide_eq_false; rewrite Hs; discriminate).
  unfold CMasternodePing_CheckAndUpdate, Find. cbv zeta.
  destruct (_ >? _); [ cbn; intuition congruence |].
  destruct (_ <=? _); [ cbn; intuition congruence |].
  destruct fCheckSigTimeOnly.
  { destruct (_ && _); cbn; intuition congruence. }
  destruct (vMasternodes st !! prevout (mnp_vin this)) as [mn0 |] eqn:H0;
    [| cbn; intuition congruence ].
  destruct (_ >=? _); [| cbn; intuition congruence ].
  destruct (fRequireEnabled && negb (IsEnabled mn0)) eqn:Hreq; [ cbn; intuition congruence |].
  destruct (negb (IsPingedWithin _ _ _ _)); [| cbn; intuition congruence ].
  destruct (negb (mnp_CheckSignature _ _ _)); [ cbn; intuition congruence |].
  destruct (mapBlockIndex _ _) as [mi |]; [| cbn; intuition congruence ].
  destruct (_ || _); [ cbn; intuition congruence |].
  set (mn1 := CMasternode_Check env true (set_lastPing this mn0)).
  assert (Hreg : forall st1 : State,
            vMasternodes st1 = <[prevout (mnp_vin this) := mn1]> (vMasternodes st) ->
            (exists mn', vMasternodes st1 !! k = Some mn' /\ same_but_ping mn mn')).
  { intros st1 ->. destruct (decide (prevout (mnp_vin this) = k)) as [E | E].
    - rewrite E, lookup_insert_eq. eexists; split; [reflexivity |].
      rewrite E, Hk in H0. injection H0 as <-.
      eapply same_but_ping_trans; [apply same_but_ping_set_lastPing |].
      apply Check_VIN_SPENT_same. exact Hs.
    - rewrite lookup_insert_ne by assumption. exact Hsame. }
  assert (Htarget : prevout (mnp_vin this) = k -> fRequireEnabled = false /\ IsEnabled mn1 = false).
  { intros E. rewrite E, Hk in H0. injection H0 as <-. rewrite Hne in Hreq.
    split; [ destruct fRequireEnabled; [discriminate | reflexivity] |].
    subst mn1. unfold IsEnabled. apply bool_decide_eq_false.
    rewrite (same_but_ping_activeState _ _
               (Check_VIN_SPENT_same env true (set_lastPing this mn) Hs)).
    cbn. rewrite Hs. discriminate. }
  split.
  - destruct (mapSeenMasternodeBroadcast _ !! _);
      destruct (negb (IsEnabled mn1)); cbn [fst snd];
      apply Hreg; simpl; rewrite insert_insert_eq; reflexivity.
  - intros E. destruct (Htarget E) as [-> Hdis]. rewrite Hdis. cbn [negb fst snd].
    split; [intros [? | ?]; discriminate | reflexivity].
Qed.

Lemma lookup_store_ne k' k m st :
  k' <> k -> vMasternodes (store k' m st) !! k = vMasternodes st !! k.
Proof. intros H. unfold store. simpl. now rewrite lookup_insert_ne. Qed.

(** [UpdateFromNewBroadcast] through the entry of another outpoint leaves a
    record whose collateral is spent in that state. *)
Lemma UpdateFromNewBroadcast_VIN_SPENT env k' pmn mnb st k mn :
  k' <> k ->
  vMasternodes st !! k = Some mn ->
  activeState mn = MASTERNODE_VIN_SPENT ->
  exists mn', vMasternodes (snd (UpdateFromNewBroadcast env k' pmn mnb st)) !! k = Some mn' /\
              same_but_ping mn mn'.
Proof.
  intros Hne Hk Hs. unfold UpdateFromNewBroadcast.
  destruct (_ >? _); [| exists mn; split; [exact Hk | apply same_but_ping_refl] ].
  cbv zeta.
  match goal with
  | |- context [store k' ?m st] => set (st1 := store k' m st)
  end.
  assert (Hk1 : vMasternodes st1 !! k = Some mn)
    by (subst st1; rewrite lookup_store_ne; assumption).
  destruct (mnp_IsNull env (lastPing mnb)).
  - cbn [fst snd]. simpl. rewrite lookup_insert_ne by assumption.
    exists mn. split; [exact Hk1 | apply same_but_ping_refl].
  - destruct (ping_VIN_SPENT env (lastPing mnb) 0 false false st1 k mn Hk1 Hs)
      as [(mn' & Hk' & Hsame) _].
    destruct (CMasternodePing_CheckAndUpdate env (lastPing mnb) 0 false false st1)
      as [[ok d] st2].
    cbn [snd] in Hk'. destruct ok; cbn [fst snd].
    + simpl. rewrite lookup_insert_ne by assumption. eauto.
    + eauto.
Qed.

(** An announcement leaves a record whose collateral is spent in that state,
    and changes at most its [lastPing] and [lastTimeChecked]; an announcement
    for the outpoint of that record changes nothing at all. *)
Lemma announcement_VIN_SPENT env this nDos st k mn :
  vMasternodes st !! k = Some mn ->
  activeState mn = MASTERNODE_VIN_SPENT ->
  let r := CMasternodeBroadcast_CheckAndUpdate env this nDos st in
  (exists mn', vMasternodes (snd r) !! k = Some mn' /\ same_but_ping mn mn') /\
  (prevout (vin this) = k -> snd r = st).
Proof.
  intros Hk Hs.
  assert (Hsame : exists mn', vMasternodes st !! k = Some mn' /\ same_but_ping mn mn')
    by (exists mn; split; [assumption | apply same_but_ping_refl]).
  assert (Hdis : IsEnabled mn = false)
    by (unfold IsEnabled; apply bool_decide_eq_false; rewrite Hs; discriminate).
  unfold CMasternodeBroadcast_CheckAndUpdate. cbv zeta.
  destruct (_ >? _); [ cbn; tauto |].
  destruct (mnp_IsNull _ _); [ cbn; tauto |].
  pose proof (ping_sigTimeOnly env (lastPing this) nDos false st) as [Hst _].
  destruct (CMasternodePing_CheckAndUpdate env (lastPing this) nDos false true st)
    as [[ok d] st1].
  cbn [snd] in Hst. subst st1.
  destruct (negb ok); [ cbn; tauto |].
  destruct (_ <? _); [ cbn; tauto |].
  destruct (negb (_ =? 25)); [ cbn; tauto |].
  destruct (negb (_ =? 25)); [ cbn; tauto |].
  destruct (negb (bool_decide _)); [ cbn; tauto |].
  destruct (negb (CheckSignature _ _)); [ cbn; tauto |].
  destruct (negb (_ =? _)); [ cbn; tauto |].
  unfold Find.
  destruct (vMasternodes st !! prevout (vin this)) as [pmn |] eqn:Hp; [| cbn; tauto ].
  destruct (_ >=? _); [ cbn; tauto |].
  destruct (negb (IsEnabled pmn)) eqn:Hen; [ cbn; tauto |].
  assert (Hne : prevout (vin this) <> k).
  { intros E. rewrite E, Hk in Hp. injection Hp as <-. rewrite Hdis in Hen. discriminate. }
  destruct (_ && _); [| cbn; tauto ].
  destruct (UpdateFromNewBroadcast_VIN_SPENT env (prevout (vin this)) pmn this st k mn Hne Hk Hs)
    as (mn' & Hk' & Hsame').
  destruct (UpdateFromNewBroadcast env (prevout (vin this)) pmn this st) as [updated st2].
  cbn [snd] in Hk'. split; [| intros E; contradiction ].
  cbn [snd]. exists mn'. split; [| exact Hsame' ].
  destruct updated; [| exact Hk' ].
  destruct (IsEnabled (CMasternode_Check _ _ _)); simpl; rewrite lookup_insert_ne by assumption;
    exact Hk'.
Qed.

(** [CheckInputsAndAdd] and a record whose collateral is spent: an
    announcement for another outpoint leaves the record as it is; an
    announcement for its outpoint that is turned away before the search of
    the registry leaves the state as it is; one that reaches the search
    removes the record, and the record built from the announcement is there
    instead exactly when the function accepts. *)
Lemma CheckInputsAndAdd_VIN_SPENT env this nDoS st k mn r :
  registry_wf st ->
  vMasternodes st !! k = Some mn ->
  activeState mn = MASTERNODE_VIN_SPENT ->
  CheckInputsAndAdd env this nDoS st = Some r ->
  (prevout (vin this) <> k -> vMasternodes (snd r) !! k = Some mn) /\
  (prevout (vin this) = k ->
   (reaches_registry_search env this nDoS st ->
    vMasternodes (snd r) !! k
    = if fst (fst r) then Some (CMasternode_copy this) else None) /\
   (~ reaches_registry_search env this nDoS st -> snd r = st)).
Proof.
  intros Hwf Hk Hs.
  assert (Hdis : IsEnabled mn = false)
    by (unfold IsEnabled; apply bool_decide_eq_false; rewrite Hs; discriminate).
  unfold CheckInputsAndAdd, reaches_registry_search. cbv zeta.
  destruct (fMasterNode env && _).
  { intros [= <-]. cbn [fst snd]. split; [ auto | ].
    intros _. split; [ intros (? & _); discriminate | reflexivity ]. }
  destruct (mnp_IsNull env (lastPing this)).
  { intros [= <-]. cbn [fst snd]. split; [ auto | ].
    intros _. split; [ intros (_ & ? & _); discriminate | reflexivity ]. }
  pose proof (ping_sigTimeOnly env (lastPing this) nDoS false st) as [Hst Hd].
  destruct (CMasternodePing_CheckAndUpdate env (lastPing this) nDoS false true st)
    as [[ok d] st1].
  cbn [fst snd] in Hst, Hd |- *. subst st1.
  destruct ok; cbn [negb].
  2:{ intros [= <-]. cbn [fst snd]. split; [ auto | ].
      intros _. split; [ intros (_ & _ & ?); discriminate | reflexivity ]. }
  rewrite Hd by reflexivity. clear Hd.
  set (st2 := match Find st (vin this) with
              | Some mn0 => Remove (vin mn0) st
              | None => st
              end).
  assert (Hother : prevout (vin this) <> k -> vMasternodes st2 !! k = Some mn).
  { intros Hne. subst st2. unfold Find.
    destruct (vMasternodes st !! prevout (vin this)) as [mn0 |] eqn:Hf; [ | exact Hk ].
    unfold Remove. simpl. rewrite (Hwf _ _ Hf).
    rewrite lookup_delete_ne by exact Hne. exact Hk. }
  assert (Hown : prevout (vin this) = k -> vMasternodes st2 !! k = None).
  { intros <-. subst st2. unfold Find. rewrite Hk.
    unfold Remove. simpl. rewrite (Hwf _ _ Hk). apply lookup_delete_eq. }
  destruct (match Find st (vin this) with Some mn0 => IsEnabled mn0 | None => false end)
    eqn:Hen.
  { intros [= <-]. cbn [fst snd]. split; [ auto | ].
    intros E. exfalso. unfold Find in Hen. rewrite E, Hk, Hdis in Hen. discriminate. }
  clearbody st2. clear Hen.
  assert (Hrej : forall (d' : Z) (st3 : State),
            vMasternodes st3 = vMasternodes st2 ->
            (prevout (vin this) <> k ->
             vMasternodes (snd (false, d', st3)) !! k = Some mn) /\
            (prevout (vin this) = k ->
             vMasternodes (snd (false, d', st3)) !! k
             = if fst (fst (false, d', st3)) then Some (CMasternode_copy this) else None)).
  { intros d' st3 E. cbn [fst snd]. rewrite E. split; [ exact Hother | exact Hown ]. }
  assert (Hnew : forall st3 : State,
            vMasternodes st3 = vMasternodes (Add (CMasternode_copy this) st2) ->
            (prevout (vin this) <> k ->
             vMasternodes (snd (true, nDoS, st3)) !! k = Some mn) /\
            (prevout (vin this) = k ->
             vMasternodes (snd (true, nDoS, st3)) !! k
             = if fst (fst (true, nDoS, st3)) then Some (CMasternode_copy this) else None)).
  { intros st3 E. cbn [fst snd]. rewrite E. unfold Add.
    change (vin (CMasternode_copy this)) with (vin this). split.
    - intros Hne. destruct (vMasternodes st2 !! prevout (vin this)); [ auto | ].
      simpl. rewrite lookup_insert_ne by exact Hne. auto.
    - intros Ek. rewrite Ek, (Hown Ek). simpl. apply lookup_insert_eq. }
  assert (Hfin : forall r' : bool * Z * State,
            (prevout (vin this) <> k -> vMasternodes (snd r') !! k = Some mn) /\
            (prevout (vin this) = k ->
             vMasternodes (snd r') !! k
             = if fst (fst r') then Some (CMasternode_copy this) else None) ->
            Some r' = Some r ->
            (prevout (vin this) <> k -> vMasternodes (snd r) !! k = Some mn) /\
            (prevout (vin this) = k ->
             (false = false /\ false = false /\ true = true ->
              vMasternodes (snd r) !! k
              = if fst (fst r) then Some (CMasternode_copy this) else None) /\
             (~ (false = false /\ false = false /\ true = true) -> snd r = st))).
  { intros r' [Ha Hb] [= <-]. split; [ exact Ha | ].
    intros Ek. split; [ intros _; exact (Hb Ek) | ].
    intros Hn. exfalso. apply Hn. repeat split. }
  destruct (TRY_LOCK_cs_main env); cbn [negb].
  2:{ apply Hfin, Hrej. reflexivity. }
  destruct (AcceptableInputs env _); cbn [negb].
  2:{ apply Hfin, Hrej. reflexivity. }
  destruct (_ <? _).
  { apply Hfin, Hrej. reflexivity. }
  destruct (mapBlockIndex env _) as [pMNIndex |].
  - destruct (chainActive_at env _) as [pConfIndex |]; [ | discriminate ].
    destruct (_ >? _).
    + apply Hfin, Hrej. reflexivity.
    + apply Hfin, Hnew.
      unfold CMasternodeBroadcast_Relay; repeat case_match; reflexivity.
  - apply Hfin, Hnew.
    unfold CMasternodeBroadcast_Relay; repeat case_match; reflexivity.
Qed.

(** An announcement that reaches the search of the registry and whose
    collateral validates is accepted by [CheckInputsAndAdd], with [nDoS] as
    it was. *)
Lemma CheckInputsAndAdd_accepts_validated env this nDoS st :
  reaches_registry_search env this nDoS st ->
  collateral_validates env this ->
  exists st', CheckInputsAndAdd env this nDoS st = Some (true, nDoS, st').
Proof.
  intros (Hown & Hnull & Hping) (Hlock & Hacc & Hdepth & Hblock).
  unfold CheckInputsAndAdd. rewrite Hown, Hnull. cbv zeta.
  pose proof (ping_sigTimeOnly env (lastPing this) nDoS false st) as [Hst Hd].
  destruct (CMasternodePing_CheckAndUpdate env (lastPing this) nDoS false true st)
    as [[ok d] st1].
  cbn [fst snd] in Hst, Hd, Hping. subst st1 ok. rewrite Hd by reflexivity.
  cbn [negb].
  destruct (match Find st (vin this) with Some mn => IsEnabled mn | None => false end);
    [ eauto | ].
  rewrite Hlock, Hacc. cbn [negb].
  destruct (Z.ltb_spec (GetCoinDepthAtHeight env (prevout (vin this)) (chainActive_Height env))
              MASTERNODE_MIN_CONFIRMATIONS); [ lia | ].
  destruct (mapBlockIndex env _) as [pMNIndex |]; [ | eauto ].
  destruct Hblock as (pConfIndex & -> & Htime).
  destruct (Z.gtb_spec (nTime pConfIndex) (sigTime this)); [ lia | eauto ].
Qed.

(** C6 (as amended): for every record whose state is VinSpent, [Check]
    never changes its state (it changes at most the time of the last check);
    neither [CMasternodeBroadcast::CheckAndUpdate] nor
    [CMasternodePing::CheckAndUpdate] changes its state or any field other
    than [lastPing] and [lastTimeChecked]; an announcement for its own
    outpoint, and a heartbeat for it handled with [fRequireEnabled] or for
    its time of signature only, change nothing at all; and no full heartbeat
    for it is ever accepted.  The state is not terminal for
    [CheckInputsAndAdd], the second half of the admission of an
    announcement: in a registry that holds every record under its own
    outpoint, an announcement for another outpoint leaves the record as it
    is, and an announcement for its own outpoint that is turned away before
    the search of the registry leaves the state as it is; but one that
    reaches the search removes the record, the registry then holds for that
    outpoint the record built from the announcement exactly when the
    function accepts, and it accepts whenever the collateral validates. *)
Theorem VIN_SPENT_is_terminal env st k mn :
  vMasternodes st !! k = Some mn ->
  activeState mn = MASTERNODE_VIN_SPENT ->
  (forall forceCheck,
     activeState (CMasternode_Check env forceCheck mn) = MASTERNODE_VIN_SPENT /\
     same_but_ping mn (CMasternode_Check env forceCheck mn) /\
     lastPing (CMasternode_Check env forceCheck mn) = lastPing mn) /\
  (forall mnb nDos,
     let r := CMasternodeBroadcast_CheckAndUpdate env mnb nDos st in
     (exists mn', vMasternodes (snd r) !! k = Some mn' /\ same_but_ping mn mn') /\
     (prevout (vin mnb) = k -> snd r = st)) /\
  (forall mnp nDos fRequireEnabled fCheckSigTimeOnly,
     let r := CMasternodePing_CheckAndUpdate env mnp nDos fRequireEnabled
                fCheckSigTimeOnly st in
     (exists mn', vMasternodes (snd r) !! k = Some mn' /\ same_but_ping mn mn') /\
     (prevout (mnp_vin mnp) = k ->
      (fRequireEnabled = true \/ fCheckSigTimeOnly = true -> snd r = st) /\
      (fCheckSigTimeOnly = false -> fst (fst r) = false))) /\
  (registry_wf st ->
   forall mnb nDoS,
     (forall r, CheckInputsAndAdd env mnb nDoS st = Some r ->
        (prevout (vin mnb) <> k -> vMasternodes (snd r) !! k = Some mn) /\
        (prevout (vin mnb) = k ->
         (reaches_registry_search env mnb nDoS st ->
          vMasternodes (snd r) !! k
          = if fst (fst r) then Some (CMasternode_copy mnb) else None) /\
         (~ reaches_registry_search env mnb nDoS st -> snd r = st))) /\
     (prevout (vin mnb) = k ->
      reaches_registry_search env mnb nDoS st ->
      collateral_validates env mnb ->
      exists st', CheckInputsAndAdd env mnb nDoS st = Some (true, nDoS, st') /\
                  vMasternodes st' !! k = Some (CMasternode_copy mnb))).
Proof.
  intros Hk Hs. split; [| split; [| split] ].
  - intros forceCheck. split; [| split].
    + rewrite (same_but_ping_activeState _ _ (Check_VIN_SPENT_same env forceCheck mn Hs)).
      exact Hs.
    + apply Check_VIN_SPENT_same, Hs.
    + apply Check_lastPing.
  - intros mnb nDos. apply announcement_VIN_SPENT; assumption.
  - intros mnp nDos fRequireEnabled fCheckSigTimeOnly. apply ping_VIN_SPENT; assumption.
  - intros Hwf mnb nDoS. split.
    + intros r Hr. exact (CheckInputsAndAdd_VIN_SPENT env mnb nDoS st k mn r Hwf Hk Hs Hr).
    + intros Ek Hreach Hval.
      destruct (CheckInputsAndAdd_accepts_validated env mnb nDoS st Hreach Hval)
        as (st' & Hr).
      exists st'. split; [ exact Hr | ].
      destruct (CheckInputsAndAdd_VIN_SPENT env mnb nDoS st k mn _ Hwf Hk Hs Hr)
        as (_ & Hown).
      destruct (Hown Ek) as (Hin & _). exact (Hin Hreach).
Qed.

(** The registry of the scenario holds its two records under their own
    outpoints. *)
Lemma state_spent_wf : registry_wf state_spent.
Proof.
  intros k mn H. unfold state_spent in H. simpl in H.
  apply lookup_insert_Some in H as [[<- <-] | [_ H]]; [ reflexivity | ].
  apply lookup_singleton_Some in H as [<- <-]. reflexivity.
Qed.

Lemma VIN_SPENT_is_terminal_witness :
  (forall forceCheck,
     activeState (CMasternode_Check env_S2 forceCheck spent1) = MASTERNODE_VIN_SPENT /\
     same_but_ping spent1 (CMasternode_Check env_S2 forceCheck spent1) /\
     lastPing (CMasternode_Check env_S2 forceCheck spent1) = lastPing spent1) /\
  (forall mnb nDos,
     let r := CMasternodeBroadcast_CheckAndUpdate env_S2 mnb nDos state_spent in
     (exists mn', vMasternodes (snd r) !! outpoint1 = Some mn' /\ same_but_ping spent1 mn') /\
     (prevout (vin mnb) = outpoint1 -> snd r = state_spent)) /\
  (forall mnp nDos fRequireEnabled fCheckSigTimeOnly,
     let r := CMasternodePing_CheckAndUpdate env_S2 mnp nDos fRequireEnabled
                fCheckSigTimeOnly state_spent in
     (exists mn', vMasternodes (snd r) !! outpoint1 = Some mn' /\ same_but_ping spent1 mn') /\
     (prevout (mnp_vin mnp) = outpoint1 ->
      (fRequireEnabled = true \/ fCheckSigTimeOnly = true -> snd r = state_spent) /\
      (fCheckSigTimeOnly = false -> fst (fst r) = false))) /\
  (forall mnb nDoS,
     (forall r, CheckInputsAndAdd env_S2 mnb nDoS state_spent = Some r ->
        (prevout (vin mnb) <> outpoint1 ->
         vMasternodes (snd r) !! outpoint1 = Some spent1) /\
        (prevout (vin mnb) = outpoint1 ->
         (reaches_registry_search env_S2 mnb nDoS state_spent ->
          vMasternodes (snd r) !! outpoint1
          = if fst (fst r) then Some (CMasternode_copy mnb) else None) /\
         (~ reaches_registry_search env_S2 mnb nDoS state_spent -> snd r = state_spent))) /\
     (prevout (vin mnb) = outpoint1 ->
      reaches_registry_search env_S2 mnb nDoS state_spent ->
      collateral_validates env_S2 mnb ->
      exists st', CheckInputsAndAdd env_S2 mnb nDoS state_spent = Some (true, nDoS, st') /\
                  vMasternodes st' !! outpoint1 = Some (CMasternode_copy mnb))).
Proof.
  destruct (VIN_SPENT_is_terminal env_S2 state_spent outpoint1 spent1)
    as (HCheck & Hmnb & Hmnp & Hadd); [ reflexivity | reflexivity | ].
  split; [ exact HCheck | ]. split; [ exact Hmnb | ]. split; [ exact Hmnp | ].
  exact (Hadd state_spent_wf).
Defined.

(** C6 as stated fails, in two ways.  The announcement [B2], for the enabled
    record of another outpoint, is accepted, and the heartbeat it carries,
    which names the record whose collateral is spent, has replaced the
    [lastPing] of that record.  And a later announcement for the outpoint of
    that record passes [CheckAndUpdate], which leaves the state as it is,
    and then [CheckInputsAndAdd]: the record is removed and the outpoint
    holds the record of the announcement, enabled and signed at 1500; when
    the collateral does not validate the outpoint is left without a
    record. *)
Lemma VIN_SPENT_counterexample :
  let A := announcement 1500 (ping_at 1900) in
  Find state_spent vin1 = Some spent1 /\
  activeState spent1 = MASTERNODE_VIN_SPENT /\
  (fst (fst (CMasternodeBroadcast_CheckAndUpdate env_S2 B2 0 state_spent)) = true /\
   Find (snd (CMasternodeBroadcast_CheckAndUpdate env_S2 B2 0 state_spent)) vin1
     = Some (set_lastTimeChecked 2000 (set_lastPing (ping_at 1900) spent1)) /\
   lastPing (set_lastTimeChecked 2000 (set_lastPing (ping_at 1900) spent1))
     <> lastPing spent1) /\
  (CMasternodeBroadcast_CheckAndUpdate env_S2 A 0 state_spent = (true, 0, state_spent) /\
   exists st', CheckInputsAndAdd env_S2 A 0 state_spent = Some (true, 0, st') /\
     Find st' vin1 = Some (CMasternode_copy A) /\
     activeState (CMasternode_copy A) = MASTERNODE_ENABLED /\
     sigTime (CMasternode_copy A) = 1500 /\
     CMasternode_copy A <> spent1) /\
  (exists st', CheckInputsAndAdd (toy_env 2000 false false) A 0 state_spent
               = Some (false, 0, st') /\
     Find st' vin1 = None).
Proof.
  cbv zeta. split; [ reflexivity | ]. split; [ reflexivity | ]. split; [ | split ].
  - repeat split; vm_compute; discriminate.
  - split; [ vm_compute; reflexivity | ].
    eexists. split; [ vm_compute; reflexivity | ].
    repeat split; vm_compute; discriminate.
  - eexists. split; [ vm_compute; reflexivity | ]. reflexivity.
Qed.

(** C4 (as amended): when an announcement arrives for an outpoint whose
    record exists and its [sigTime] is less than or equal to the [sigTime] of
    that record, [CheckAndUpdate] returns failure and leaves the state, hence
    the existing record, unchanged; when the announcement passes every check
    before the registry lookup, so that it is this comparison that rejects
    it, no misbehavior score is assigned: [nDos] is left as the caller
    passed it. *)
Theorem stale_announcement_rejected env this nDos st pmn :
  Find st (vin this) = Some pmn ->
  sigTime this <= sigTime pmn ->
  let r := CMasternodeBroadcast_CheckAndUpdate env this nDos st in
  fst (fst r) = false /\ snd r = st /\
  (passes_checks_before_lookup env this nDos st -> snd (fst r) = nDos).
Proof.
  intros Hfind Hle. unfold CMasternodeBroadcast_CheckAndUpdate, passes_checks_before_lookup.
  cbv zeta.
  destruct (Z.gtb_spec (sigTime this) (add64 (GetAdjustedTime env) (60 * 60)));
    [ cbn; repeat split; intros; lia |].
  destruct (mnp_IsNull env (lastPing this));
    [ cbn; repeat split; intros (_ & ? & _); discriminate |].
  pose proof (ping_sigTimeOnly env (lastPing this) nDos false st) as [Hst Hd].
  destruct (CMasternodePing_CheckAndUpdate env (lastPing this) nDos false true st)
    as [[ok d] st1].
  cbn [fst snd] in Hst, Hd |- *. subst st1.
  destruct ok; cbn [negb]; [| cbn; repeat split; intros (_ & _ & ? & _); discriminate ].
  rewrite Hd by reflexivity.
  destruct (Z.ltb_spec (protocolVersion this) (ActiveProtocol env));
    [ cbn; repeat split; intros (_ & _ & _ & ? & _); lia |].
  destruct (Z.eqb_spec (P2PKH_script_size env (pubKeyCollateralAddress this)) 25);
    [| cbn; repeat split; intros (_ & _ & _ & _ & ? & _); contradiction ].
  destruct (Z.eqb_spec (P2PKH_script_size env (pubKeyMasternode this)) 25);
    [| cbn; repeat split; intros (_ & _ & _ & _ & _ & ? & _); contradiction ].
  cbn [negb].
  destruct (bool_decide_reflect (scriptSig (vin this) = EmptyString));
    [| cbn; repeat split; intros (_ & _ & _ & _ & _ & _ & ? & _); contradiction ].
  cbn [negb].
  destruct (CheckSignature env this);
    [| cbn; repeat split; intros (_ & _ & _ & _ & _ & _ & _ & ? & _); discriminate ].
  cbn [negb].
  destruct (Z.eqb_spec (service_port (addr this)) (GetDefaultPort env));
    [| cbn; repeat split; intros (_ & _ & _ & _ & _ & _ & _ & _ & ?); contradiction ].
  cbn [negb]. rewrite Hfind.
  destruct (Z.geb_spec (sigTime pmn) (sigTime this)); [| lia ].
  cbn. repeat split.
Qed.

Lemma stale_announcement_rejected_witness :
  let r := CMasternodeBroadcast_CheckAndUpdate env_S2 A2 0 state_after_A1 in
  fst (fst r) = false /\ snd r = state_after_A1 /\
  (passes_checks_before_lookup env_S2 A2 0 state_after_A1 -> snd (fst r) = 0).
Proof.
  apply (stale_announcement_rejected env_S2 A2 0 state_after_A1 (CMasternode_copy A1)).
  - reflexivity.
  - vm_compute. discriminate.
Defined.

(** The announcement A2 of scenario S2 passes every check before the lookup. *)
Lemma A2_passes_checks_before_lookup :
  passes_checks_before_lookup env_S2 A2 0 state_after_A1.
Proof. unfold passes_checks_before_lookup. repeat split; vm_compute; discriminate. Qed.

(** C4 as stated fails: in scenario S2 the announcement A2 is rejected with
    [nDos] still 0, not 100. *)
Lemma stale_announcement_counterexample :
  Find state_after_A1 (vin A2) = Some (CMasternode_copy A1) /\
  sigTime A2 <= sigTime (CMasternode_copy A1) /\
  CMasternodeBroadcast_CheckAndUpdate env_S2 A2 0 state_after_A1
    = (false, 0, state_after_A1) /\
  snd (fst (CMasternodeBroadcast_CheckAndUpdate env_S2 A2 0 state_after_A1)) <> 100.
Proof. repeat split; vm_compute; discriminate. Qed.

(** C7 (as amended): for every heartbeat and every adjusted time [now], a
    [sigTime] with [now - 3600 < sigTime <= now + 3600] is never given the
    misbehavior score 1 of the timestamp check, and a [sigTime] outside that
    window, the lower bound [now - 3600] included, is rejected with
    misbehavior score 1 and the state unchanged. *)
Theorem ping_timestamp_window env this nDos fRequireEnabled fCheckSigTimeOnly st :
  in_int64 (GetAdjustedTime env + 3600) ->
  in_int64 (GetAdjustedTime env - 3600) ->
  nDos <> 1 ->
  let now := GetAdjustedTime env in
  let r := CMasternodePing_CheckAndUpdate env this nDos fRequireEnabled
             fCheckSigTimeOnly st in
  (now - 3600 < mnp_sigTime this <= now + 3600 -> snd (fst r) <> 1) /\
  (~ (now - 3600 < mnp_sigTime this <= now + 3600) -> r = (false, 1, st)).
Proof.
  intros Hadd Hsub Hn. unfold CMasternodePing_CheckAndUpdate. cbv zeta.
  change (60 * 60) with 3600.
  rewrite add64_exact, sub64_exact by assumption.
  destruct (Z.gtb_spec (mnp_sigTime this) (GetAdjustedTime env + 3600));
    [ split; [ lia | reflexivity ] |].
  destruct (Z.leb_spec (mnp_sigTime this) (GetAdjustedTime env - 3600));
    [ split; [ lia | reflexivity ] |].
  split; [| lia ]. intros _.
  repeat case_match; cbn [fst snd]; (assumption || discriminate).
Qed.

Lemma ping_timestamp_window_witness :
  let env := toy_env 100000 false true in
  let now := GetAdjustedTime env in
  let r := CMasternodePing_CheckAndUpdate env (ping_at 96401) 0 true false empty_state in
  (now - 3600 < mnp_sigTime (ping_at 96401) <= now + 3600 -> snd (fst r) <> 1) /\
  (~ (now - 3600 < mnp_sigTime (ping_at 96401) <= now + 3600) -> r = (false, 1, empty_state)).
Proof.
  apply (ping_timestamp_window (toy_env 100000 false true) (ping_at 96401) 0 true false
           empty_state).
  - vm_compute. split; discriminate.
  - vm_compute. split; discriminate.
  - discriminate.
Defined.

(** C7 as stated fails: a heartbeat signed exactly 3600 seconds before the
    adjusted time is inside the inclusive window and is rejected with
    misbehavior score 1. *)
Lemma ping_timestamp_counterexample :
  let env := toy_env 100000 false true in
  GetAdjustedTime env - 3600 <= mnp_sigTime (ping_at 96400) <= GetAdjustedTime env + 3600 /\
  CMasternodePing_CheckAndUpdate env (ping_at 96400) 0 true false empty_state
    = (false, 1, empty_state).
Proof. repeat split; vm_compute; discriminate. Qed.

(** *** Signing *)

Lemma GetSignatureHash_set_vchSig env s mn :
  GetSignatureHash env (set_vchSig s mn) = GetSignatureHash env mn.
Proof. reflexivity. Qed.

(** Under the hash scheme [Sign] succeeds only with a signature that verifies
    under the public key it is given. *)
Lemma Sign_hash_scheme_verifies env key pubKey this this' :
  NetworkUpgradeActive_STAKE_MODIFIER_V2 env (chainActive_Height env) = true ->
  Sign env key pubKey this = (true, this') ->
  nMessVersion this' = MESS_VER_HASH /\
  VerifyMessage env pubKey (vchSig this') (GetHex env (GetSignatureHash env this')) = true.
Proof.
  intros Hup. unfold Sign. rewrite Hup. cbv zeta.
  destruct (SignMessage env _ key) as [signed sig].
  destruct signed; cbn [negb]; [| discriminate ].
  destruct (VerifyMessage env pubKey _ _) eqn:Hv; cbn [negb]; [| discriminate ].
  intros [= <-]. split; [reflexivity |].
  rewrite GetSignatureHash_set_vchSig. exact Hv.
Qed.

(** Under the legacy scheme [Sign] succeeds as soon as [SignCompact] does:
    [VerifyMessage] is not consulted. *)
Lemma Sign_legacy_scheme env key pubKey this :
  NetworkUpgradeActive_STAKE_MODIFIER_V2 env (chainActive_Height env) = false ->
  let m := set_nMessVersion MESS_VER_STRMESS (set_sigTime (GetAdjustedTime env) this) in
  let ss := HashOf env 0 [ser_bytes (strMessageMagic env);
                          ser_bytes (GetOldStrMessage env m)] in
  Sign env key pubKey this =
    (fst (SignCompact env ss key), set_vchSig (snd (SignCompact env ss key)) m).
Proof.
  intros Hup. unfold Sign. rewrite Hup. cbv zeta.
  destruct (SignCompact env _ key) as [signed sig]. now destruct signed.
Qed.

(** C8, at the failing input: before the upgrade (legacy scheme), [Sign]
    called with the key ["col"] and the public key ["other"] returns true,
    although the signature it stored verifies under ["other"] neither for the
    old nor for the new string message; after the upgrade (hash scheme) the
    same call returns false. *)
Theorem Sign_legacy_without_self_verify :
  let env := toy_env 2000 false true in
  let mnb := announcement 0 (ping_at 1900) in
  let r := Sign env "col" "other" mnb in
  NetworkUpgradeActive_STAKE_MODIFIER_V2 env (chainActive_Height env) = false /\
  fst r = true /\
  nMessVersion (snd r) = MESS_VER_STRMESS /\
  VerifyMessage env "other" (vchSig (snd r)) (GetOldStrMessage env (snd r)) = false /\
  VerifyMessage env "other" (vchSig (snd r)) (GetStrMessage env (snd r)) = false /\
  fst (Sign (toy_env 2000 true true) "col" "other" mnb) = false.
Proof. repeat split. Qed.

(** *** Replacement of a disabled record *)

Lemma Find_Add_Remove mn old st :
  prevout (vin old) = prevout (vin mn) ->
  vMasternodes (Add mn (Remove (vin old) st))
    = <[prevout (vin mn) := mn]> (vMasternodes st).
Proof.
  intros E. unfold Add, Remove. simpl. rewrite E, lookup_delete_eq. simpl.
  apply insert_delete_eq.
Qed.

(** C9: in [CheckInputsAndAdd], when the record found for the outpoint of
    the announcement is not enabled, it is removed: whatever the function
    returns, the registry holds for that outpoint the new record built from
    the announcement when the result is true, and no record when it is
    false; and when the collateral validates, the function returns true and
    the registry is the old one with the new record in place of the old. *)
Theorem CheckInputsAndAdd_replaces_disabled_record env this nDoS st old :
  registry_wf st ->
  reaches_registry_search env this nDoS st ->
  Find st (vin this) = Some old ->
  IsEnabled old = false ->
  (forall r, CheckInputsAndAdd env this nDoS st = Some r ->
     Find (snd r) (vin this) =
       if fst (fst r) then Some (CMasternode_copy this) else None) /\
  (collateral_validates env this ->
   exists st', CheckInputsAndAdd env this nDoS st = Some (true, nDoS, st') /\
     vMasternodes st' = <[prevout (vin this) := CMasternode_copy this]> (vMasternodes st)).
Proof.
  intros Hwf (Hown & Hnull & Hping) Hfind Hdis.
  pose proof (Hwf _ _ Hfind) as Hkey.
  unfold CheckInputsAndAdd, collateral_validates. rewrite Hown, Hnull. cbv zeta.
  pose proof (ping_sigTimeOnly env (lastPing this) nDoS false st) as [Hst Hd].
  destruct (CMasternodePing_CheckAndUpdate env (lastPing this) nDoS false true st)
    as [[ok d] st1].
  cbn [fst snd] in Hst, Hd, Hping. subst st1 ok. rewrite Hd by reflexivity.
  cbn [negb]. rewrite Hfind, Hdis.
  assert (Hgone : Find (Remove (vin old) st) (vin this) = None).
  { unfold Find, Remove. simpl. rewrite Hkey. apply lookup_delete_eq. }
  assert (Hnew : forall st2 : State,
            vMasternodes st2
              = <[prevout (vin this) := CMasternode_copy this]> (vMasternodes st) ->
            Find st2 (vin this) = Some (CMasternode_copy this)).
  { intros st2 E. unfold Find. rewrite E. apply lookup_insert_eq. }
  assert (Hadd : vMasternodes (Add (CMasternode_copy this) (Remove (vin old) st))
                 = <[prevout (vin this) := CMasternode_copy this]> (vMasternodes st)).
  { rewrite (Find_Add_Remove (CMasternode_copy this) old st) by exact Hkey. reflexivity. }
  split.
  - intros r.
    destruct (TRY_LOCK_cs_main env); cbn [negb]; [| intros [= <-]; exact Hgone ].
    destruct (AcceptableInputs env _); cbn [negb]; [| intros [= <-]; exact Hgone ].
    destruct (_ <? _); [ intros [= <-]; exact Hgone |].
    destruct (mapBlockIndex env _) as [pMNIndex |].
    + destruct (chainActive_at env _) as [pConfIndex |]; [| discriminate ].
      destruct (_ >? _); [ intros [= <-]; exact Hgone |].
      intros [= <-]. cbn [fst snd]. apply Hnew.
      repeat case_match; simpl; exact Hadd.
    + intros [= <-]. cbn [fst snd]. apply Hnew.
      repeat case_match; simpl; exact Hadd.
  - intros (Hlock & Hacc & Hdepth & Hconf). rewrite Hlock, Hacc. cbn [negb].
    destruct (Z.ltb_spec (GetCoinDepthAtHeight env (prevout (vin this)) (chainActive_Height env))
                MASTERNODE_MIN_CONFIRMATIONS); [ lia |].
    destruct (mapBlockIndex env _) as [pMNIndex |].
    + destruct Hconf as (pConfIndex & -> & Htime).
      destruct (Z.gtb_spec (nTime pConfIndex) (sigTime this)); [ lia |].
      eexists. split; [ reflexivity |].
      repeat case_match; simpl; exact Hadd.
    + eexists. split; [ reflexivity |].
      repeat case_match; simpl; exact Hadd.
Qed.

Lemma state_with_wf mn : registry_wf (state_with mn).
Proof.
  intros k mn' H. unfold state_with in H. simpl in H.
  apply lookup_singleton_Some in H as [<- <-]. reflexivity.
Qed.

Lemma CheckInputsAndAdd_replaces_disabled_record_witness :
  (forall r, CheckInputsAndAdd env_S2 A1 0 (state_with expired1) = Some r ->
     Find (snd r) (vin A1) =
       if fst (fst r) then Some (CMasternode_copy A1) else None) /\
  (collateral_validates env_S2 A1 ->
   exists st', CheckInputsAndAdd env_S2 A1 0 (state_with expired1) = Some (true, 0, st') /\
     vMasternodes st' = <[prevout (vin A1) := CMasternode_copy A1]>
                          (vMasternodes (state_with expired1))).
Proof.
  apply (CheckInputsAndAdd_replaces_disabled_record env_S2 A1 0 (state_with expired1) expired1).
  - apply state_with_wf.
  - unfold reaches_registry_search. repeat split.
  - reflexivity.
  - reflexivity.
Defined.

(** The collateral of A1 validates in the small network. *)
Lemma A1_collateral_validates : collateral_validates env_S2 A1.
Proof.
  unfold collateral_validates. repeat split; try (vm_compute; discriminate).
  simpl. eexists. split; [ reflexivity | vm_compute; discriminate ].
Qed.

(** C10: a full heartbeat that passes every check up to the block it refers
    to is assigned to [lastPing] of its record before the forced [Check];
    when the state after that check is not enabled, [CheckAndUpdate] returns
    failure, and the registry holds the checked record, whose [lastPing] is
    the refused heartbeat. *)
Theorem ping_failure_keeps_lastPing env this nDos fRequireEnabled st mn mi :
  ping_reaches_update env this fRequireEnabled st mn mi ->
  IsEnabled (CMasternode_Check env true (set_lastPing this mn)) = false ->
  let r := CMasternodePing_CheckAndUpdate env this nDos fRequireEnabled false st in
  fst (fst r) = false /\
  Find (snd r) (mnp_vin this) = Some (CMasternode_Check env true (set_lastPing this mn)) /\
  lastPing (CMasternode_Check env true (set_lastPing this mn)) = this.
Proof.
  intros (Hwin & Hfind & Hproto & Hreq & Hping & Hsig & Hblock & Hin & Hage) Hdis.
  unfold CMasternodePing_CheckAndUpdate. cbv zeta.
  destruct (Z.gtb_spec (mnp_sigTime this) (add64 (GetAdjustedTime env) (60 * 60))); [ lia |].
  destruct (Z.leb_spec (mnp_sigTime this) (sub64 (GetAdjustedTime env) (60 * 60))); [ lia |].
  rewrite Hfind.
  destruct (Z.geb_spec (protocolVersion mn) (ActiveProtocol env)); [| lia ].
  assert (Hgate : fRequireEnabled && negb (IsEnabled mn) = false).
  { destruct fRequireEnabled; [| reflexivity ]. now rewrite Hreq. }
  rewrite Hgate, Hping, Hsig, Hblock, Hin. cbn [negb orb].
  destruct (Z.gtb_spec (sub32 (chainActive_Height env) (nHeight mi)) 24); [ lia |].
  rewrite Hdis. cbn [negb fst snd].
  split; [ reflexivity |]. split.
  - unfold Find. destruct (mapSeenMasternodeBroadcast _ !! _); simpl;
      apply lookup_insert_eq.
  - rewrite Check_lastPing. now destruct mn.
Qed.

Lemma ping_failure_keeps_lastPing_witness :
  let r := CMasternodePing_CheckAndUpdate env_S2 (ping_at 1900) 0 true false
             (state_with young1) in
  fst (fst r) = false /\
  Find (snd r) (mnp_vin (ping_at 1900))
    = Some (CMasternode_Check env_S2 true (set_lastPing (ping_at 1900) young1)) /\
  lastPing (CMasternode_Check env_S2 true (set_lastPing (ping_at 1900) young1)) = ping_at 1900.
Proof.
  apply (ping_failure_keeps_lastPing env_S2 (ping_at 1900) 0 true (state_with young1)
           young1 block777).
  - unfold ping_reaches_update. repeat split; try (vm_compute; discriminate).
  - reflexivity.
Defined.

(** In that example the heartbeat is refused, and the record that had no
    heartbeat now holds this one. *)
Example ping_failure_example :
  fst (fst (CMasternodePing_CheckAndUpdate env_S2 (ping_at 1900) 0 true false
              (state_with young1))) = false /\
  lastPing young1 = null_ping /\
  (lastPing <$> Find (snd (CMasternodePing_CheckAndUpdate env_S2 (ping_at 1900) 0 true false
                             (state_with young1))) vin1) = Some (ping_at 1900) /\
  (activeState <$> Find (snd (CMasternodePing_CheckAndUpdate env_S2 (ping_at 1900) 0 true
                                false (state_with young1))) vin1)
    = Some MASTERNODE_PRE_ENABLED.
Proof. repeat split. Qed.

End MasternodeFacts.

(** * Further properties *)

(** ** Schedules *)

Module SchedulesMore.
Import Schedules SchedulesTable.

(** The function is the table read from its first row. *)
Lemma collateral_as_table COIN h :
  GetMasternodeNodeCollateral COIN h = mul64 (table_coins 0 collateral_table h) COIN.
Proof.
  unfold GetMasternodeNodeCollateral, collateral_table. cbn [table_coins].
  repeat (destruct (h >? _); [ reflexivity | ]). reflexivity.
Qed.

Lemma table_coins_app d pre suf h :
  table_coins d (pre ++ suf) h = table_coins (table_coins d suf h) pre h.
Proof.
  induction pre as [| [t n] pre IH]; simpl; [ reflexivity | ].
  destruct (h >? t); [ reflexivity | exact IH ].
Qed.

(** A height below every row falls through the table. *)
Lemma table_coins_below d tbl h :
  Forall (fun p => h <= fst p) tbl -> table_coins d tbl h = d.
Proof.
  induction 1 as [| [t n] tbl Ht _ IH]; simpl; [ reflexivity | ].
  simpl in Ht. destruct (Z.gtb_spec h t); [ lia | exact IH ].
Qed.

(** The value read is the default or the amount of a row. *)
Lemma table_coins_range lo hi d tbl h :
  lo <= d <= hi -> Forall (fun p => lo <= snd p <= hi) tbl ->
  lo <= table_coins d tbl h <= hi.
Proof.
  intros Hd. induction 1 as [| [t n] tbl Hn _ IH]; simpl; [ exact Hd | ].
  destruct (h >? t); [ exact Hn | exact IH ].
Qed.

(** Amounts that fall along the table, down to the default, make the value
    rise with the height. *)
Lemma table_coins_rising d tbl h1 h2 :
  StronglySorted (fun p q => snd q <= snd p) tbl ->
  Forall (fun p => d <= snd p) tbl ->
  h1 <= h2 -> table_coins d tbl h1 <= table_coins d tbl h2.
Proof.
  intros Hs Hd Hle. induction Hs as [| [t n] tbl Hs IH Hall]; simpl; [ lia | ].
  apply Forall_cons_iff in Hd as [Hn Hd]. simpl in Hn.
  destruct (Z.gtb_spec h1 t), (Z.gtb_spec h2 t); try lia.
  - apply (table_coins_range d n); [ lia | ].
    apply List.Forall_forall. intros p Hp.
    pose proof (proj1 (List.Forall_forall _ _) Hd p Hp).
    pose proof (proj1 (List.Forall_forall _ _) Hall p Hp). simpl in *. lia.
  - apply IH, Hd.
Qed.

(** Amounts that rise along the table, up to the default, make the value
    fall with the height. *)
Lemma table_coins_falling d tbl h1 h2 :
  StronglySorted (fun p q => snd p <= snd q) tbl ->
  Forall (fun p => snd p <= d) tbl ->
  h1 <= h2 -> table_coins d tbl h2 <= table_coins d tbl h1.
Proof.
  intros Hs Hd Hle. induction Hs as [| [t n] tbl Hs IH Hall]; simpl; [ lia | ].
  apply Forall_cons_iff in Hd as [Hn Hd]. simpl in Hn.
  destruct (Z.gtb_spec h1 t), (Z.gtb_spec h2 t); try lia.
  - apply (table_coins_range n d); [ lia | ].
    apply List.Forall_forall. intros p Hp.
    pose proof (proj1 (List.Forall_forall _ _) Hd p Hp).
    pose proof (proj1 (List.Forall_forall _ _) Hall p Hp). simpl in *. lia.
  - apply IH, Hd.
Qed.

Ltac table_facts :=
  repeat (first [ apply SSorted_nil | apply SSorted_cons
                | apply List.Forall_nil | apply List.Forall_cons ]); simpl; lia.

Lemma coins_le COIN n m :
  coin_ok COIN -> 0 <= n -> n <= m -> m <= 611591 -> mul64 n COIN <= mul64 m COIN.
Proof.
  intros Hok Hn Hnm Hm.
  rewrite !(SchedulesFacts.coins_exact COIN Hok) by lia.
  destruct Hok as [Hpos _]. nia.
Qed.

Lemma collateral_table_range h : 0 <= table_coins 0 collateral_table h <= 611591.
Proof. apply table_coins_range; [ lia | unfold collateral_table; table_facts ]. Qed.

Lemma collateral_table_split :
  collateral_table = firstn 35 collateral_table ++ skipn 35 collateral_table.
Proof. symmetry. apply firstn_skipn. Qed.

(** The range of the collateral, and its two ends. *)
Lemma collateral_range COIN h :
  coin_ok COIN ->
  0 <= GetMasternodeNodeCollateral COIN h <= 611591 * COIN /\
  (h <= 1 -> GetMasternodeNodeCollateral COIN h = 0) /\
  (2 <= h -> 100000 * COIN <= GetMasternodeNodeCollateral COIN h).
Proof.
  intros Hok. pose proof Hok as [Hpos _].
  rewrite collateral_as_table.
  pose proof (collateral_table_range h) as Hr.
  rewrite (SchedulesFacts.coins_exact COIN Hok) by exact Hr.
  split; [ nia | split ].
  - intros Hh. rewrite table_coins_below; [ reflexivity | ].
    unfold collateral_table. table_facts.
  - intros Hh.
    assert (100000 <= table_coins 0 collateral_table h); [ | nia ].
    replace collateral_table
      with (removelast collateral_table ++ [(1, 100000)]) by reflexivity.
    rewrite table_coins_app. cbn [table_coins].
    destruct (Z.gtb_spec h 1); [ | lia ].
    apply (table_coins_range 100000 611591); [ lia | ].
    cbv [removelast collateral_table]. table_facts.
Qed.

(** X1: the collateral of [GetMasternodeNodeCollateral] is, at every height,
    between 0 and 611591 coins; it is 0 at the heights up to 1, which no row
    of the function covers, and at least 100000 coins from height 2 on. *)
Theorem collateral_bounds COIN h :
  coin_ok COIN ->
  0 <= GetMasternodeNodeCollateral COIN h <= 611591 * COIN /\
  (h <= 1 -> GetMasternodeNodeCollateral COIN h = 0) /\
  (2 <= h -> 100000 * COIN <= GetMasternodeNodeCollateral COIN h).
Proof. apply collateral_range. Qed.

Lemma collateral_bounds_witness :
  0 <= GetMasternodeNodeCollateral 100000000 5000 <= 611591 * 100000000 /\
  (5000 <= 1 -> GetMasternodeNodeCollateral 100000000 5000 = 0) /\
  (2 <= 5000 -> 100000 * 100000000 <= GetMasternodeNodeCollateral 100000000 5000).
Proof.
  apply (collateral_bounds 100000000 5000). exact SchedulesFacts.coin_ok_100000000.
Defined.

(** X2: the collateral never decreases from one height to a later one up
    to height 19999999, and never increases from one height to a later one
    from height 19000000 on. *)
Theorem collateral_rises_then_falls COIN h1 h2 :
  coin_ok COIN -> h1 <= h2 ->
  (h2 <= 19999999 ->
   GetMasternodeNodeCollateral COIN h1 <= GetMasternodeNodeCollateral COIN h2) /\
  (19000000 <= h1 ->
   GetMasternodeNodeCollateral COIN h2 <= GetMasternodeNodeCollateral COIN h1).
Proof.
  intros Hok Hle. rewrite !collateral_as_table.
  pose proof (collateral_table_range h1) as R1.
  pose proof (collateral_table_range h2) as R2.
  split; intros Hb; apply (coins_le COIN _ _ Hok); try lia.
  - rewrite collateral_table_split, !table_coins_app.
    rewrite !(table_coins_below _ (firstn 35 collateral_table))
      by (cbv [firstn collateral_table]; table_facts).
    apply table_coins_rising; [ | | exact Hle ];
      cbv [skipn collateral_table]; table_facts.
  - replace collateral_table
      with (firstn 36 collateral_table ++ skipn 36 collateral_table)
      by apply firstn_skipn.
    rewrite !table_coins_app.
    assert (Hhit : forall h d, 19000000 <= h ->
              table_coins d (firstn 36 collateral_table) h
              = table_coins 611591 (firstn 36 collateral_table) h).
    { intros h d Hh.
      replace (firstn 36 collateral_table)
        with (firstn 35 collateral_table ++ [(18999999, 611591)]) by reflexivity.
      rewrite !table_coins_app. cbn [table_coins].
      destruct (Z.gtb_spec h 18999999); [ reflexivity | lia ]. }
    rewrite (Hhit h1), (Hhit h2) by lia.
    apply table_coins_falling; [ | | exact Hle ];
      cbv [firstn collateral_table]; table_facts.
Qed.

Lemma collateral_rises_then_falls_witness :
  (19500000 <= 19999999 ->
   GetMasternodeNodeCollateral 100000000 19000000
   <= GetMasternodeNodeCollateral 100000000 19500000) /\
  (19000000 <= 19000000 ->
   GetMasternodeNodeCollateral 100000000 19500000
   <= GetMasternodeNodeCollateral 100000000 19000000).
Proof.
  apply (collateral_rises_then_falls 100000000 19000000 19500000).
  - exact SchedulesFacts.coin_ok_100000000.
  - lia.
Defined.

(** *** Block value and masternode payment *)

(** The subsidy of a height is a whole number of coins, at most 400200. *)
Lemma nSubsidy_at_exact COIN h :
  subsidy_coin_ok COIN ->
  exists n, 0 <= n <= 400200 /\ nSubsidy_at COIN h = Some (n * COIN).
Proof.
  intros [Hpos Hmax].
  destruct (SchedulesFacts.nSubsidy_at_assigned COIN h) as (n & Hn & ->).
  exists n. split; [ exact Hn | ]. f_equal. apply mul64_exact.
  unfold in_int64, INT64_MAX in *. nia.
Qed.

(** The block value is the subsidy, cut at the cap on the supply. *)
Lemma GetBlockValue_capped COIN nMaxMoneyOut nMoneySupply h :
  subsidy_coin_ok COIN ->
  0 <= nMoneySupply -> 0 <= nMaxMoneyOut <= INT64_MAX ->
  nMoneySupply + 400200 * COIN <= INT64_MAX ->
  exists nSubsidy v,
    nSubsidy_at COIN h = Some nSubsidy /\
    GetBlockValue COIN nMaxMoneyOut nMoneySupply h = Some v /\
    0 <= v <= nSubsidy /\
    (nMoneySupply + nSubsidy <= nMaxMoneyOut -> nMoneySupply < nMaxMoneyOut -> v = nSubsidy).
Proof.
  intros Hok Hs Hm Hsum. pose proof Hok as [Hpos Hmax].
  destruct (nSubsidy_at_exact COIN h Hok) as (n & Hn & Hsub).
  exists (n * COIN). unfold GetBlockValue. rewrite Hsub.
  assert (Hn' : 0 <= n * COIN <= 400200 * COIN) by nia.
  destruct (Z.geb_spec nMoneySupply nMaxMoneyOut).
  { exists 0. repeat split; try lia. }
  rewrite add64_exact by (unfold in_int64, INT64_MAX in *; lia).
  destruct (Z.gtb_spec (nMoneySupply + n * COIN) nMaxMoneyOut).
  - rewrite sub64_exact by (unfold in_int64, INT64_MAX in *; lia).
    eexists. repeat split; try reflexivity; lia.
  - eexists. repeat split; try reflexivity; lia.
Qed.

(** X3: for a money supply that is not negative and leaves room for the
    largest subsidy in a [CAmount], [GetBlockValue] returns at every height
    a value between 0 and the subsidy of the height, and the whole subsidy
    when the supply is below the cap and stays within it with the subsidy. *)
Theorem GetBlockValue_within_subsidy COIN nMaxMoneyOut nMoneySupply h :
  subsidy_coin_ok COIN ->
  0 <= nMoneySupply -> 0 <= nMaxMoneyOut <= INT64_MAX ->
  nMoneySupply + 400200 * COIN <= INT64_MAX ->
  exists nSubsidy v,
    nSubsidy_at COIN h = Some nSubsidy /\
    GetBlockValue COIN nMaxMoneyOut nMoneySupply h = Some v /\
    0 <= v <= nSubsidy /\
    (nMoneySupply + nSubsidy <= nMaxMoneyOut -> nMoneySupply < nMaxMoneyOut -> v = nSubsidy).
Proof. apply GetBlockValue_capped. Qed.

Lemma subsidy_coin_ok_100000000 : subsidy_coin_ok 100000000.
Proof. unfold subsidy_coin_ok, INT64_MAX. lia. Defined.

Lemma GetBlockValue_within_subsidy_witness :
  exists nSubsidy v,
    nSubsidy_at 100000000 5000 = Some nSubsidy /\
    GetBlockValue 100000000 2100000000000000 0 5000 = Some v /\
    0 <= v <= nSubsidy /\
    (0 + nSubsidy <= 2100000000000000 -> 0 < 2100000000000000 -> v = nSubsidy).
Proof.
  apply (GetBlockValue_within_subsidy 100000000 2100000000000000 0 5000).
  - exact subsidy_coin_ok_100000000.
  - lia.
  - unfold INT64_MAX. lia.
  - unfold INT64_MAX. lia.
Defined.

(** X4: [GetMasternodePayment] is 0 up to height 1000; above it, it is
    85 hundredths of the block value rounded down, hence between 0 and the
    block value. *)
Theorem GetMasternodePayment_share COIN nMaxMoneyOut nMoneySupply h :
  subsidy_coin_ok COIN ->
  0 <= nMoneySupply -> 0 <= nMaxMoneyOut <= INT64_MAX ->
  nMoneySupply + 400200 * COIN <= INT64_MAX ->
  (h <= 1000 -> GetMasternodePayment COIN nMaxMoneyOut nMoneySupply h = Some 0) /\
  (1000 < h ->
   exists v p,
     GetBlockValue COIN nMaxMoneyOut nMoneySupply h = Some v /\
     GetMasternodePayment COIN nMaxMoneyOut nMoneySupply h = Some p /\
     0 <= p <= v /\ 100 * p <= 85 * v < 100 * p + 100).
Proof.
  intros Hok Hs Hm Hsum. unfold GetMasternodePayment. split; intros Hh.
  - destruct (Z.gtb_spec h 1000); [ lia | reflexivity ].
  - destruct (Z.gtb_spec h 1000); [ | lia ].
    destruct (GetBlockValue_capped COIN nMaxMoneyOut nMoneySupply h Hok Hs Hm Hsum)
      as (s & v & Hsub & Hv & Hrange & _).
    destruct (nSubsidy_at_exact COIN h Hok) as (n & Hn & Hsub').
    rewrite Hsub in Hsub'. injection Hsub' as ->.
    exists v, (v * 85 / 100). rewrite Hv. simpl.
    destruct Hok as [Hpos Hmax].
    rewrite mul64_exact by (unfold in_int64, INT64_MAX in *; nia).
    rewrite Z.quot_div_nonneg by lia.
    repeat split; try lia.
    + apply Z.div_pos; lia.
    + pose proof (Z.mul_div_le (v * 85) 100). lia.
    + pose proof (Z.mul_div_le (v * 85) 100). lia.
    + pose proof (Z.mod_pos_bound (v * 85) 100).
      pose proof (Z.div_mod (v * 85) 100). lia.
Qed.

Lemma GetMasternodePayment_share_witness :
  (5000 <= 1000 -> GetMasternodePayment 100000000 2100000000000000 0 5000 = Some 0) /\
  (1000 < 5000 ->
   exists v p,
     GetBlockValue 100000000 2100000000000000 0 5000 = Some v /\
     GetMasternodePayment 100000000 2100000000000000 0 5000 = Some p /\
     0 <= p <= v /\ 100 * p <= 85 * v < 100 * p + 100).
Proof.
  apply (GetMasternodePayment_share 100000000 2100000000000000 0 5000).
  - exact subsidy_coin_ok_100000000.
  - lia.
  - unfold INT64_MAX. lia.
  - unfold INT64_MAX. lia.
Defined.

(** *** The scan, for any range *)

(** The vector the scan is given is kept, and what it adds does not depend
    on it. *)
Lemma collateral_scan_prefix COIN n i prev vec :
  collateral_scan COIN n i (prev, vec) =
  (fst (collateral_scan COIN n i (prev, [])),
   vec ++ snd (collateral_scan COIN n i (prev, []))).
Proof.
  revert i prev vec. induction n as [| n IH]; intros i prev vec; simpl.
  - now rewrite app_nil_r.
  - destruct (negb (prev =? GetMasternodeNodeCollateral COIN i)).
    + rewrite (IH _ _ (vec ++ _)), (IH _ _ [_]). simpl.
      now rewrite <- app_assoc.
    + apply IH.
Qed.

(** What a scan of [n] heights from [i] adds: exactly the heights of the
    range whose collateral differs from the one before ([prev] for the first
    height), each with its collateral, in increasing order. *)
Lemma collateral_scan_adds COIN n i prev :
  let new := snd (collateral_scan COIN n i (prev, [])) in
  (forall j c, In (j, c) new <->
     i <= j < i + Z.of_nat n /\ c = GetMasternodeNodeCollateral COIN j /\
     c <> (if j =? i then prev else GetMasternodeNodeCollateral COIN (j - 1))) /\
  StronglySorted (fun p q => fst p < fst q) new.
Proof.
  revert i prev. induction n as [| n IH]; intros i prev.
  - simpl. split; [ | constructor ]. intros j c. split; [ contradiction | lia ].
  - cbn [collateral_scan collateral_scan_step]. cbv zeta.
    set (ci := GetMasternodeNodeCollateral COIN i).
    destruct (IH (i + 1) ci) as [Hin Hsorted]. cbv zeta in Hin, Hsorted.
    assert (Hnext : forall j c,
              In (j, c) (snd (collateral_scan COIN n (i + 1) (ci, []))) <->
              i + 1 <= j < i + Z.of_nat (S n) /\ c = GetMasternodeNodeCollateral COIN j /\
              c <> GetMasternodeNodeCollateral COIN (j - 1)).
    { intros j c. rewrite Hin. split.
      - intros (Hj & Hc & Hne). repeat split; try lia.
        destruct (Z.eqb_spec j (i + 1)) as [-> | _]; [ | exact Hne ].
        replace (i + 1 - 1) with i by lia. exact Hne.
      - intros (Hj & Hc & Hne). repeat split; try lia.
        destruct (Z.eqb_spec j (i + 1)) as [-> | _]; [ | exact Hne ].
        replace (i + 1 - 1) with i in Hne by lia. exact Hne. }
    destruct (Z.eqb_spec prev ci) as [Heq | Hne]; cbn [negb].
    + rewrite Heq. split; [ | exact Hsorted ]. intros j c. rewrite Hnext. split.
      * intros (Hj & Hc & Hd). repeat split; try lia.
        destruct (Z.eqb_spec j i); [ lia | exact Hd ].
      * intros (Hj & Hc & Hd). destruct (Z.eqb_spec j i) as [-> | Hji].
        -- exfalso. apply Hd. exact Hc.
        -- repeat split; try lia; assumption.
    + rewrite collateral_scan_prefix. cbn [snd app].
      split.
      * intros j c. cbn [In]. rewrite Hnext. split.
        -- intros [[= <- <-] | (Hj & Hc & Hd)].
           ++ repeat split; try lia. rewrite Z.eqb_refl. congruence.
           ++ repeat split; try lia. destruct (Z.eqb_spec j i); [ lia | exact Hd ].
        -- intros (Hj & Hc & Hd). destruct (Z.eqb_spec j i) as [-> | Hji].
           ++ left. now subst c.
           ++ right. repeat split; try lia; assumption.
      * constructor; [ exact Hsorted | ].
        apply List.Forall_forall. intros [j c] Hjc. apply Hnext in Hjc. simpl. lia.
Qed.

(** X5: [InitMasternodeCollateralList] keeps the vector it is given
    and appends to it exactly the heights below 9999999 whose collateral
    differs from that of the height before (from -1 for height 0), each with
    its collateral, in increasing order of height. *)
Theorem InitMasternodeCollateralList_records_changes COIN vecCollaterals :
  exists new,
    InitMasternodeCollateralList COIN vecCollaterals = vecCollaterals ++ new /\
    (forall j c, In (j, c) new <->
       0 <= j < 9999999 /\ c = GetMasternodeNodeCollateral COIN j /\
       c <> (if j =? 0 then -1 else GetMasternodeNodeCollateral COIN (j - 1))) /\
    StronglySorted (fun p q => fst p < fst q) new.
Proof.
  unfold InitMasternodeCollateralList, collateral_scan_range.
  generalize (eq_refl (Z.to_nat (9999999 - 0))).
  generalize (Z.to_nat (9999999 - 0)) at 1 3. intros n Hn.
  rewrite collateral_scan_prefix. cbn [snd].
  eexists. split; [ reflexivity | ].
  destruct (collateral_scan_adds COIN n 0 (-1)) as [Hin Hs].
  split; [ | exact Hs ].
  intros j c. rewrite (Hin j c).
  assert (E : 0 + Z.of_nat n = 9999999) by lia. rewrite E. reflexivity.
Qed.

(** *** The next change, for any vector *)

Lemma GetNextMasternodeCollateral_app vec1 vec2 h :
  GetNextMasternodeCollateral (vec1 ++ vec2) h =
  if existsb (fun p => fst p >? h) vec1
  then GetNextMasternodeCollateral vec1 h
  else GetNextMasternodeCollateral vec2 h.
Proof.
  induction vec1 as [| p vec1 IH]; simpl; [ reflexivity | ].
  destruct (fst p >? h); [ reflexivity | exact IH ].
Qed.

Lemma GetNextMasternodeCollateral_none vec h :
  existsb (fun p => fst p >? h) vec = false ->
  GetNextMasternodeCollateral vec h = (-1, -1).
Proof.
  induction vec as [| p vec IH]; simpl; [ reflexivity | ].
  destruct (fst p >? h); [ discriminate | exact IH ].
Qed.

Lemma GetNextMasternodeCollateral_doubled vec h :
  GetNextMasternodeCollateral (vec ++ vec) h = GetNextMasternodeCollateral vec h.
Proof.
  rewrite GetNextMasternodeCollateral_app.
  destruct (existsb _ vec) eqn:E; [ reflexivity | ].
  now rewrite GetNextMasternodeCollateral_none.
Qed.

(** X6: over any vector whose heights are within an [int] of the
    height asked, [GetNextMasternodeCollateral] answers (-1, -1) exactly when
    no entry is above the height; otherwise it answers with the first entry
    of the vector, in the order of the vector, that is above the height: the
    distance to it and its amount. *)
Theorem GetNextMasternodeCollateral_first_above vecCollaterals h :
  Forall (fun p => in_int32 (fst p - h)) vecCollaterals ->
  (GetNextMasternodeCollateral vecCollaterals h = (-1, -1) <->
   Forall (fun p => fst p <= h) vecCollaterals) /\
  (GetNextMasternodeCollateral vecCollaterals h <> (-1, -1) ->
   exists before p after,
     vecCollaterals = before ++ p :: after /\
     Forall (fun q => fst q <= h) before /\ h < fst p /\
     GetNextMasternodeCollateral vecCollaterals h = (fst p - h, snd p)).
Proof.
  induction 1 as [| p vec Hp Hall IH]; simpl.
  - split; [ split; [ constructor | reflexivity ] | intros []; reflexivity ].
  - destruct IH as [IH1 IH2]. destruct (Z.gtb_spec (fst p) h) as [Hgt | Hle].
    + rewrite sub32_exact by exact Hp. split.
      * split; [ intros [= Hd _]; lia | ].
        intros Hf. apply Forall_cons_iff in Hf as [Hf _]. lia.
      * intros _. exists [], p, vec. repeat split; [ constructor | lia ].
    + split.
      * rewrite IH1. split; intros Hf.
        -- apply List.Forall_cons; assumption.
        -- apply Forall_cons_iff in Hf as [_ Hf]. exact Hf.
      * intros Hne. destruct (IH2 Hne) as (before & q & after & -> & Hb & Hq & Heq).
        exists (p :: before), q, after. repeat split; try assumption.
        apply List.Forall_cons; assumption.
Qed.

Lemma GetNextMasternodeCollateral_first_above_witness :
  (GetNextMasternodeCollateral [(0, 0); (2, 7); (10, 9)] 5 = (-1, -1) <->
   Forall (fun p => fst p <= 5) [(0, 0); (2, 7); (10, 9)]) /\
  (GetNextMasternodeCollateral [(0, 0); (2, 7); (10, 9)] 5 <> (-1, -1) ->
   exists before p after,
     [(0, 0); (2, 7); (10, 9)] = before ++ p :: after /\
     Forall (fun q => fst q <= 5) before /\ 5 < fst p /\
     GetNextMasternodeCollateral [(0, 0); (2, 7); (10, 9)] 5 = (fst p - 5, snd p)).
Proof.
  apply (GetNextMasternodeCollateral_first_above [(0, 0); (2, 7); (10, 9)] 5).
  repeat apply List.Forall_cons; try apply List.Forall_nil;
    unfold in_int32, INT32_MAX; simpl; lia.
Defined.

(** X7: a second call of [InitMasternodeCollateralList] appends the
    same transition points once more, and leaves every answer of
    [GetNextMasternodeCollateral] as it was. *)
Theorem InitMasternodeCollateralList_twice COIN vecCollaterals h :
  InitMasternodeCollateralList COIN (InitMasternodeCollateralList COIN vecCollaterals)
    = InitMasternodeCollateralList COIN vecCollaterals
        ++ InitMasternodeCollateralList COIN [] /\
  GetNextMasternodeCollateral
    (InitMasternodeCollateralList COIN (InitMasternodeCollateralList COIN [])) h
  = GetNextMasternodeCollateral (InitMasternodeCollateralList COIN []) h.
Proof.
  unfold InitMasternodeCollateralList, collateral_scan_range.
  generalize (Z.to_nat (9999999 - 0)). intros n.
  split.
  - rewrite (collateral_scan_prefix COIN n 0 (-1) (snd _)). reflexivity.
  - rewrite (collateral_scan_prefix COIN n 0 (-1) (snd _)). cbn [snd].
    apply GetNextMasternodeCollateral_doubled.
Qed.

End SchedulesMore.

(** ** Scoring *)

Module ScoringMore.
Import Scoring.

(** X8: a call of [GetBlockHash] that finds no hash leaves the cache as
    it was; a call that finds one keeps every entry of the cache, and the
    same call on the cache it leaves finds the same hash and leaves that
    cache unchanged. *)
Theorem GetBlockHash_memoizes cache chain h :
  let r := GetBlockHash cache chain h in
  (fst r = None -> snd r = cache) /\
  (forall B, fst r = Some B ->
     GetBlockHash (snd r) chain h = (Some B, snd r) /\
     forall k v, cache !! k = Some v -> snd r !! k = Some v).
Proof.
  cbv zeta. unfold GetBlockHash. destruct chain as [| tip pprev].
  { split; [ reflexivity | discriminate ]. }
  destruct (nHeight tip =? 0); [ split; [ reflexivity | discriminate ] | ].
  set (h' := if h =? 0 then nHeight tip else h).
  destruct (cache !! h') as [hash |] eqn:Hc.
  { cbn [fst snd]. split; [ discriminate | ]. intros B [= <-].
    rewrite Hc. split; [ reflexivity | auto ]. }
  destruct (_ <? 0); [ split; [ reflexivity | discriminate ] | ].
  destruct (GetBlockHash_loop _ _ _) as [hash |];
    [ | split; [ reflexivity | discriminate ] ].
  cbn [fst snd]. split; [ discriminate | ]. intros B [= <-].
  rewrite lookup_insert_eq. split; [ reflexivity | ].
  intros k v Hk. rewrite lookup_insert_ne; [ exact Hk | ].
  intros <-. rewrite Hc in Hk. discriminate.
Qed.

Lemma in_uint256_zero : in_uint256 UINT256_ZERO.
Proof.
  unfold in_uint256, UINT256_ZERO, UINT256_MOD.
  split; [ lia | apply Z.pow_pos_nonneg; lia ].
Qed.

(** X9: [CalculateScore] leaves a cache whose entries are the hashes
    [GetBlockHash] computes from the chain, when it was given such a cache,
    and its score is a [uint256]. *)
Theorem CalculateScore_keeps_cache_coherent HashOf PROTOCOL_VERSION cache chain prevout
    mod_ h :
  cache_coherent cache chain ->
  cache_coherent (snd (CalculateScore HashOf PROTOCOL_VERSION cache chain prevout mod_ h))
    chain /\
  in_uint256 (fst (CalculateScore HashOf PROTOCOL_VERSION cache chain prevout mod_ h)).
Proof.
  intros Hco. unfold CalculateScore. destruct chain as [| tip pprev] eqn:Hchain.
  { split; [ exact Hco | exact in_uint256_zero ]. }
  rewrite <- Hchain in *.
  pose proof (ScoringFacts.GetBlockHash_keeps_coherent cache chain (to_int32 h) Hco) as Hk.
  destruct (GetBlockHash cache chain (to_int32 h)) as [[B |] cache']; cbn [fst snd] in *.
  - split; [ exact Hk | ].
    destruct (_ >? _); unfold sub256, in_uint256; apply Z.mod_pos_bound; reflexivity.
  - split; [ exact Hk | exact in_uint256_zero ].
Qed.

Lemma CalculateScore_keeps_cache_coherent_witness :
  cache_coherent (snd (CalculateScore toy_hash 70920 ∅ chain3 toy_outpoint 0 2)) chain3 /\
  in_uint256 (fst (CalculateScore toy_hash 70920 ∅ chain3 toy_outpoint 0 2)).
Proof.
  apply (CalculateScore_keeps_cache_coherent toy_hash 70920 ∅ chain3 toy_outpoint 0 2).
  apply ScoringFacts.cache_coherent_empty.
Defined.

Lemma block_at_In chain t b :
  block_at chain t = Some b -> In b chain /\ nHeight b = t.
Proof.
  unfold block_at. intros H. apply find_some in H as [Hin Heq].
  split; [ exact Hin | now apply Z.eqb_eq ].
Qed.

Lemma block_at_wf chain t :
  chain_wf chain -> 0 <= t < Z.of_nat (length chain) -> is_Some (block_at chain t).
Proof.
  induction chain as [| b pprev IH]; simpl; intros Hwf Ht; [ lia | ].
  destruct Hwf as [Hh Hwf]. unfold block_at. simpl.
  destruct (Z.eqb_spec (nHeight b) t); [ eauto | ].
  apply IH; [ exact Hwf | lia ].
Qed.

(** X10: on a chain numbered from the genesis block, with an empty
    cache, the hash [GetBlockHash] finds is the hash of a block of the chain
    above the genesis block: the block at height [h - 1] for a positive [h],
    the block below the tip for [h = 0], the tip for a negative [h].  It
    finds one for every [h] from 2 to the height of the tip plus one, and
    none for [h = 1], for [h] beyond the height of the tip plus one, and on a
    chain of the genesis block alone. *)
Theorem GetBlockHash_window chain tip pprev h :
  chain = tip :: pprev ->
  chain_wf chain -> Z.of_nat (length chain) <= INT32_MAX -> in_int32 h ->
  let T := nHeight tip in
  (forall B, fst (GetBlockHash ∅ chain h) = Some B ->
     exists b, In b chain /\ phashBlock b = B /\ 0 < nHeight b /\
               (0 < h -> nHeight b = h - 1) /\
               (h = 0 -> nHeight b = T - 1) /\
               (h < 0 -> nHeight b = T)) /\
  (2 <= h <= T + 1 -> is_Some (fst (GetBlockHash ∅ chain h))) /\
  (h = 1 \/ T + 1 < h \/ T = 0 -> fst (GetBlockHash ∅ chain h) = None).
Proof.
  intros -> Hwf Hlen Hh. cbv zeta.
  rewrite (ScoringFacts.GetBlockHash_cold _ h Hwf Hlen Hh).
  pose proof Hwf as [HT _]. unfold GetBlockHash_target.
  destruct (Z.eqb_spec (nHeight tip) 0) as [HT0 | HT0].
  { split; [ discriminate | split; [ lia | reflexivity ] ]. }
  set (h' := if h =? 0 then nHeight tip else h).
  set (t := if h' >? 0 then h' - 1 else nHeight tip).
  assert (Ht : (0 < h -> t = h - 1) /\ (h = 0 -> t = nHeight tip - 1) /\
               (h < 0 -> t = nHeight tip)).
  { subst t h'. destruct (Z.eqb_spec h 0).
    - destruct (Z.gtb_spec (nHeight tip) 0); lia.
    - destruct (Z.gtb_spec h 0); lia. }
  destruct Ht as (Ht1 & Ht2 & Ht3).
  split; [ | split ].
  - intros B HB. destruct (block_at (tip :: pprev) t) as [b |] eqn:Hb; [ | discriminate ].
    apply block_at_In in Hb as [Hin Hbt].
    destruct (Z.gtb_spec (nHeight b) 0); [ | discriminate ].
    injection HB as <-. exists b. repeat split; try assumption; intros; lia.
  - intros Hr. rewrite Ht1 by lia.
    destruct (block_at_wf (tip :: pprev) (h - 1) Hwf) as [b Hb]; [ simpl in *; lia | ].
    rewrite Hb. apply block_at_In in Hb as [_ Hbt].
    destruct (Z.gtb_spec (nHeight b) 0); [ eauto | lia ].
  - intros [-> | [Hr | Hr]]; [ | | contradiction ].
    + rewrite Ht1 by lia.
      destruct (block_at (tip :: pprev) (1 - 1)) as [b |] eqn:Hb; [ | reflexivity ].
      apply block_at_In in Hb as [_ Hbt].
      destruct (Z.gtb_spec (nHeight b) 0); [ lia | reflexivity ].
    + rewrite Ht1 by lia.
      rewrite ScoringFacts.block_at_above; [ reflexivity | exact Hwf | simpl in *; lia ].
Qed.

Lemma GetBlockHash_window_witness :
  let T := nHeight (mkBlockIndex 2 1002 30) in
  (forall B, fst (GetBlockHash ∅ chain3 2) = Some B ->
     exists b, In b chain3 /\ phashBlock b = B /\ 0 < nHeight b /\
               (0 < 2 -> nHeight b = 2 - 1) /\
               (2 = 0 -> nHeight b = T - 1) /\
               (2 < 0 -> nHeight b = T)) /\
  (2 <= 2 <= T + 1 -> is_Some (fst (GetBlockHash ∅ chain3 2))) /\
  (2 = 1 \/ T + 1 < 2 \/ T = 0 -> fst (GetBlockHash ∅ chain3 2) = None).
Proof.
  apply (GetBlockHash_window chain3 (mkBlockIndex 2 1002 30)
           [mkBlockIndex 1 1001 20; mkBlockIndex 0 1000 10] 2).
  - reflexivity.
  - exact ScoringFacts.chain3_wf.
  - vm_compute. discriminate.
  - unfold in_int32, INT32_MAX. lia.
Defined.

End ScoringMore.

(** ** Records, announcements and heartbeats *)

Module MasternodeMore.
Import Scoring Masternode MasternodeRelations.

Lemma only_status_refl mn : only_status mn mn.
Proof. exists (lastPing mn), (activeState mn), (lastTimeChecked mn). now destruct mn. Qed.

Lemma only_status_trans a b c : only_status a b -> only_status b c -> only_status a c.
Proof.
  intros (p & s & t & ->) (p' & s' & t' & ->). exists p', s', t'. now destruct a.
Qed.

Lemma only_status_set_lastPing p mn : only_status mn (set_lastPing p mn).
Proof. exists p, (activeState mn), (lastTimeChecked mn). now destruct mn. Qed.

(** [Check] assigns nothing but [activeState] and [lastTimeChecked]. *)
Lemma Check_fields env forceCheck mn :
  exists s t, CMasternode_Check env forceCheck mn
              = set_lastTimeChecked t (set_activeState s mn).
Proof.
  assert (H0 : mn = set_lastTimeChecked (lastTimeChecked mn)
                      (set_activeState (activeState mn) mn)) by now destruct mn.
  assert (H1 : forall s, set_activeState s (set_lastTimeChecked (GetTime env) mn)
                         = set_lastTimeChecked (GetTime env) (set_activeState s mn))
    by (intros s; now destruct mn).
  assert (H2 : set_lastTimeChecked (GetTime env) mn
               = set_lastTimeChecked (GetTime env) (set_activeState (activeState mn) mn))
    by now destruct mn.
  unfold CMasternode_Check.
  repeat case_match; rewrite ?H1; eauto.
Qed.

Lemma Check_only_status env forceCheck mn :
  only_status mn (CMasternode_Check env forceCheck mn).
Proof.
  destruct (Check_fields env forceCheck mn) as (s & t & ->).
  exists (lastPing mn), s, t. now destruct mn.
Qed.

Lemma only_status_same_vin_later mn mn' : only_status mn mn' -> same_vin_later mn mn'.
Proof. intros (p & s & t & ->). split; simpl; [ reflexivity | lia ]. Qed.

Lemma same_vin_later_trans a b c :
  same_vin_later a b -> same_vin_later b c -> same_vin_later a c.
Proof. intros [H1 H2] [H3 H4]. split; [ congruence | lia ]. Qed.



(** X12: a record that was not enabled is enabled after [Check] only if
    no shutdown is requested, its last heartbeat is within the removal and
    expiration delays, that heartbeat was signed at least
    [MASTERNODE_MIN_MNP_SECONDS] after the announcement and, unless the
    record is a unit test, the lock was taken, the collateral is unspent and
    its address is not burnt at the height of the chain. *)
Theorem Check_enables_only_if env forceCheck mn :
  activeState mn <> MASTERNODE_ENABLED ->
  activeState (CMasternode_Check env forceCheck mn) = MASTERNODE_ENABLED ->
  ShutdownRequested env = false /\
  IsPingedWithin env mn MASTERNODE_REMOVAL_SECONDS (GetAdjustedTime env) = true /\
  IsPingedWithin env mn MASTERNODE_EXPIRATION_SECONDS (GetAdjustedTime env) = true /\
  MASTERNODE_MIN_MNP_SECONDS <= sub64 (mnp_sigTime (lastPing mn)) (sigTime mn) /\
  (unitTest mn = false ->
   TRY_LOCK_cs_main env = true /\
   AcceptableInputs env (collateral_spend_tx env mn) = true /\
   forall burnt, mBurnAddresses env !! EncodeDestination env (pubKeyCollateralAddress mn)
                 = Some burnt -> chainActive_Height env <= burnt).
Proof.
  intros Hne. unfold CMasternode_Check.
  assert (Hip : forall s, IsPingedWithin env (set_lastTimeChecked (GetTime env) mn) s
                            (GetAdjustedTime env)
                          = IsPingedWithin env mn s (GetAdjustedTime env)) by reflexivity.
  assert (Htx : collateral_spend_tx env (set_lastTimeChecked (GetTime env) mn)
                = collateral_spend_tx env mn) by reflexivity.
  destruct (ShutdownRequested env); [ contradiction | ].
  destruct (negb forceCheck && _); [ contradiction | ].
  destruct (bool_decide _); [ simpl; contradiction | ].
  rewrite !Hip, Htx.
  destruct (IsPingedWithin env mn MASTERNODE_REMOVAL_SECONDS _); [ | discriminate ].
  destruct (IsPingedWithin env mn MASTERNODE_EXPIRATION_SECONDS _); [ | discriminate ].
  cbn [negb].
  change (mnp_sigTime (lastPing (set_lastTimeChecked (GetTime env) mn)))
    with (mnp_sigTime (lastPing mn)).
  change (sigTime (set_lastTimeChecked (GetTime env) mn)) with (sigTime mn).
  destruct (Z.ltb_spec (sub64 (mnp_sigTime (lastPing mn)) (sigTime mn))
              MASTERNODE_MIN_MNP_SECONDS); [ discriminate | ].
  change (unitTest (set_lastTimeChecked (GetTime env) mn)) with (unitTest mn).
  change (pubKeyCollateralAddress (set_lastTimeChecked (GetTime env) mn))
    with (pubKeyCollateralAddress mn).
  destruct (unitTest mn); cbn [negb].
  { intros _. repeat split; try assumption; try lia; discriminate. }
  destruct (TRY_LOCK_cs_main env); cbn [negb]; [ | simpl; contradiction ].
  destruct (AcceptableInputs env _); cbn [negb]; [ | discriminate ].
  destruct (bool_decide_reflect (mBurnAddresses env <> ∅)) as [Hb | Hb]; cbn [andb].
  - destruct (mBurnAddresses env !! _) as [burnt |].
    + destruct (Z.ltb_spec burnt (chainActive_Height env)); [ discriminate | ].
      intros _. repeat split; try assumption; try lia. intros b [= <-]. lia.
    + intros _. repeat split; try assumption; try lia; discriminate.
  - intros _. repeat split; try assumption; try lia. intros b Hl.
    exfalso. apply Hb. intros E. rewrite E, lookup_empty in Hl. discriminate.
Qed.

Lemma Check_enables_only_if_witness :
  let mn := record_in MASTERNODE_PRE_ENABLED 1000 (ping_at 1900) in
  ShutdownRequested env_S2 = false /\
  IsPingedWithin env_S2 mn MASTERNODE_REMOVAL_SECONDS (GetAdjustedTime env_S2) = true /\
  IsPingedWithin env_S2 mn MASTERNODE_EXPIRATION_SECONDS (GetAdjustedTime env_S2) = true /\
  MASTERNODE_MIN_MNP_SECONDS <= sub64 (mnp_sigTime (lastPing mn)) (sigTime mn) /\
  (unitTest mn = false ->
   TRY_LOCK_cs_main env_S2 = true /\
   AcceptableInputs env_S2 (collateral_spend_tx env_S2 mn) = true /\
   forall burnt, mBurnAddresses env_S2 !! EncodeDestination env_S2 (pubKeyCollateralAddress mn)
                 = Some burnt -> chainActive_Height env_S2 <= burnt).
Proof.
  apply (Check_enables_only_if env_S2 true
           (record_in MASTERNODE_PRE_ENABLED 1000 (ping_at 1900))).
  - discriminate.
  - reflexivity.
Defined.

(** *** Heartbeats *)

Lemma vMasternodes_store k mn st :
  vMasternodes (store k mn st) = <[k := mn]> (vMasternodes st).
Proof. reflexivity. Qed.

Lemma vMasternodes_emit e st : vMasternodes (emit e st) = vMasternodes st.
Proof. reflexivity. Qed.

Lemma events_emit e st : events (emit e st) = events st ++ [e].
Proof. reflexivity. Qed.

Lemma events_store k mn st : events (store k mn st) = events st.
Proof. reflexivity. Qed.

Lemma ping_misbehavior_scores_aux env this nDos fRequireEnabled fCheckSigTimeOnly st :
  let r := CMasternodePing_CheckAndUpdate env this nDos fRequireEnabled
             fCheckSigTimeOnly st in
  (snd (fst r) = nDos \/ (fst (fst r) = false /\ (snd (fst r) = 1 \/ snd (fst r) = 33))) /\
  (fst (fst r) = true -> snd (fst r) = nDos).
Proof.
  cbv zeta. unfold CMasternodePing_CheckAndUpdate.
  repeat case_match; cbn [fst snd]; split; auto; try discriminate.
Qed.

(** X13: [CMasternodePing::CheckAndUpdate] leaves [nDos] as it was or,
    when it rejects, sets it to 1 or to 33; it never changes it when it
    accepts. *)
Theorem ping_misbehavior_scores env this nDos fRequireEnabled fCheckSigTimeOnly st :
  let r := CMasternodePing_CheckAndUpdate env this nDos fRequireEnabled
             fCheckSigTimeOnly st in
  (snd (fst r) = nDos \/ (fst (fst r) = false /\ (snd (fst r) = 1 \/ snd (fst r) = 33))) /\
  (fst (fst r) = true -> snd (fst r) = nDos).
Proof. apply ping_misbehavior_scores_aux. Qed.

(** X14: a heartbeat signed within the hour around the adjusted time,
    for an outpoint the registry does not hold, changes nothing: it is
    rejected by the full check and let through when only the time of
    signature is checked. *)
Theorem ping_for_unknown_masternode env this nDos fRequireEnabled fCheckSigTimeOnly st :
  sub64 (GetAdjustedTime env) (60 * 60) < mnp_sigTime this
    <= add64 (GetAdjustedTime env) (60 * 60) ->
  Find st (mnp_vin this) = None ->
  CMasternodePing_CheckAndUpdate env this nDos fRequireEnabled fCheckSigTimeOnly st
    = (fCheckSigTimeOnly, nDos, st).
Proof.
  intros Hw Hf. unfold CMasternodePing_CheckAndUpdate. rewrite Hf.
  destruct (Z.gtb_spec (mnp_sigTime this) (add64 (GetAdjustedTime env) (60 * 60))); [ lia | ].
  destruct (Z.leb_spec (mnp_sigTime this) (sub64 (GetAdjustedTime env) (60 * 60))); [ lia | ].
  cbv zeta. rewrite bool_decide_false by (intros [x Hx]; discriminate).
  destruct fCheckSigTimeOnly; reflexivity.
Qed.

Lemma ping_for_unknown_masternode_witness :
  CMasternodePing_CheckAndUpdate env_S2 (ping_at 1900) 0 true false empty_state
    = (false, 0, empty_state).
Proof.
  apply (ping_for_unknown_masternode env_S2 (ping_at 1900) 0 true false empty_state).
  - vm_compute. split; [ reflexivity | discriminate ].
  - reflexivity.
Defined.

(** What a heartbeat does to the state when it does anything. *)
Lemma ping_effect env this nDos fRequireEnabled fCheckSigTimeOnly st :
  let r := CMasternodePing_CheckAndUpdate env this nDos fRequireEnabled
             fCheckSigTimeOnly st in
  (snd r = st /\ (fCheckSigTimeOnly = false -> fst (fst r) = false)) \/
  (fCheckSigTimeOnly = false /\
   exists mn mi,
     ping_reaches_update env this fRequireEnabled st mn mi /\
     let mn' := CMasternode_Check env true (set_lastPing this mn) in
     vMasternodes (snd r) = <[prevout (mnp_vin this) := mn']> (vMasternodes st) /\
     mapSeenMasternodePing (snd r) = mapSeenMasternodePing st /\
     mapSeenSyncMNB (snd r) = mapSeenSyncMNB st /\
     fst (fst r) = IsEnabled mn' /\
     events (snd r) =
       if IsEnabled mn'
       then events st ++ [RelayInv_MASTERNODE_PING (CMasternodePing_GetHash env this)]
       else events st).
Proof.
  cbv zeta. unfold CMasternodePing_CheckAndUpdate, ping_reaches_update. cbv zeta.
  destruct (Z.gtb_spec (mnp_sigTime this) (add64 (GetAdjustedTime env) (60 * 60)));
    [ left; split; reflexivity | ].
  destruct (Z.leb_spec (mnp_sigTime this) (sub64 (GetAdjustedTime env) (60 * 60)));
    [ left; split; reflexivity | ].
  destruct fCheckSigTimeOnly.
  { left. destruct (_ && _); split; (reflexivity || discriminate). }
  destruct (Find st (mnp_vin this)) as [mn |] eqn:Hf; [ | left; split; reflexivity ].
  destruct (Z.geb_spec (protocolVersion mn) (ActiveProtocol env));
    [ | left; split; reflexivity ].
  destruct (fRequireEnabled && negb (IsEnabled mn)) eqn:Hreq; [ left; split; reflexivity | ].
  destruct (IsPingedWithin env mn _ _) eqn:Hip; cbn [negb]; [ left; split; reflexivity | ].
  destruct (mnp_CheckSignature env this _) eqn:Hsig; cbn [negb];
    [ | left; split; reflexivity ].
  destruct (mapBlockIndex env _) as [mi |] eqn:Hmi; [ | left; split; reflexivity ].
  destruct (chainActive_Contains env mi) eqn:Hin; cbn [negb orb];
    [ | left; split; reflexivity ].
  destruct (Z.gtb_spec (sub32 (chainActive_Height env) (nHeight mi)) 24);
    [ left; split; reflexivity | ].
  right. split; [ reflexivity | ]. exists mn, mi. split.
  { repeat split; try assumption; try lia.
    intros ->. simpl in Hreq. now destruct (IsEnabled mn). }
  cbv zeta. set (mn' := CMasternode_Check env true (set_lastPing this mn)).
  destruct (mapSeenMasternodeBroadcast _ !! _);
    destruct (IsEnabled mn'); cbn [negb fst snd];
    repeat split; simpl; rewrite ?insert_insert_eq; reflexivity.
Qed.

(** X15: a full check of a heartbeat that changes the state or accepts
    has passed every check up to the assignment of [lastPing]: the record of
    its outpoint then holds the heartbeat and the outcome of a forced
    [Check], the result is whether that record is enabled, and the heartbeat
    is relayed exactly in that case. *)
Theorem ping_acts_only_through_update env this nDos fRequireEnabled st :
  let r := CMasternodePing_CheckAndUpdate env this nDos fRequireEnabled false st in
  snd r <> st \/ fst (fst r) = true ->
  exists mn mi,
    ping_reaches_update env this fRequireEnabled st mn mi /\
    let mn' := CMasternode_Check env true (set_lastPing this mn) in
    Find (snd r) (mnp_vin this) = Some mn' /\
    lastPing mn' = this /\
    fst (fst r) = IsEnabled mn' /\
    events (snd r) =
      if IsEnabled mn'
      then events st ++ [RelayInv_MASTERNODE_PING (CMasternodePing_GetHash env this)]
      else events st.
Proof.
  cbv zeta. intros H.
  destruct (ping_effect env this nDos fRequireEnabled false st) as [[Hst Hf] | (_ & Hr)].
  - exfalso. destruct H as [H | H]; [ contradiction | ].
    rewrite Hf in H by reflexivity. discriminate.
  - destruct Hr as (mn & mi & Hreach & Hreg & _ & _ & Hres & Hev).
    exists mn, mi. split; [ exact Hreach | ]. cbv zeta.
    repeat split; try assumption.
    + unfold Find. rewrite Hreg. apply lookup_insert_eq.
    + rewrite MasternodeFacts.Check_lastPing. now destruct mn.
Qed.

Lemma ping_acts_only_through_update_witness :
  let mn := record_in MASTERNODE_ENABLED 1000 null_ping in
  let r := CMasternodePing_CheckAndUpdate env_S2 (ping_at 1900) 0 true false
             (state_with mn) in
  exists mn0 mi,
    ping_reaches_update env_S2 (ping_at 1900) true (state_with mn) mn0 mi /\
    let mn' := CMasternode_Check env_S2 true (set_lastPing (ping_at 1900) mn0) in
    Find (snd r) (mnp_vin (ping_at 1900)) = Some mn' /\
    lastPing mn' = ping_at 1900 /\
    fst (fst r) = IsEnabled mn' /\
    events (snd r) =
      if IsEnabled mn'
      then events (state_with mn)
             ++ [RelayInv_MASTERNODE_PING (CMasternodePing_GetHash env_S2 (ping_at 1900))]
      else events (state_with mn).
Proof.
  apply (ping_acts_only_through_update env_S2 (ping_at 1900) 0 true
           (state_with (record_in MASTERNODE_ENABLED 1000 null_ping))).
  right. reflexivity.
Defined.

(** *** The registry under heartbeats and announcements *)

Lemma registry_related_refl (R : CMasternode -> CMasternode -> Prop) st :
  (forall mn, R mn mn) -> registry_related R st st.
Proof. intros HR k. destruct (vMasternodes st !! k); eauto. Qed.

Lemma registry_related_trans (R : CMasternode -> CMasternode -> Prop) st1 st2 st3 :
  (forall a b c, R a b -> R b c -> R a c) ->
  registry_related R st1 st2 -> registry_related R st2 st3 -> registry_related R st1 st3.
Proof.
  intros HR H12 H23 k. specialize (H12 k). specialize (H23 k).
  destruct (vMasternodes st1 !! k) as [a |].
  - destruct H12 as (b & Hb & Hab). rewrite Hb in H23.
    destruct H23 as (c & Hc & Hbc). eauto.
  - now rewrite H12 in H23.
Qed.

Lemma registry_related_weaken (R R' : CMasternode -> CMasternode -> Prop) st st' :
  (forall a b, R a b -> R' a b) -> registry_related R st st' -> registry_related R' st st'.
Proof.
  intros HR H k. specialize (H k). destruct (vMasternodes st !! k); [ | exact H ].
  destruct H as (b & Hb & Hab). eauto.
Qed.

(** Storing over a record a record related to it. *)
Lemma registry_related_store (R : CMasternode -> CMasternode -> Prop) st k mn mn' :
  (forall a, R a a) ->
  vMasternodes st !! k = Some mn -> R mn mn' -> registry_related R st (store k mn' st).
Proof.
  intros HR Hk Hmn k'. rewrite vMasternodes_store.
  destruct (decide (k = k')) as [<- | Hne].
  - rewrite Hk, lookup_insert_eq. eauto.
  - rewrite lookup_insert_ne by assumption. destruct (vMasternodes st !! k'); eauto.
Qed.

Lemma registry_related_same_registry (R : CMasternode -> CMasternode -> Prop) st st' st'' :
  vMasternodes st'' = vMasternodes st' ->
  registry_related R st st' -> registry_related R st st''.
Proof. intros E H k. rewrite E. apply H. Qed.

Lemma registry_related_wf st st' :
  registry_related same_vin_later st st' -> registry_wf st -> registry_wf st'.
Proof.
  intros H Hwf k mn' Hk. specialize (H k).
  destruct (vMasternodes st !! k) as [mn |] eqn:Hmn.
  - destruct H as (mn'' & Hk' & [Hvin _]). rewrite Hk in Hk'. injection Hk' as <-.
    rewrite Hvin. eapply Hwf, Hmn.
  - rewrite H in Hk. discriminate.
Qed.

Lemma ping_registry env this nDos fRequireEnabled fCheckSigTimeOnly st :
  let st' := snd (CMasternodePing_CheckAndUpdate env this nDos fRequireEnabled
                    fCheckSigTimeOnly st) in
  registry_related only_status st st' /\
  (forall k, k <> prevout (mnp_vin this) -> vMasternodes st' !! k = vMasternodes st !! k).
Proof.
  cbv zeta.
  destruct (ping_effect env this nDos fRequireEnabled fCheckSigTimeOnly st)
    as [[-> _] | (_ & mn & mi & Hreach & Hreg & _)].
  - split; [ apply registry_related_refl, only_status_refl | reflexivity ].
  - destruct Hreach as (_ & Hfind & _). cbv zeta in Hreg. split.
    + eapply registry_related_same_registry;
        [ | eapply (registry_related_store only_status st _ mn);
            [ apply only_status_refl | exact Hfind | ] ].
      * rewrite vMasternodes_store. exact Hreg.
      * eapply only_status_trans;
          [ apply only_status_set_lastPing | apply Check_only_status ].
    + intros k Hk. rewrite Hreg. apply lookup_insert_ne. congruence.
Qed.

(** X16: [CMasternodePing::CheckAndUpdate] adds and removes no record;
    it changes at most [lastPing], [activeState] and [lastTimeChecked], of
    the record of its own outpoint only, and keeps every record under its own
    outpoint. *)
Theorem ping_keeps_registry env this nDos fRequireEnabled fCheckSigTimeOnly st :
  let st' := snd (CMasternodePing_CheckAndUpdate env this nDos fRequireEnabled
                    fCheckSigTimeOnly st) in
  registry_related only_status st st' /\
  (forall k, k <> prevout (mnp_vin this) -> vMasternodes st' !! k = vMasternodes st !! k) /\
  (registry_wf st -> registry_wf st').
Proof.
  cbv zeta.
  destruct (ping_registry env this nDos fRequireEnabled fCheckSigTimeOnly st) as [H1 H2].
  split; [ exact H1 | split; [ exact H2 | ] ].
  apply registry_related_wf.
  eapply registry_related_weaken; [ apply only_status_same_vin_later | exact H1 ].
Qed.

Lemma refreshed_same_vin_later pmn mnb :
  sigTime pmn < sigTime mnb -> same_vin_later pmn (refreshed_from pmn mnb).
Proof. intros H. split; simpl; [ reflexivity | lia ]. Qed.

(** [UpdateFromNewBroadcast] through the entry [k] of [pmn]: the entry holds
    the refreshed record, up to its status; the other entries change in
    status at most. *)
Lemma UpdateFromNewBroadcast_effect env k pmn mnb st :
  vMasternodes st !! k = Some pmn ->
  sigTime pmn < sigTime mnb ->
  let r := UpdateFromNewBroadcast env k pmn mnb st in
  fst r = true /\
  (exists mn', vMasternodes (snd r) !! k = Some mn' /\
               only_status (refreshed_from pmn mnb) mn') /\
  (forall k', k' <> k ->
     match vMasternodes st !! k' with
     | Some mn => exists mn', vMasternodes (snd r) !! k' = Some mn' /\ only_status mn mn'
     | None => vMasternodes (snd r) !! k' = None
     end) /\
  forall e, In e (events (snd r)) -> In e (events st) \/ exists h, e = RelayInv_MASTERNODE_PING h.
Proof.
  intros Hk Hlt. cbv zeta. unfold UpdateFromNewBroadcast.
  destruct (Z.gtb_spec (sigTime mnb) (sigTime pmn)); [ | lia ]. cbv zeta.
  fold (refreshed_from pmn mnb).
  set (st1 := store k (refreshed_from pmn mnb) st).
  assert (Hk1 : vMasternodes st1 !! k = Some (refreshed_from pmn mnb))
    by (subst st1; rewrite vMasternodes_store; apply lookup_insert_eq).
  assert (Hother1 : forall k', k' <> k -> vMasternodes st1 !! k' = vMasternodes st !! k').
  { intros k' Hne. subst st1. rewrite vMasternodes_store.
    apply lookup_insert_ne. congruence. }
  destruct (mnp_IsNull env (lastPing mnb)).
  - cbn [fst snd]. rewrite Hk1. cbn [default]. simpl.
    split; [ reflexivity | split; [ | split ] ].
    + rewrite lookup_insert_eq. eexists. split; [ reflexivity | ].
      apply only_status_set_lastPing.
    + intros k' Hne. rewrite lookup_insert_ne by congruence.
      fold (vMasternodes st1 !! k'). rewrite Hother1 by assumption.
      destruct (vMasternodes st !! k') as [mn |]; [ | reflexivity ].
      exists mn. split; [ reflexivity | apply only_status_refl ].
    + intros e He. left. exact He.
  - pose proof (ping_registry env (lastPing mnb) 0 false false st1) as [Hrel _].
    pose proof (ping_effect env (lastPing mnb) 0 false false st1) as Hev.
    cbv zeta in Hrel, Hev.
    destruct (CMasternodePing_CheckAndUpdate env (lastPing mnb) 0 false false st1)
      as [[ok d] st2].
    cbn [fst snd] in Hrel, Hev.
    assert (Hevents : forall e, In e (events st2) ->
              In e (events st) \/ exists h, e = RelayInv_MASTERNODE_PING h).
    { destruct Hev as [[-> _] | (_ & mn & mi & _ & _ & _ & _ & _ & Hev)].
      - intros e He. left. exact He.
      - rewrite Hev. destruct (IsEnabled _); intros e He; [ | left; exact He ].
        apply in_app_or in He as [He | [<- | []]]; [ left; exact He | right; eauto ]. }
    pose proof (Hrel k) as Hrk. rewrite Hk1 in Hrk. destruct Hrk as (mn2 & Hk2 & Hs2).
    assert (Hother2 : forall k', k' <> k ->
              match vMasternodes st !! k' with
              | Some mn => exists mn', vMasternodes st2 !! k' = Some mn' /\ only_status mn mn'
              | None => vMasternodes st2 !! k' = None
              end).
    { intros k' Hne. specialize (Hrel k'). rewrite Hother1 in Hrel by assumption.
      exact Hrel. }
    destruct ok; cbn [fst snd].
    + rewrite Hk2. cbn [default]. simpl.
      split; [ reflexivity | split; [ | split; [ | exact Hevents ] ] ].
      * rewrite lookup_insert_eq. eexists. split; [ reflexivity | ].
        eapply only_status_trans; [ exact Hs2 | apply only_status_set_lastPing ].
      * intros k' Hne. rewrite lookup_insert_ne by congruence. apply Hother2, Hne.
    + split; [ reflexivity | split; [ eauto | split; [ exact Hother2 | exact Hevents ] ] ].
Qed.

(** The two ways of [CMasternodeBroadcast::CheckAndUpdate]: it leaves the
    state as it is, or it refreshes the record of its outpoint. *)
Ltac close_here :=
  first [ lia | discriminate | contradiction | congruence | reflexivity
        | simplify_eq; first [ lia | congruence | contradiction ] ].

Ltac reject_here :=
  left; cbn [fst snd];
  split; [ let H := fresh in intros ? H; decompose [and] H; clear H; close_here | ];
  split; [ reflexivity | ];
  split; [ auto 8 | ];
  let H := fresh in intros H ?; decompose [and] H; clear H; close_here.

Lemma announcement_walk env this nDos st :
  let r := CMasternodeBroadcast_CheckAndUpdate env this nDos st in
  let k := prevout (vin this) in
  ((forall pmn, ~ refresh_applies env this nDos st pmn) /\
   snd r = st /\
   (snd (fst r) = nDos \/
    (fst (fst r) = false /\
     (snd (fst r) = 0 \/ snd (fst r) = 1 \/ snd (fst r) = 33 \/ snd (fst r) = 100))) /\
   (passes_checks_before_lookup env this nDos st -> Find st (vin this) = None ->
    r = (true, nDos, st))) \/
  (exists pmn,
     refresh_applies env this nDos st pmn /\
     fst (fst r) = true /\ snd (fst r) = nDos /\
     (exists mn', vMasternodes (snd r) !! k = Some mn' /\
                  only_status (refreshed_from pmn this) mn') /\
     (forall k', k' <> k ->
        match vMasternodes st !! k' with
        | Some mn => exists mn', vMasternodes (snd r) !! k' = Some mn' /\ only_status mn mn'
        | None => vMasternodes (snd r) !! k' = None
        end) /\
     (exists evs, events (snd r)
                  = evs ++ [AddedMasternodeList (CMasternodeBroadcast_GetHash env this)]) /\
     (forall e, In e (events (snd r)) ->
        In e (events st) \/ (exists h, e = RelayInv_MASTERNODE_PING h) \/
        e = RelayInv_MASTERNODE_ANNOUNCE (CMasternodeBroadcast_GetHash env this) \/
        e = AddedMasternodeList (CMasternodeBroadcast_GetHash env this))).
Proof.
  cbv zeta. unfold CMasternodeBroadcast_CheckAndUpdate, refresh_applies,
    passes_checks_before_lookup. cbv zeta.
  destruct (Z.gtb_spec (sigTime this) (add64 (GetAdjustedTime env) (60 * 60)));
    [ reject_here | ].
  destruct (mnp_IsNull env (lastPing this)); [ reject_here | ].
  pose proof (MasternodeFacts.ping_sigTimeOnly env (lastPing this) nDos false st) as [Hst Hd].
  pose proof (ping_misbehavior_scores_aux env (lastPing this) nDos false true st) as Hsc.
  destruct (CMasternodePing_CheckAndUpdate env (lastPing this) nDos false true st)
    as [[ok d] st1].
  cbn [fst snd] in Hst, Hd, Hsc |- *. subst st1.
  destruct ok; cbn [negb];
    [ | destruct Hsc as [[-> | [_ [-> | ->]]] _]; reject_here ].
  rewrite Hd by reflexivity.
  destruct (Z.ltb_spec (protocolVersion this) (ActiveProtocol env)); [ reject_here | ].
  destruct (Z.eqb_spec (P2PKH_script_size env (pubKeyCollateralAddress this)) 25);
    cbn [negb]; [ | reject_here ].
  destruct (Z.eqb_spec (P2PKH_script_size env (pubKeyMasternode this)) 25);
    cbn [negb]; [ | reject_here ].
  destruct (bool_decide_reflect (scriptSig (vin this) = EmptyString));
    cbn [negb]; [ | reject_here ].
  destruct (CheckSignature env this); cbn [negb];
    [ | destruct (_ <=? _); reject_here ].
  destruct (Z.eqb_spec (service_port (addr this)) (GetDefaultPort env));
    cbn [negb]; [ | reject_here ].
  destruct (Find st (vin this)) as [pmn |] eqn:Hfind; [ | reject_here ].
  destruct (Z.geb_spec (sigTime pmn) (sigTime this)); [ reject_here | ].
  destruct (IsEnabled pmn) eqn:Hen; cbn [negb]; [ | reject_here ].
  destruct (bool_decide_reflect (pubKeyCollateralAddress pmn = pubKeyCollateralAddress this));
    cbn [andb]; [ | reject_here ].
  destruct (IsBroadcastedWithin env pmn MASTERNODE_MIN_MNB_SECONDS) eqn:Hbw;
    cbn [negb]; [ reject_here | ].
  right. exists pmn.
  split. { repeat split; try assumption; try lia. }
  unfold Find in Hfind.
  destruct (UpdateFromNewBroadcast_effect env (prevout (vin this)) pmn this st Hfind)
    as (Hup & (mn1 & Hk1 & Hs1) & Hother & Hev); [ lia | ].
  destruct (UpdateFromNewBroadcast env (prevout (vin this)) pmn this st) as [updated st2].
  cbn [fst snd] in Hup, Hk1, Hother, Hev |- *. subst updated.
  rewrite Hk1. change (default pmn (Some mn1)) with mn1.
  split; [ reflexivity | split; [ reflexivity | ] ].
  set (mn2 := CMasternode_Check env false mn1).
  assert (Hs2 : only_status (refreshed_from pmn this) mn2)
    by (eapply only_status_trans; [ exact Hs1 | apply Check_only_status ]).
  unfold CMasternodeBroadcast_Relay.
  destruct (IsEnabled mn2);
    rewrite ?vMasternodes_emit, ?vMasternodes_store, ?events_emit, ?events_store.
  - split; [ rewrite lookup_insert_eq; eauto | ].
    split; [ intros k' Hne; rewrite lookup_insert_ne by congruence; apply Hother, Hne | ].
    split; [ eauto | ].
    intros ev He. apply in_app_or in He as [He | [<- | []]]; [ | auto ].
    apply in_app_or in He as [He | [<- | []]]; [ | auto ].
    destruct (Hev ev He) as [? | ?]; auto.
  - split; [ rewrite lookup_insert_eq; eauto | ].
    split; [ intros k' Hne; rewrite lookup_insert_ne by congruence; apply Hother, Hne | ].
    split; [ eauto | ].
    intros ev He. apply in_app_or in He as [He | [<- | []]]; [ | auto ].
    destruct (Hev ev He) as [? | ?]; auto.
Qed.

(** X17: [CMasternodeBroadcast::CheckAndUpdate] leaves [nDos] as it was
    or, when it rejects, sets it to 0, 1, 33 or 100; it never changes it when
    it accepts. *)
Theorem announcement_misbehavior_scores env this nDos st :
  let r := CMasternodeBroadcast_CheckAndUpdate env this nDos st in
  (snd (fst r) = nDos \/
   (fst (fst r) = false /\
    (snd (fst r) = 0 \/ snd (fst r) = 1 \/ snd (fst r) = 33 \/ snd (fst r) = 100))) /\
  (fst (fst r) = true -> snd (fst r) = nDos).
Proof.
  cbv zeta.
  destruct (announcement_walk env this nDos st)
    as [(_ & _ & Hsc & _) | (pmn & _ & Hok & Hd & _)].
  - split; [ exact Hsc | ]. intros Ht. destruct Hsc as [? | [Hf _]]; congruence.
  - split; [ left; exact Hd | intros _; exact Hd ].
Qed.

(** X18: [CMasternodeBroadcast::CheckAndUpdate] adds and removes no
    record; every record keeps its collateral input and its time of
    signature never goes back; every record stays under its own outpoint. *)
Theorem announcement_keeps_registry env this nDos st :
  let st' := snd (CMasternodeBroadcast_CheckAndUpdate env this nDos st) in
  registry_related same_vin_later st st' /\
  (registry_wf st -> registry_wf st').
Proof.
  cbv zeta.
  assert (H : registry_related same_vin_later st
                (snd (CMasternodeBroadcast_CheckAndUpdate env this nDos st))).
  { destruct (announcement_walk env this nDos st)
      as [(_ & -> & _) | (pmn & Happ & _ & _ & (mn' & Hk & Hs) & Hother & _)].
    - apply registry_related_refl. intros mn. split; [ reflexivity | lia ].
    - destruct Happ as (_ & Hfind & Hlt & _). unfold Find in Hfind.
      intros k. destruct (decide (k = prevout (vin this))) as [-> | Hne].
      + rewrite Hfind. exists mn'. split; [ exact Hk | ].
        eapply same_vin_later_trans;
          [ apply refreshed_same_vin_later, Hlt | apply only_status_same_vin_later, Hs ].
      + specialize (Hother k Hne). destruct (vMasternodes st !! k); [ | exact Hother ].
        destruct Hother as (mn'' & ? & ?). exists mn''.
        split; [ assumption | now apply only_status_same_vin_later ]. }
  split; [ exact H | apply registry_related_wf, H ].
Qed.

(** X19: an announcement that passes the checks before the lookup, for
    an outpoint the registry does not hold, is accepted by [CheckAndUpdate]
    with the state and [nDos] unchanged: adding the record is left to
    [CheckInputsAndAdd]. *)
Theorem announcement_without_record env this nDos st :
  passes_checks_before_lookup env this nDos st ->
  Find st (vin this) = None ->
  CMasternodeBroadcast_CheckAndUpdate env this nDos st = (true, nDos, st).
Proof.
  intros Hp Hf.
  destruct (announcement_walk env this nDos st)
    as [(_ & _ & _ & H) | (pmn & (_ & Hfind & _) & _)].
  - apply H; assumption.
  - rewrite Hf in Hfind. discriminate.
Qed.

Lemma A1_passes_checks_before_lookup :
  passes_checks_before_lookup env_S2 A1 0 empty_state.
Proof. unfold passes_checks_before_lookup. repeat split; vm_compute; discriminate. Defined.

Lemma announcement_without_record_witness :
  CMasternodeBroadcast_CheckAndUpdate env_S2 A1 0 empty_state = (true, 0, empty_state).
Proof.
  apply (announcement_without_record env_S2 A1 0 empty_state).
  - exact A1_passes_checks_before_lookup.
  - reflexivity.
Defined.

(** X20: an announcement that passes the checks and meets an enabled,
    older record of the same collateral key that was not announced in the
    last five minutes is accepted; the record takes the keys, the time of
    signature, the signature, the protocol and the address of the
    announcement and keeps its collateral input, and the last event is the
    notification of the announcement. *)
Theorem announcement_refreshes_record env this nDos st pmn :
  refresh_applies env this nDos st pmn ->
  let r := CMasternodeBroadcast_CheckAndUpdate env this nDos st in
  fst (fst r) = true /\ snd (fst r) = nDos /\
  (exists mn',
     Find (snd r) (vin this) = Some mn' /\
     only_status (refreshed_from pmn this) mn' /\
     vin mn' = vin pmn /\
     sigTime mn' = sigTime this /\
     pubKeyCollateralAddress mn' = pubKeyCollateralAddress this /\
     pubKeyMasternode mn' = pubKeyMasternode this /\
     vchSig mn' = vchSig this /\
     protocolVersion mn' = protocolVersion this /\
     addr mn' = addr this) /\
  (exists evs, events (snd r)
               = evs ++ [AddedMasternodeList (CMasternodeBroadcast_GetHash env this)]).
Proof.
  intros Happ. cbv zeta.
  destruct (announcement_walk env this nDos st)
    as [(Hno & _) | (pmn' & Happ' & Hok & Hd & (mn' & Hk & Hs) & _ & Hev & _)].
  - exfalso. exact (Hno pmn Happ).
  - assert (pmn' = pmn) as ->.
    { destruct Happ as (_ & H1 & _), Happ' as (_ & H2 & _). congruence. }
    split; [ exact Hok | split; [ exact Hd | split; [ | exact Hev ] ] ].
    exists mn'. split; [ exact Hk | split; [ exact Hs | ] ].
    destruct Hs as (p & s & t & ->). repeat split.
Qed.

Lemma B2_refresh_applies : refresh_applies env_S2 B2 0 state_spent enabled2.
Proof.
  unfold refresh_applies, passes_checks_before_lookup.
  repeat split; vm_compute; discriminate.
Defined.

Lemma announcement_refreshes_record_witness :
  let r := CMasternodeBroadcast_CheckAndUpdate env_S2 B2 0 state_spent in
  fst (fst r) = true /\ snd (fst r) = 0 /\
  (exists mn',
     Find (snd r) (vin B2) = Some mn' /\
     only_status (refreshed_from enabled2 B2) mn' /\
     vin mn' = vin enabled2 /\
     sigTime mn' = sigTime B2 /\
     pubKeyCollateralAddress mn' = pubKeyCollateralAddress B2 /\
     pubKeyMasternode mn' = pubKeyMasternode B2 /\
     vchSig mn' = vchSig B2 /\
     protocolVersion mn' = protocolVersion B2 /\
     addr mn' = addr B2) /\
  (exists evs, events (snd r)
               = evs ++ [AddedMasternodeList (CMasternodeBroadcast_GetHash env_S2 B2)]).
Proof.
  apply (announcement_refreshes_record env_S2 B2 0 state_spent enabled2).
  exact B2_refresh_applies.
Defined.

(** *** [CheckInputsAndAdd] *)

(** What [CheckInputsAndAdd] does to the state, whatever it returns. *)
Lemma CheckInputsAndAdd_effect env this nDoS st r :
  CheckInputsAndAdd env this nDoS st = Some r ->
  let k := prevout (vin this) in
  let tx := collateral_spend_tx env this in
  (registry_wf st ->
   (fst (fst r) = false /\ vMasternodes (snd r) = vMasternodes st) \/
   (fst (fst r) = false /\ vMasternodes (snd r) = delete k (vMasternodes st)) \/
   (fst (fst r) = true /\ vMasternodes (snd r) = vMasternodes st) \/
   (fst (fst r) = true /\
    vMasternodes (snd r) = <[k := CMasternode_copy this]> (vMasternodes st))) /\
  mapSeenMasternodePing (snd r) = mapSeenMasternodePing st /\
  (fst (fst r) = false ->
   events (snd r) = events st /\
   (snd (fst r) = nDoS \/ snd (fst r) = 1 \/ snd (fst r) = 33 \/
    state_IsInvalid env tx = Some (snd (fst r)))) /\
  (fst (fst r) = true -> snd (fst r) = nDoS).
Proof.
  unfold CheckInputsAndAdd. cbv zeta.
  destruct (fMasterNode env && _).
  { intros [= <-]. cbn [fst snd]. repeat split; auto; discriminate. }
  destruct (mnp_IsNull env (lastPing this)).
  { intros [= <-]. cbn [fst snd]. repeat split; auto; discriminate. }
  pose proof (MasternodeFacts.ping_sigTimeOnly env (lastPing this) nDoS false st) as [Hst Hd].
  pose proof (ping_misbehavior_scores_aux env (lastPing this) nDoS false true st) as [Hsc _].
  destruct (CMasternodePing_CheckAndUpdate env (lastPing this) nDoS false true st)
    as [[ok d] st1].
  cbn [fst snd] in Hst, Hd, Hsc. subst st1.
  destruct ok; cbn [negb].
  2:{ intros [= <-]. cbn [fst snd]. repeat split; auto; try discriminate.
      destruct Hsc as [-> | [_ [-> | ->]]]; auto. }
  rewrite Hd by reflexivity. clear Hsc Hd.
  set (st2 := match Find st (vin this) with
              | Some mn => Remove (vin mn) st
              | None => st
              end).
  destruct (match Find st (vin this) with Some mn => IsEnabled mn | None => false end)
    eqn:Hen.
  { intros [= <-]. cbn [fst snd]. repeat split; auto; discriminate. }
  assert (Hreg2 : registry_wf st ->
            vMasternodes st2 = delete (prevout (vin this)) (vMasternodes st)).
  { intros Hwf. subst st2. unfold Find in *.
    destruct (vMasternodes st !! prevout (vin this)) as [mn |] eqn:Hf.
    - unfold Remove. simpl. now rewrite (Hwf _ _ Hf).
    - symmetry. apply delete_id, Hf. }
  assert (Hev2 : events st2 = events st)
    by (subst st2; destruct (Find st (vin this)); reflexivity).
  assert (Hping2 : mapSeenMasternodePing st2 = mapSeenMasternodePing st)
    by (subst st2; destruct (Find st (vin this)); reflexivity).
  clearbody st2. clear Hen.
  assert (Hadd : registry_wf st ->
            vMasternodes (Add (CMasternode_copy this) st2)
            = <[prevout (vin this) := CMasternode_copy this]> (vMasternodes st)).
  { intros Hwf. unfold Add. change (vin (CMasternode_copy this)) with (vin this).
    rewrite (Hreg2 Hwf), lookup_delete_eq. simpl.
    apply insert_delete_eq. }
  assert (Hadd_ev : events (Add (CMasternode_copy this) st2) = events st).
  { unfold Add. destruct (vMasternodes st2 !! _); simpl; exact Hev2. }
  assert (Hadd_ping : mapSeenMasternodePing (Add (CMasternode_copy this) st2)
                      = mapSeenMasternodePing st).
  { unfold Add. destruct (vMasternodes st2 !! _); simpl; exact Hping2. }
  assert (Hnew : forall st3 : State,
            vMasternodes st3 = vMasternodes (Add (CMasternode_copy this) st2) ->
            mapSeenMasternodePing st3 = mapSeenMasternodePing
                                          (Add (CMasternode_copy this) st2) ->
            forall r', r' = (true, nDoS, st3) ->
            (registry_wf st ->
             (fst (fst r') = false /\ vMasternodes (snd r') = vMasternodes st) \/
             (fst (fst r') = false /\
              vMasternodes (snd r') = delete (prevout (vin this)) (vMasternodes st)) \/
             (fst (fst r') = true /\ vMasternodes (snd r') = vMasternodes st) \/
             (fst (fst r') = true /\
              vMasternodes (snd r')
              = <[prevout (vin this) := CMasternode_copy this]> (vMasternodes st))) /\
            mapSeenMasternodePing (snd r') = mapSeenMasternodePing st /\
            (fst (fst r') = false ->
             events (snd r') = events st /\
             (snd (fst r') = nDoS \/ snd (fst r') = 1 \/ snd (fst r') = 33 \/
              state_IsInvalid env (collateral_spend_tx env this) = Some (snd (fst r')))) /\
            (fst (fst r') = true -> snd (fst r') = nDoS)).
  { intros st3 E1 E2 r' ->. cbn [fst snd]. rewrite E1, E2, Hadd_ping.
    repeat split; try discriminate. intros Hwf. do 3 right.
    split; [ reflexivity | apply Hadd, Hwf ]. }
  assert (Hrej : forall d' (st3 : State),
            vMasternodes st3 = vMasternodes st2 ->
            mapSeenMasternodePing st3 = mapSeenMasternodePing st2 ->
            events st3 = events st2 ->
            (d' = nDoS \/ d' = 1 \/ d' = 33 \/
             state_IsInvalid env (collateral_spend_tx env this) = Some d') ->
            forall r', r' = (false, d', st3) ->
            (registry_wf st ->
             (fst (fst r') = false /\ vMasternodes (snd r') = vMasternodes st) \/
             (fst (fst r') = false /\
              vMasternodes (snd r') = delete (prevout (vin this)) (vMasternodes st)) \/
             (fst (fst r') = true /\ vMasternodes (snd r') = vMasternodes st) \/
             (fst (fst r') = true /\
              vMasternodes (snd r')
              = <[prevout (vin this) := CMasternode_copy this]> (vMasternodes st))) /\
            mapSeenMasternodePing (snd r') = mapSeenMasternodePing st /\
            (fst (fst r') = false ->
             events (snd r') = events st /\
             (snd (fst r') = nDoS \/ snd (fst r') = 1 \/ snd (fst r') = 33 \/
              state_IsInvalid env (collateral_spend_tx env this) = Some (snd (fst r')))) /\
            (fst (fst r') = true -> snd (fst r') = nDoS)).
  { intros d' st3 E1 E2 E3 Hd' r' ->. cbn [fst snd]. rewrite E1, E2, E3, Hping2, Hev2.
    split; [ | split; [ reflexivity | split; [ intros _; split; [ reflexivity | exact Hd' ]
                                           | discriminate ] ] ].
    intros Hwf. right. left. split; [ reflexivity | apply Hreg2, Hwf ]. }
  destruct (TRY_LOCK_cs_main env); cbn [negb].
  2:{ intros [= <-]. eapply Hrej; [ | | | | reflexivity ]; auto. }
  destruct (AcceptableInputs env _); cbn [negb].
  2:{ intros [= <-]. eapply Hrej; [ | | | | reflexivity ]; auto.
      destruct (state_IsInvalid env _); simpl; auto. }
  destruct (_ <? _).
  { intros [= <-]. eapply Hrej; [ | | | | reflexivity ]; auto. }
  destruct (mapBlockIndex env _) as [pMNIndex |].
  - destruct (chainActive_at env _) as [pConfIndex |]; [ | discriminate ].
    destruct (_ >? _).
    + intros [= <-]. eapply Hrej; [ | | | | reflexivity ]; auto.
    + intros [= <-]. eapply Hnew; [ | | reflexivity ];
        unfold CMasternodeBroadcast_Relay; repeat case_match; reflexivity.
  - intros [= <-]. eapply Hnew; [ | | reflexivity ];
      unfold CMasternodeBroadcast_Relay; repeat case_match; reflexivity.
Qed.

(** X21: [CheckInputsAndAdd] touches the record of the outpoint of the
    announcement only, and keeps every record under its own outpoint; when
    it rejects, the registry is unchanged or holds no record for that
    outpoint. *)
Theorem CheckInputsAndAdd_keeps_other_records env this nDoS st r :
  registry_wf st ->
  CheckInputsAndAdd env this nDoS st = Some r ->
  (forall k, k <> prevout (vin this) -> vMasternodes (snd r) !! k = vMasternodes st !! k) /\
  registry_wf (snd r) /\
  (fst (fst r) = false ->
   vMasternodes (snd r) !! prevout (vin this) = None \/
   vMasternodes (snd r) = vMasternodes st).
Proof.
  intros Hwf Hr.
  destruct (CheckInputsAndAdd_effect env this nDoS st r Hr) as (Hreg & _).
  cbv zeta in Hreg.
  assert (Hsame : vMasternodes (snd r) = vMasternodes st ->
            (forall k, k <> prevout (vin this) ->
                       vMasternodes (snd r) !! k = vMasternodes st !! k) /\
            registry_wf (snd r) /\
            (fst (fst r) = false ->
             vMasternodes (snd r) !! prevout (vin this) = None \/
             vMasternodes (snd r) = vMasternodes st)).
  { intros E. split; [ | split ].
    - intros k _. now rewrite E.
    - intros k mn. rewrite E. apply Hwf.
    - intros _. now right. }
  destruct (Hreg Hwf) as [[Hf E] | [[Hf E] | [[Hf E] | [Hf E]]]];
    try (apply Hsame, E); clear Hsame.
  - split; [ | split ].
    + intros k Hk. rewrite E. apply lookup_delete_ne. congruence.
    + intros k mn. rewrite E. intros Hk.
      apply lookup_delete_Some in Hk as [_ Hk]. eapply Hwf, Hk.
    + intros _. left. rewrite E. apply lookup_delete_eq.
  - split; [ | split ].
    + intros k Hk. rewrite E. apply lookup_insert_ne. congruence.
    + intros k mn. rewrite E. intros Hk.
      apply lookup_insert_Some in Hk as [[<- <-] | [_ Hk]].
      * reflexivity.
      * eapply Hwf, Hk.
    + rewrite Hf. discriminate.
Qed.

Lemma CheckInputsAndAdd_keeps_other_records_witness :
  let st := state_with expired1 in
  let r := (true, 0, state_after_A1) in
  (forall k, k <> prevout (vin A1) -> vMasternodes (snd r) !! k = vMasternodes st !! k) /\
  registry_wf (snd r) /\
  (fst (fst r) = false ->
   vMasternodes (snd r) !! prevout (vin A1) = None \/
   vMasternodes (snd r) = vMasternodes st).
Proof.
  apply (CheckInputsAndAdd_keeps_other_records env_S2 A1 0 (state_with expired1)
           (true, 0, state_after_A1)).
  - apply MasternodeFacts.state_with_wf.
  - reflexivity.
Defined.

(** X22: [CheckInputsAndAdd] never touches the heartbeats seen; when it
    rejects it emits no event, and [nDoS] is as it was, 1 or 33 from the
    heartbeat, or the score of the validation of the collateral; when it
    accepts [nDoS] is as it was. *)
Theorem CheckInputsAndAdd_rejects_silently env this nDoS st r :
  CheckInputsAndAdd env this nDoS st = Some r ->
  mapSeenMasternodePing (snd r) = mapSeenMasternodePing st /\
  (fst (fst r) = false ->
   events (snd r) = events st /\
   (snd (fst r) = nDoS \/ snd (fst r) = 1 \/ snd (fst r) = 33 \/
    state_IsInvalid env (collateral_spend_tx env this) = Some (snd (fst r)))) /\
  (fst (fst r) = true -> snd (fst r) = nDoS).
Proof.
  intros Hr.
  destruct (CheckInputsAndAdd_effect env this nDoS st r Hr) as (_ & H).
  exact H.
Qed.

Lemma CheckInputsAndAdd_rejects_silently_witness :
  let env := toy_env 2000 false false in
  let r := (false, 0, empty_state) in
  mapSeenMasternodePing (snd r) = mapSeenMasternodePing empty_state /\
  (fst (fst r) = false ->
   events (snd r) = events empty_state /\
   (snd (fst r) = 0 \/ snd (fst r) = 1 \/ snd (fst r) = 33 \/
    state_IsInvalid env (collateral_spend_tx env A1) = Some (snd (fst r)))) /\
  (fst (fst r) = true -> snd (fst r) = 0).
Proof.
  apply (CheckInputsAndAdd_rejects_silently (toy_env 2000 false false) A1 0 empty_state
           (false, 0, empty_state)).
  reflexivity.
Defined.

(** X23: when [CheckInputsAndAdd] returns, it accepts exactly when the
    announcement is the one of the local masternode, or its heartbeat is not
    null and passes the check of its time of signature and either the
    registry holds an enabled record for the outpoint or the collateral
    validates. *)
Theorem CheckInputsAndAdd_accepts_iff env this nDoS st r :
  CheckInputsAndAdd env this nDoS st = Some r ->
  fst (fst r) = true <->
  (announces_local_masternode env this = true \/
   (reaches_registry_search env this nDoS st /\
    ((exists mn, Find st (vin this) = Some mn /\ IsEnabled mn = true) \/
     collateral_validates env this))).
Proof.
  unfold CheckInputsAndAdd, reaches_registry_search, announces_local_masternode,
    collateral_validates.
  cbv zeta.
  destruct (fMasterNode env && _).
  { intros [= <-]. cbn [fst snd]. split; auto. }
  destruct (mnp_IsNull env (lastPing this)).
  { intros [= <-]. cbn [fst snd]. split; [ discriminate | ].
    intros [? | [(_ & ? & _) _]]; discriminate. }
  pose proof (MasternodeFacts.ping_sigTimeOnly env (lastPing this) nDoS false st) as [Hst Hd].
  destruct (CMasternodePing_CheckAndUpdate env (lastPing this) nDoS false true st)
    as [[ok d] st1].
  cbn [fst snd] in Hst, Hd |- *. subst st1.
  destruct ok; cbn [negb].
  2:{ intros [= <-]. cbn [fst snd]. split; [ discriminate | ].
      intros [? | [(_ & _ & ?) _]]; discriminate. }
  destruct (Find st (vin this)) as [mn |] eqn:Hfind.
  - destruct (IsEnabled mn) eqn:Hen.
    { intros [= <-]. cbn [fst snd]. split; [ | reflexivity ].
      intros _. right. split; [ auto | ]. left. now exists mn. }
    assert (Hno : ~ exists mn0, Some mn = Some mn0 /\ IsEnabled mn0 = true).
    { intros (mn0 & [= <-] & ?). congruence. }
    revert Hno. generalize (exists mn0, Some mn = Some mn0 /\ IsEnabled mn0 = true).
    generalize (Remove (vin mn) st). intros st2 P Hno.
    destruct (TRY_LOCK_cs_main env); cbn [negb].
    2:{ intros [= <-]. cbn [fst snd]. split; [ discriminate | ].
        intros [? | [_ [? | (? & _)]]]; [ discriminate | tauto | discriminate ]. }
    destruct (AcceptableInputs env _); cbn [negb].
    2:{ intros [= <-]. cbn [fst snd]. split; [ discriminate | ].
        intros [? | [_ [? | (_ & ? & _)]]]; [ discriminate | tauto | discriminate ]. }
    destruct (_ <? _) eqn:Hdepth.
    { intros [= <-]. cbn [fst snd]. split; [ discriminate | ].
      apply Z.ltb_lt in Hdepth.
      intros [? | [_ [? | (_ & _ & ? & _)]]]; [ discriminate | tauto | lia ]. }
    apply Z.ltb_ge in Hdepth.
    destruct (mapBlockIndex env _) as [pMNIndex |].
    + destruct (chainActive_at env _) as [pConfIndex |]; [ | discriminate ].
      destruct (_ >? _) eqn:Ht.
      * intros [= <-]. cbn [fst snd]. split; [ discriminate | ].
        apply Z.gtb_lt in Ht.
        intros [? | [_ [? | (_ & _ & _ & c & [= <-] & ?)]]];
          [ discriminate | tauto | lia ].
      * intros [= <-]. cbn [fst snd]. split; [ | reflexivity ].
        intros _. right. split; [ auto | ]. right. repeat split; try assumption.
        exists pConfIndex. split; [ reflexivity | ].
        destruct (Z.gtb_spec (nTime pConfIndex) (sigTime this)); [ discriminate | lia ].
    + intros [= <-]. cbn [fst snd]. split; [ | reflexivity ].
      intros _. right. split; [ auto | ]. right. repeat split; assumption.
  - cbv iota.
    assert (Hno : ~ exists mn0, @None CMasternode = Some mn0 /\ IsEnabled mn0 = true).
    { intros (mn0 & [=] & ?). }
    revert Hno. generalize (exists mn0, @None CMasternode = Some mn0 /\ IsEnabled mn0 = true).
    intros P Hno.
    destruct (TRY_LOCK_cs_main env); cbn [negb].
    2:{ intros [= <-]. cbn [fst snd]. split; [ discriminate | ].
        intros [? | [_ [? | (? & _)]]]; [ discriminate | tauto | discriminate ]. }
    destruct (AcceptableInputs env _); cbn [negb].
    2:{ intros [= <-]. cbn [fst snd]. split; [ discriminate | ].
        intros [? | [_ [? | (_ & ? & _)]]]; [ discriminate | tauto | discriminate ]. }
    destruct (_ <? _) eqn:Hdepth.
    { intros [= <-]. cbn [fst snd]. split; [ discriminate | ].
      apply Z.ltb_lt in Hdepth.
      intros [? | [_ [? | (_ & _ & ? & _)]]]; [ discriminate | tauto | lia ]. }
    apply Z.ltb_ge in Hdepth.
    destruct (mapBlockIndex env _) as [pMNIndex |].
    + destruct (chainActive_at env _) as [pConfIndex |]; [ | discriminate ].
      destruct (_ >? _) eqn:Ht.
      * intros [= <-]. cbn [fst snd]. split; [ discriminate | ].
        apply Z.gtb_lt in Ht.
        intros [? | [_ [? | (_ & _ & _ & c & [= <-] & ?)]]];
          [ discriminate | tauto | lia ].
      * intros [= <-]. cbn [fst snd]. split; [ | reflexivity ].
        intros _. right. split; [ auto | ]. right. repeat split; try assumption.
        exists pConfIndex. split; [ reflexivity | ].
        destruct (Z.gtb_spec (nTime pConfIndex) (sigTime this)); [ discriminate | lia ].
    + intros [= <-]. cbn [fst snd]. split; [ | reflexivity ].
      intros _. right. split; [ auto | ]. right. repeat split; assumption.
Qed.

Lemma CheckInputsAndAdd_accepts_iff_witness :
  fst (fst (true, 0, state_after_A1)) = true <->
  (announces_local_masternode env_S2 A1 = true \/
   (reaches_registry_search env_S2 A1 0 (state_with expired1) /\
    ((exists mn, Find (state_with expired1) (vin A1) = Some mn /\ IsEnabled mn = true) \/
     collateral_validates env_S2 A1))).
Proof.
  apply (CheckInputsAndAdd_accepts_iff env_S2 A1 0 (state_with expired1)
           (true, 0, state_after_A1)).
  reflexivity.
Defined.

(** X24: [CheckInputsAndAdd] returns (it does not dereference a null
    [pConfIndex]) whenever the chain holds the block at the height of the
    last required confirmation of a collateral whose block is known. *)
Theorem CheckInputsAndAdd_returns env this nDoS st :
  confirmation_block_known env this ->
  is_Some (CheckInputsAndAdd env this nDoS st).
Proof.
  intros Hknown. unfold CheckInputsAndAdd. cbv zeta.
  destruct (fMasterNode env && _); [ eauto | ].
  destruct (mnp_IsNull env (lastPing this)); [ eauto | ].
  destruct (CMasternodePing_CheckAndUpdate env (lastPing this) nDoS false true st)
    as [[ok d] st1].
  destruct ok; cbn [negb]; [ | eauto ].
  destruct (match Find st1 (vin this) with Some mn => IsEnabled mn | None => false end);
    [ eauto | ].
  destruct (TRY_LOCK_cs_main env); cbn [negb]; [ | eauto ].
  destruct (AcceptableInputs env _); cbn [negb]; [ | eauto ].
  destruct (_ <? _); [ eauto | ].
  specialize (Hknown).
  unfold confirmation_block_known in Hknown.
  destruct (mapBlockIndex env _) as [pMNIndex |]; [ | eauto ].
  destruct (Hknown pMNIndex eq_refl) as [pConfIndex ->].
  destruct (_ >? _); eauto.
Qed.

Lemma CheckInputsAndAdd_returns_witness :
  is_Some (CheckInputsAndAdd env_S2 A1 0 (state_with expired1)).
Proof.
  apply (CheckInputsAndAdd_returns env_S2 A1 0 (state_with expired1)).
  intros pMNIndex H. vm_compute in H. simplify_eq. vm_compute. eauto.
Defined.

(** X25: under the hash scheme, an announcement that [Sign] signed
    successfully for its own collateral key passes [CheckSignature]; [Sign]
    has set its time of signature to the adjusted time and assigned nothing
    besides that time, the message version and the signature. *)
Theorem Sign_then_CheckSignature env key this this' :
  NetworkUpgradeActive_STAKE_MODIFIER_V2 env (chainActive_Height env) = true ->
  Sign env key (pubKeyCollateralAddress this) this = (true, this') ->
  CheckSignature env this' = true /\
  sigTime this' = GetAdjustedTime env /\
  this' = set_vchSig (vchSig this')
            (set_nMessVersion MESS_VER_HASH (set_sigTime (GetAdjustedTime env) this)).
Proof.
  intros Hup Hs.
  assert (Hshape : this' = set_vchSig (vchSig this')
            (set_nMessVersion MESS_VER_HASH (set_sigTime (GetAdjustedTime env) this))).
  { generalize Hs. unfold Sign. rewrite Hup. cbv zeta.
    destruct (SignMessage env _ key) as [signed sig].
    destruct signed; cbn [negb]; [ | discriminate ].
    destruct (VerifyMessage env _ _ _); cbn [negb]; [ | discriminate ].
    intros [= E]. rewrite <- E. reflexivity. }
  destruct (MasternodeFacts.Sign_hash_scheme_verifies env key _ this this' Hup Hs)
    as [Hver Hv].
  split; [ | split; [ rewrite Hshape; reflexivity | exact Hshape ] ].
  unfold CheckSignature. rewrite Hver.
  rewrite bool_decide_eq_true_2 by reflexivity. cbv zeta.
  replace (pubKeyCollateralAddress this') with (pubKeyCollateralAddress this)
    by (rewrite Hshape; reflexivity).
  rewrite Hv. reflexivity.
Qed.

Lemma Sign_then_CheckSignature_witness :
  let env := toy_env 2000 true true in
  let mnb := announcement 0 (ping_at 1900) in
  let this' := snd (Sign env "col" (pubKeyCollateralAddress mnb) mnb) in
  CheckSignature env this' = true /\
  sigTime this' = GetAdjustedTime env /\
  this' = set_vchSig (vchSig this')
            (set_nMessVersion MESS_VER_HASH (set_sigTime (GetAdjustedTime env) mnb)).
Proof.
  apply (Sign_then_CheckSignature (toy_env 2000 true true) "col"
           (announcement 0 (ping_at 1900))).
  - reflexivity.
  - reflexivity.
Defined.

End MasternodeMore.

(** ** Payment history and the collateral output *)

Module PaymentsFacts.
Import Schedules Scoring Masternode Payments.

(** The loop of [GetLastPaid]: a block that qualifies is the answer. *)
Lemma GetLastPaid_loop_found penv mnpayee nOffset chain :
  nMnCount penv <= INT32_MAX ->
  forall n i b,
    0 <= n ->
    chain !! i = Some b ->
    n + Z.of_nat i < nMnCount penv ->
    paid_in penv mnpayee b = true ->
    (forall j b', (j <= i)%nat -> chain !! j = Some b' -> 0 < nHeight b') ->
    (forall j b', (j < i)%nat -> chain !! j = Some b' -> paid_in penv mnpayee b' = false) ->
    GetLastPaid_loop penv mnpayee nOffset n chain = add64 (nTime b) nOffset.
Proof.
  intros Hmax. induction chain as [| c chain IH]; intros n i b Hn Hi Hlt Hpaid Hpos Hnot.
  - discriminate.
  - cbn [GetLastPaid_loop]. cbv zeta.
    pose proof (Hpos 0%nat c (Nat.le_0_l _) eq_refl) as Hc.
    destruct (Z.gtb_spec (nHeight c) 0); [ | lia ].
    destruct (Z.geb_spec n (nMnCount penv)); [ lia | ].
    rewrite add32_exact by (unfold in_int32, INT32_MAX in *; lia).
    fold (paid_in penv mnpayee c).
    destruct i as [| i].
    + injection Hi as ->. now rewrite Hpaid.
    + rewrite (Hnot 0%nat c) by (lia || reflexivity).
      apply (IH (n + 1) i b); try lia; try assumption.
      * intros j b' Hj Hb'. apply (Hpos (S j) b'); [ lia | exact Hb' ].
      * intros j b' Hj Hb'. apply (Hnot (S j) b'); [ lia | exact Hb' ].
Qed.

(** The loop of [GetLastPaid]: it answers 0 or with a block that qualifies. *)
Lemma GetLastPaid_loop_result penv mnpayee nOffset chain :
  nMnCount penv <= INT32_MAX ->
  forall n,
    0 <= n ->
    GetLastPaid_loop penv mnpayee nOffset n chain = 0 \/
    exists i b,
      chain !! i = Some b /\
      n + Z.of_nat i < nMnCount penv /\
      paid_in penv mnpayee b = true /\
      (forall j b', (j <= i)%nat -> chain !! j = Some b' -> 0 < nHeight b') /\
      (forall j b', (j < i)%nat -> chain !! j = Some b' -> paid_in penv mnpayee b' = false) /\
      GetLastPaid_loop penv mnpayee nOffset n chain = add64 (nTime b) nOffset.
Proof.
  intros Hmax. induction chain as [| c chain IH]; intros n Hn.
  - now left.
  - cbn [GetLastPaid_loop]. cbv zeta.
    destruct (Z.gtb_spec (nHeight c) 0); [ | now left ].
    destruct (Z.geb_spec n (nMnCount penv)); [ now left | ].
    rewrite add32_exact by (unfold in_int32, INT32_MAX in *; lia).
    fold (paid_in penv mnpayee c).
    destruct (paid_in penv mnpayee c) eqn:Hpaid.
    + right. exists 0%nat, c.
      split; [ reflexivity | ]. split; [ lia | ]. split; [ exact Hpaid | ].
      split; [ | split; [ intros j b' Hj; lia | reflexivity ] ].
      intros [| j] b' Hj Hb'; [ | lia ]. injection Hb' as <-. assumption.
    + destruct (IH (n + 1)) as [Hz | (i & b & Hi & Hlt & Hp & Hpos & Hnot & Hres)];
        [ lia | now left | ].
      right. exists (S i), b.
      split; [ exact Hi | ]. split; [ lia | ]. split; [ exact Hp | ].
      split; [ | split; [ | exact Hres ] ].
      * intros [| j] b' Hj Hb'.
        -- injection Hb' as <-. assumption.
        -- apply (Hpos j b'); [ lia | exact Hb' ].
      * intros [| j] b' Hj Hb'.
        -- injection Hb' as <-. assumption.
        -- apply (Hnot j b'); [ lia | exact Hb' ].
Qed.

Lemma GetLastPaid_unfold env penv mn :
  GetLastPaid env penv mn =
  GetLastPaid_loop penv (GetScriptForDestination penv (pubKeyCollateralAddress mn))
    (Z.rem (GetCompact penv (payment_hash env mn)) 150) 0 (GetChainTip penv).
Proof. unfold GetLastPaid. now destruct (GetChainTip penv). Qed.

(** X26: [GetLastPaid] answers with the time of the first block, from
    the tip down, whose payees hold the masternode with two votes, plus the
    offset of the masternode, when that block is among the first [nMnCount]
    blocks and it and the blocks above it have a positive height; it answers
    0 when there is no such block, in particular when [nMnCount] is not
    positive. *)
Theorem GetLastPaid_answer env penv mn :
  nMnCount penv <= INT32_MAX ->
  let nOffset := Z.rem (GetCompact penv (payment_hash env mn)) 150 in
  (forall i b, last_paid_block penv mn i b ->
     GetLastPaid env penv mn = add64 (nTime b) nOffset) /\
  ((forall i b, ~ last_paid_block penv mn i b) -> GetLastPaid env penv mn = 0) /\
  (nMnCount penv <= 0 -> GetLastPaid env penv mn = 0).
Proof.
  intros Hmax nOffset. rewrite GetLastPaid_unfold. fold nOffset.
  assert (Hnone : (forall i b, ~ last_paid_block penv mn i b) ->
            GetLastPaid_loop penv (GetScriptForDestination penv (pubKeyCollateralAddress mn))
              nOffset 0 (GetChainTip penv) = 0).
  { intros Hno.
    destruct (GetLastPaid_loop_result penv
                (GetScriptForDestination penv (pubKeyCollateralAddress mn))
                nOffset (GetChainTip penv) Hmax 0 (Z.le_refl 0))
      as [H0 | (i & b & Hi & Hlt & Hp & Hpos & Hnot & _)]; [ exact H0 | ].
    exfalso. apply (Hno i b). unfold last_paid_block. cbv zeta.
    repeat split; try assumption; lia. }
  split; [ | split ].
  - intros i b (Hi & Hlt & Hp & Hpos & Hnot).
    apply (GetLastPaid_loop_found penv _ nOffset (GetChainTip penv) Hmax 0 i b);
      try assumption; lia.
  - exact Hnone.
  - intros H0. apply Hnone. intros i b (_ & Hlt & _). lia.
Qed.

Lemma GetLastPaid_answer_witness :
  let env := toy_env 2000 false true in
  let mn := announcement 0 (ping_at 1900) in
  let nOffset := Z.rem (GetCompact toy_payments (payment_hash env mn)) 150 in
  (forall i b, last_paid_block toy_payments mn i b ->
     GetLastPaid env toy_payments mn = add64 (nTime b) nOffset) /\
  ((forall i b, ~ last_paid_block toy_payments mn i b) ->
   GetLastPaid env toy_payments mn = 0) /\
  (nMnCount toy_payments <= 0 -> GetLastPaid env toy_payments mn = 0).
Proof.
  apply (GetLastPaid_answer (toy_env 2000 false true) toy_payments
           (announcement 0 (ping_at 1900))).
  vm_compute. discriminate.
Defined.

(** X27: [SecondsSincePayment] is the number of seconds since
    [GetLastPaid] when that is below thirty days; otherwise it is thirty days
    plus the compact form of the hash of the masternode, whatever the clock:
    the result is below thirty days exactly when the seconds are. *)
Theorem SecondsSincePayment_month env penv mn :
  0 <= GetCompact penv (payment_hash env mn) < 2 ^ 32 ->
  let sec := sub64 (GetAdjustedTime env) (GetLastPaid env penv mn) in
  let month := 2592000 in
  (sec < month -> SecondsSincePayment env penv mn = sec) /\
  (month <= sec ->
   SecondsSincePayment env penv mn = month + GetCompact penv (payment_hash env mn)) /\
  (SecondsSincePayment env penv mn < month <-> sec < month).
Proof.
  intros Hc sec month. unfold SecondsSincePayment. fold sec.
  change (60 * 60 * 24 * 30) with month.
  assert (Hadd : add64 month (GetCompact penv (payment_hash env mn))
                 = month + GetCompact penv (payment_hash env mn)).
  { apply add64_exact.
    unfold in_int64, INT64_MAX, month in *. lia. }
  rewrite Hadd.
  destruct (Z.ltb_spec sec month); repeat split; intros; try lia.
Qed.

Lemma SecondsSincePayment_month_witness :
  let env := toy_env 2000 false true in
  let mn := announcement 0 (ping_at 1900) in
  let sec := sub64 (GetAdjustedTime env) (GetLastPaid env toy_payments mn) in
  let month := 2592000 in
  (sec < month -> SecondsSincePayment env toy_payments mn = sec) /\
  (month <= sec ->
   SecondsSincePayment env toy_payments mn
   = month + GetCompact toy_payments (payment_hash env mn)) /\
  (SecondsSincePayment env toy_payments mn < month <-> sec < month).
Proof.
  apply (SecondsSincePayment_month (toy_env 2000 false true) toy_payments
           (announcement 0 (ping_at 1900))).
  vm_compute. split; [ discriminate | reflexivity ].
Defined.

(** X28: [IsInputAssociatedWithPubkey] holds exactly when the collateral
    transaction is found and has an output to the collateral key of the
    value [GetMasternodeNodeCollateral] gives at the height of the chain;
    that value is 0 at the heights up to 1, and between 100000 and 611591
    coins above. *)
Theorem IsInputAssociatedWithPubkey_output COIN env penv mn :
  coin_ok COIN ->
  let payee := GetScriptForDestination penv (pubKeyCollateralAddress mn) in
  let height := chainActive_Height env in
  IsInputAssociatedWithPubkey COIN env penv mn = true <->
  exists vout out,
    GetTransaction_vout penv (prevout_hash (prevout (vin mn))) = Some vout /\
    In out vout /\
    scriptPubKey out = payee /\
    nValue out = GetMasternodeNodeCollateral COIN height /\
    (if height <=? 1 then nValue out = 0
     else 100000 * COIN <= nValue out <= 611591 * COIN).
Proof.
  intros Hok payee height. unfold IsInputAssociatedWithPubkey. fold payee height.
  destruct (SchedulesMore.collateral_range COIN height Hok) as (Hr & Hlow & Hhigh).
  split.
  - destruct (GetTransaction_vout penv _) as [vout |]; [ | discriminate ].
    intros H. apply existsb_exists in H as (out & Hin & Hout).
    apply andb_true_iff in Hout as [Hv Hs].
    apply Z.eqb_eq in Hv. apply bool_decide_eq_true_1 in Hs.
    exists vout, out. repeat split; try assumption.
    rewrite Hv. destruct (Z.leb_spec height 1); [ auto | lia ].
  - intros (vout & out & -> & Hin & Hs & Hv & _).
    apply existsb_exists. exists out. split; [ exact Hin | ].
    apply andb_true_iff. split; [ now apply Z.eqb_eq | now apply bool_decide_eq_true_2 ].
Qed.

Lemma IsInputAssociatedWithPubkey_output_witness :
  let env := toy_env 2000 false true in
  let mn := announcement 0 (ping_at 1900) in
  let payee := GetScriptForDestination toy_payments (pubKeyCollateralAddress mn) in
  let height := chainActive_Height env in
  IsInputAssociatedWithPubkey 100000000 env toy_payments mn = true <->
  exists vout out,
    GetTransaction_vout toy_payments (prevout_hash (prevout (vin mn))) = Some vout /\
    In out vout /\
    scriptPubKey out = payee /\
    nValue out = GetMasternodeNodeCollateral 100000000 height /\
    (if height <=? 1 then nValue out = 0
     else 100000 * 100000000 <= nValue out <= 611591 * 100000000).
Proof.
  apply (IsInputAssociatedWithPubkey_output 100000000 (toy_env 2000 false true)
           toy_payments (announcement 0 (ping_at 1900))).
  exact SchedulesFacts.coin_ok_100000000.
Defined.

End PaymentsFacts.
